(** * BidTools: the reconciliation core of [Bid Tracking Tools/BidTools.py]

    A shallow embedding of the name codec, the header normaliser, the row
    matcher, the lock-aware Workbook context and the two drivers
    ([sync_bid_workbook], [update_bid_status]), followed by the properties
    established about them.

    Conventions of the embedding.
    - A Python [str] is a [string]; a character is its code point, so the
      embedding covers code points 0..255.  The character classes of the
      [re] module and of [str.strip] are the ones Python uses on that range.
    - An exception is a value of [exn]; a call that may raise returns a
      [result].
    - A worksheet is the grid the program sees through openpyxl: cell
      values by (row, column) and the sheet's [max_row]. *)

From Stdlib Require Import ZArith NArith Ascii String List DecimalString
  DecimalPos Sorted Lia.
From stdpp Require Import gmap strings list.

(** ** Exceptions and results *)

Inductive exn : Set :=
| FileNotFoundError
| PermissionError
| ValueError
| KeyError
| EOFError.

Inductive result (A : Type) : Type :=
| Ok (a : A)
| Raise (e : exn).
Arguments Ok {A} a.
Arguments Raise {A} e.

Global Instance exn_eq_dec : EqDecision exn.
Proof. solve_decision. Defined.

Global Instance result_ret : MRet result := λ A a, Ok a.

Global Instance result_bind : MBind result := λ A B k r,
  match r with
  | Ok a => k a
  | Raise e => Raise e
  end.

(** ** Characters and text *)

Module Text.

Definition code (c : ascii) : N := N_of_ascii c.

Definition between (lo hi : N) (c : ascii) : bool :=
  ((lo <=? code c) && (code c <=? hi))%N.

Definition is_code (n : N) (c : ascii) : bool := (code c =? n)%N.

(** [\s] of [re] on a [str] pattern and the characters removed by
    [str.strip()]: TAB..CR, FS..US, space, NEL and NBSP. *)
Definition is_space (c : ascii) : bool :=
  between 9 13 c || between 28 32 c || is_code 133 c || is_code 160 c.

(** [\d]: the decimal digits (the only ones below code point 256). *)
Definition is_digit (c : ascii) : bool := between 48 57 c.

(** [\w]: alphanumeric characters and the underscore. *)
Definition is_word (c : ascii) : bool :=
  is_digit c || between 65 90 c || between 97 122 c || is_code 95 c
  || is_code 170 c || is_code 178 c || is_code 179 c || is_code 181 c
  || is_code 185 c || is_code 186 c || between 188 190 c
  || between 192 214 c || between 216 246 c || between 248 255 c.

(** The character class of the first [re.sub] of [sanitize_name]:
    backslash, slash, colon, star, question mark, double quote, the angle
    brackets and the bar. *)
Definition is_illegal (c : ascii) : bool :=
  is_code 92 c || is_code 47 c || is_code 58 c || is_code 42 c
  || is_code 63 c || is_code 34 c || is_code 60 c || is_code 62 c
  || is_code 124 c.

Definition chars (s : string) : list ascii := list_ascii_of_string s.
Definition text (l : list ascii) : string := string_of_list_ascii l.

(** [str.lstrip()], [str.rstrip()] and [str.strip()] on characters. *)
Fixpoint lstrip (l : list ascii) : list ascii :=
  match l with
  | [] => []
  | c :: l' => if is_space c then lstrip l' else l
  end.

Fixpoint rstrip (l : list ascii) : list ascii :=
  match l with
  | [] => []
  | c :: l' =>
      match rstrip l' with
      | [] => if is_space c then [] else [c]
      | r => c :: r
      end
  end.

Definition strip_chars (l : list ascii) : list ascii := lstrip (rstrip l).

Definition strip (s : string) : string := text (strip_chars (chars s)).

(** The first [re.sub] of [sanitize_name]: each such character becomes a
    space. *)
Definition sub_illegal (l : list ascii) : list ascii :=
  map (λ c, if is_illegal c then " "%char else c) l.

(** [re.sub(r"\s+", " ", value)]: every maximal run of white space becomes
    one space.  [in_run] tells that the previous character was white
    space, so that the run has already been replaced. *)
Fixpoint sub_spaces (in_run : bool) (l : list ascii) : list ascii :=
  match l with
  | [] => []
  | c :: l' =>
      if is_space c
      then (if in_run then sub_spaces true l'
            else " "%char :: sub_spaces true l')
      else c :: sub_spaces false l'
  end.

Definition sanitize_chars (l : list ascii) : list ascii :=
  strip_chars (sub_spaces false (sub_illegal l)).

(** [int(digits)] for a run of decimal digits. *)
Definition digit_value (c : ascii) : N := (code c - 48)%N.

Definition int_of_digits (l : list ascii) : N :=
  fold_left (λ acc c, (10 * acc + digit_value c)%N) l 0%N.

(** [str(n)] and the [{n}] of an f-string, for an [int]. *)
Definition str_of_int (z : Z) : string := NilZero.string_of_int (Z.to_int z).

(** [f"{n:02d}"] for a natural number. *)
Definition pad_to (width : nat) (s : string) : string :=
  text (repeat "0"%char (width - String.length s) ++ chars s).

Definition fmt_02d (n : N) : string := pad_to 2 (str_of_int (Z.of_N n)).

(** The longest prefix of characters of a class, and what follows it. *)
Fixpoint span (p : ascii → bool) (l : list ascii) : list ascii * list ascii :=
  match l with
  | [] => ([], [])
  | c :: l' =>
      if p c then let '(a, b) := span p l' in (c :: a, b) else ([], l)
  end.

End Text.

(** ** NameCodec *)

(** [sanitize_name(value)]; [None] is Python's [None]. *)
Definition sanitize_name (value : option string) : string :=
  match value with
  | None => ""
  | Some v => Text.text (Text.sanitize_chars (Text.chars v))
  end.

(** [re.match(r"^\s*(\d+)\b", name)], returning group 1.  White space and
    digits are disjoint classes and [\b] cannot hold between two digits, so
    the only way the pattern matches is: all leading white space, then the
    whole run of digits, which is not empty and is followed by the end of the
    name or by a character outside [\w]. *)
Definition match_leading_number (name : string) : option (list ascii) :=
  let '(digits, rest) := Text.span Text.is_digit (Text.lstrip (Text.chars name)) in
  match digits, rest with
  | [], _ => None
  | _, [] => Some digits
  | _, c :: _ => if Text.is_word c then None else Some digits
  end.

(** The loop of [get_next_bid_number] over the folder names. *)
Definition max_bid_number (names : list string) : N :=
  fold_left
    (λ max_value name,
       match match_leading_number name with
       | Some digits =>
           let number := Text.int_of_digits digits in
           if (max_value <? number)%N then number else max_value
       | None => max_value
       end)
    names 0%N.

(** [get_next_bid_number], on the names that [get_bid_folders] returned. *)
Definition next_bid_number (names : list string) : result Z :=
  let max_value := max_bid_number names in
  if (max_value =? 0)%N then Raise ValueError
  else Ok (Z.of_N max_value + 1)%Z.

(** The candidates of [(0?[1-9]|1[0-2])] at the head of [l], in the order in
    which the backtracking matcher tries them, each with the input left. *)
Definition month_candidates (l : list ascii) : list (list ascii * list ascii) :=
  match l with
  | a :: l1 =>
      (if Text.is_code 48 a
       then match l1 with
            | b :: l2 => if Text.between 49 57 b then [([a; b], l2)] else []
            | [] => []
            end
       else [])
      ++ (if Text.between 49 57 a then [([a], l1)] else [])
      ++ (if Text.is_code 49 a
          then match l1 with
               | b :: l2 => if Text.between 48 50 b then [([a; b], l2)] else []
               | [] => []
               end
          else [])
  | [] => []
  end.

(** The candidates of [(0?[1-9]|[12]\d|3[01])]. *)
Definition day_candidates (l : list ascii) : list (list ascii * list ascii) :=
  match l with
  | a :: l1 =>
      (if Text.is_code 48 a
       then match l1 with
            | b :: l2 => if Text.between 49 57 b then [([a; b], l2)] else []
            | [] => []
            end
       else [])
      ++ (if Text.between 49 57 a then [([a], l1)] else [])
      ++ (if Text.between 49 50 a
          then match l1 with
               | b :: l2 => if Text.is_digit b then [([a; b], l2)] else []
               | [] => []
               end
          else [])
      ++ (if Text.is_code 51 a
          then match l1 with
               | b :: l2 => if Text.between 48 49 b then [([a; b], l2)] else []
               | [] => []
               end
          else [])
  | [] => []
  end.

(** [$] without [re.MULTILINE]: the end of the string, or just before a
    newline that ends the string. *)
Definition at_dollar (l : list ascii) : bool :=
  match l with
  | [] => true
  | [c] => Text.is_code 10 c
  | _ => false
  end.

(** [re.match(r"^(0?[1-9]|1[0-2])-(0?[1-9]|[12]\d|3[01])$", raw_date)]: the
    first way, in backtracking order, to match the whole pattern; the result
    is (group 1, group 2). *)
Definition match_bid_date (raw_date : string)
  : option (list ascii * list ascii) :=
  head
    (flat_map
       (λ '(month, l1),
          match l1 with
          | dash :: l2 =>
              if Text.is_code 45 dash
              then flat_map
                     (λ '(day, l3), if at_dollar l3 then [(month, day)] else [])
                     (day_candidates l2)
              else []
          | [] => []
          end)
       (month_candidates (Text.chars raw_date))).

Definition normalize_bid_date (raw_date : string) : result string :=
  match match_bid_date raw_date with
  | None => Raise ValueError
  | Some (g1, g2) =>
      let month := Text.int_of_digits g1 in
      let day := Text.int_of_digits g2 in
      Ok (Text.fmt_02d month +:+ "-" +:+ Text.fmt_02d day)
  end.

Definition build_bid_folder_name
  (bid_number : Z) (initials bid_date customer bid_name : string) : string :=
  let name :=
    Text.str_of_int bid_number +:+ " - " +:+ initials +:+ " - " +:+ bid_date
    +:+ " - " +:+ customer +:+ " - " +:+ bid_name in
  sanitize_name (Some name).

Record BidFolderInfo : Set := {
  bid_number : string;
  initials : string;
  bid_date : string;
  customer : string;
  bid_name : string;
  folder : string;
}.

(** [re.split(r"\s-\s", s, maxsplit)] for [maxsplit > 0]: the string is cut
    at the leftmost occurrences of a white space character, a dash and a
    white space character, scanning on after each cut, at most [maxsplit]
    times.  [push c parts] puts [c] in front of the part being read. *)
Definition push (c : ascii) (parts : list (list ascii)) : list (list ascii) :=
  match parts with
  | [] => [[c]]
  | p :: ps => (c :: p) :: ps
  end.

Definition is_dash (c : ascii) : bool := Text.is_code 45 c.

Fixpoint re_split (maxsplit : nat) (s : list ascii) {struct s}
  : list (list ascii) :=
  match maxsplit with
  | 0 => [s]
  | S n =>
      match s with
      | [] => [[]]
      | a :: s1 =>
          match s1 with
          | d :: b :: rest =>
              if Text.is_space a && is_dash d && Text.is_space b
              then [] :: re_split n rest
              else push a (re_split maxsplit s1)
          | _ => push a (re_split maxsplit s1)
          end
      end
  end.

Definition parse_bid_folder_name (folder_name : string) : option BidFolderInfo :=
  match re_split 4 (Text.chars folder_name) with
  | p0 :: p1 :: p2 :: p3 :: p4 :: _ =>
      Some {| bid_number := Text.text (Text.strip_chars p0);
              initials := Text.text (Text.strip_chars p1);
              bid_date := Text.text (Text.strip_chars p2);
              customer := Text.text (Text.strip_chars p3);
              bid_name := Text.text (Text.strip_chars p4);
              folder := folder_name |}
  | _ => None
  end.

(** The numbers that the loop of [get_next_bid_number] compares: for each
    name that [match_leading_number] accepts, the integer of its digits. *)
Definition bid_numbers (names : list string) : list N :=
  omap (λ name, Text.int_of_digits <$> match_leading_number name) names.

(** The claim's reading of [get_next_bid_number]: the leading run of digits
    of each name, one plus the largest of them, and a failure exactly when
    no name starts with a digit. *)
Definition leading_digits (name : string) : list ascii :=
  (Text.span Text.is_digit (Text.chars name)).1.

Definition claimed_next_bid_number (names : list string) : result Z :=
  match filter (λ ds, ds ≠ []) (leading_digits <$> names) with
  | [] => Raise ValueError
  | runs => Ok (Z.of_N (foldr N.max 0%N (Text.int_of_digits <$> runs)) + 1)%Z
  end.

(** The claim's reading of [parse_bid_folder_name]: the separator is the
    literal space, dash, space. *)
Fixpoint split_literal (maxsplit : nat) (s : list ascii) {struct s}
  : list (list ascii) :=
  match maxsplit with
  | 0 => [s]
  | S n =>
      match s with
      | [] => [[]]
      | a :: s1 =>
          match s1 with
          | d :: b :: rest =>
              if bool_decide (a = " "%char) && is_dash d
                 && bool_decide (b = " "%char)
              then [] :: split_literal n rest
              else push a (split_literal maxsplit s1)
          | _ => push a (split_literal maxsplit s1)
          end
      end
  end.

Definition decode_literal (folder_name : string) : option BidFolderInfo :=
  match split_literal 4 (Text.chars folder_name) with
  | p0 :: p1 :: p2 :: p3 :: p4 :: _ =>
      Some {| bid_number := Text.text (Text.strip_chars p0);
              initials := Text.text (Text.strip_chars p1);
              bid_date := Text.text (Text.strip_chars p2);
              customer := Text.text (Text.strip_chars p3);
              bid_name := Text.text (Text.strip_chars p4);
              folder := folder_name |}
  | _ => None
  end.

(** A separator of [re_split], and the parts of a split put together again
    with the separators that stood between them. *)
Definition is_separator (sep : list ascii) : Prop :=
  ∃ a b, sep = [a; "-"%char; b]
         ∧ Text.is_space a = true ∧ Text.is_space b = true.

(** A text that does not start, or does not end, with white space. *)
Definition no_lead (l : list ascii) : Prop :=
  match l with
  | c :: _ => Text.is_space c = false
  | [] => True
  end.

Definition no_trail (l : list ascii) : Prop :=
  match last l with
  | Some c => Text.is_space c = false
  | None => True
  end.

(** The text starts with a separator of [re_split]. *)
Definition starts_with_separator (l : list ascii) : bool :=
  match l with
  | a :: d :: b :: _ => Text.is_space a && is_dash d && Text.is_space b
  | _ => false
  end.

(** A separator of [re_split] starts somewhere in the text. *)
Fixpoint has_separator (l : list ascii) : bool :=
  starts_with_separator l
  || match l with
     | [] => false
     | _ :: l' => has_separator l'
     end.

(** A field that [re_split] cannot cut when a separator follows it: it
    contains no white space, dash, white space and does not end in white
    space, dash. *)
Definition separator_free (s : string) : Prop :=
  has_separator (Text.chars s ++ [" "%char]) = false.

(** The claim's condition on a field: the literal " - " does not occur in
    it and it has no character that [sanitize_name] replaces. *)
Fixpoint has_literal_separator (l : list ascii) : bool :=
  match l with
  | a :: l' =>
      match l' with
      | d :: b :: _ =>
          bool_decide (a = " "%char) && is_dash d && bool_decide (b = " "%char)
          || has_literal_separator l'
      | _ => false
      end
  | [] => false
  end.

Definition claim_valid_field (s : string) : bool :=
  negb (has_literal_separator (Text.chars s))
  && negb (existsb Text.is_illegal (Text.chars s)).

(** The state of [sub_spaces] after a text: was its last character white
    space. *)
Definition ends_in_space (in_run : bool) (l : list ascii) : bool :=
  match last l with
  | Some c => Text.is_space c
  | None => in_run
  end.

(** A character that [sanitize_name] leaves alone. *)
Definition plain (c : ascii) : Prop :=
  Text.is_space c = false ∧ Text.is_illegal c = false.

(** The characters of the separator that [build_bid_folder_name] puts
    between the fields. *)
Definition JOINER : list ascii := [" "; "-"; " "]%char.

Fixpoint rejoin (parts seps : list (list ascii)) : list ascii :=
  match parts, seps with
  | p :: parts', sep :: seps' => p ++ sep ++ rejoin parts' seps'
  | p :: _, [] => p
  | [], _ => []
  end.

(** ** The worksheet grid

    What the program needs from openpyxl: a cell is read and written by its
    1-based row and column, a cell that holds nothing reads as [None], and
    the sheet reports [max_row].  Cell values are text or integers.  Writing
    a cell below the last row extends [max_row]; the reads of this program
    stay within rows [1..max_row] and leave it as it is. *)

Inductive value : Set :=
| VStr (s : string)
| VInt (z : Z).

Global Instance value_eq_dec : EqDecision value.
Proof. solve_decision. Defined.

Record Worksheet : Type := {
  cells : gmap (nat * nat) value;
  max_row : nat;
}.

Global Instance Worksheet_eq_dec : EqDecision Worksheet.
Proof. solve_decision. Defined.

(** A sheet that [create_sheet] has just made: no cell, and [max_row] 1. *)
Definition empty_sheet : Worksheet := {| cells := ∅; max_row := 1 |}.

(** [worksheet.cell(row=row, column=col).value] *)
Definition cell_value (ws : Worksheet) (row col : nat) : option value :=
  cells ws !! (row, col).

(** [worksheet.cell(row=row, column=col).value = v] *)
Definition set_cell (ws : Worksheet) (row col : nat) (v : value) : Worksheet :=
  {| cells := <[(row, col) := v]> (cells ws);
     max_row := Nat.max row (max_row ws) |}.

(** [str(value)] *)
Definition str (v : value) : string :=
  match v with
  | VStr s => s
  | VInt z => Text.str_of_int z
  end.

(** The truth value of a cell value in [if value:]. *)
Definition truthy (v : option value) : bool :=
  match v with
  | None => false
  | Some (VStr s) => negb (bool_decide (s = ""))
  | Some (VInt z) => negb (bool_decide (z = 0%Z))
  end.

(** [value != s] for a cell value and a [str]: an [int] never equals a
    [str]. *)
Definition differs (v : option value) (s : string) : bool :=
  negb (bool_decide (v = Some (VStr s))).

(** ** SchemaNormalizer *)

Definition HEADER_DEFAULTS : list string :=
  [ "Bid Folder"; "Bid Number"; "Estimator"; "Bid Due Date"; "Customer/GC";
    "Bid Name"; "Proposal Date"; "Proposal Amount"; "Bid Status" ].

Definition legacy_header_map : gmap string string :=
  list_to_map
    [ ("Folder Name", "Bid Folder"); ("Bid#", "Bid Number");
      ("GC/Owner", "Customer/GC"); ("Description", "Bid Name");
      ("Due Date", "Bid Due Date"); ("Status", "Bid Status") ].

(** [enumerate(l, start)] *)
Definition enumerate {A : Type} (start : nat) (l : list A) : list (nat * A) :=
  combine (seq start (length l)) l.

(** [headers.setdefault(key, col)] *)
Definition setdefault (headers : gmap string nat) (key : string) (col : nat)
  : gmap string nat :=
  match headers !! key with
  | Some _ => headers
  | None => <[key := col]> headers
  end.

(** One turn of the first loop of [ensure_headers]; the state is the sheet,
    [headers] and [has_any]. *)
Definition scan_header (st : Worksheet * gmap string nat * bool) (col : nat)
  : Worksheet * gmap string nat * bool :=
  let '(ws, headers, has_any) := st in
  match cell_value ws 1 col with
  | Some v =>
      if truthy (Some v) then
        let canonical := default (str v) (legacy_header_map !! str v) in
        let ws' :=
          if differs (Some v) canonical
          then set_cell ws 1 col (VStr canonical) else ws in
        (ws', setdefault headers canonical col, true)
      else st
  | None => st
  end.

Definition write_defaults (ws : Worksheet) : Worksheet :=
  fold_left (λ ws '(idx, header), set_cell ws 1 idx (VStr header))
    (enumerate 1 HEADER_DEFAULTS) ws.

Definition index_defaults (headers : gmap string nat) : gmap string nat :=
  fold_left (λ headers '(idx, header), <[header := idx]> headers)
    (enumerate 1 HEADER_DEFAULTS) headers.

Definition ensure_headers (ws : Worksheet) : gmap string nat * Worksheet :=
  let '(ws1, headers, has_any) :=
    fold_left scan_header (seq 1 30) (ws, ∅, false) in
  if negb has_any then
    (index_defaults headers, write_defaults ws1)
  else
    let needs_reorder :=
      existsb (λ '(idx, header), differs (cell_value ws1 1 idx) header)
        (enumerate 1 HEADER_DEFAULTS) in
    let ws2 := if needs_reorder then write_defaults ws1 else ws1 in
    (index_defaults headers, ws2).

(** What the first loop of [ensure_headers] makes of a header text and of a
    cell of row 1 (stated apart from the loop, to describe its result). *)
Definition resolve (s : string) : string :=
  default s (legacy_header_map !! s).

Definition normal_label (o : option value) : option value :=
  match o with
  | Some v => if truthy (Some v) then Some (VStr (resolve (str v))) else o
  | None => None
  end.

(** The header that [HEADER_DEFAULTS] assigns to a cell, if any. *)
Definition default_at (row col : nat) : option string :=
  if decide (row = 1 ∧ 1 ≤ col) then HEADER_DEFAULTS !! (col - 1) else None.

(** A header row that [ensure_headers] has nothing to do on. *)
Definition header_row_normal (ws : Worksheet) : Prop :=
  (∀ i k, HEADER_DEFAULTS !! i = Some k → cell_value ws 1 (S i) = Some (VStr k))
  ∧ ∀ col, col ∈ seq 1 30 →
      normal_label (cell_value ws 1 col) = cell_value ws 1 col.

(** ** RowMatcher *)

Definition get_last_row (ws : Worksheet) : nat :=
  if decide (max_row ws = 0) then 1 else max_row ws.

Definition get_cell_text (ws : Worksheet) (row col : nat) : string :=
  match cell_value ws row col with
  | None => ""
  | Some v => Text.strip (str v)
  end.

(** The test of the loop of [get_row_index_by_value] at one row. *)
Definition row_matches (ws : Worksheet) (col : nat) (target : string) (row : nat)
  : bool :=
  match cell_value ws row col with
  | None => false
  | Some v => bool_decide (Text.strip (str v) = target)
  end.

(** [range(2, get_last_row(worksheet) + 1)] has [get_last_row - 1] rows. *)
Definition get_row_index_by_value (ws : Worksheet) (col : nat) (target : string)
  : option nat :=
  find (row_matches ws col target) (seq 2 (get_last_row ws - 1)).

(** ** State and exceptions

    A computation that reads and changes a state [S] and may raise: the
    state reached is returned in both cases, since what was written before
    an exception stays written. *)

Definition M (S A : Type) : Type := S → result A * S.

Global Instance M_ret {S : Type} : MRet (M S) := λ A a s, (Ok a, s).

Global Instance M_bind {S : Type} : MBind (M S) := λ A B k m s,
  match m s with
  | (Ok a, s') => k a s'
  | (Raise e, s') => (Raise e, s')
  end.

Global Instance M_fmap {S : Type} : FMap (M S) := λ A B f m s,
  match m s with
  | (Ok a, s') => (Ok (f a), s')
  | (Raise e, s') => (Raise e, s')
  end.

Definition raise {S A : Type} (e : exn) : M S A := λ s, (Raise e, s).
Definition get {S : Type} : M S S := λ s, (Ok s, s).
Definition put {S : Type} (s : S) : M S unit := λ _, (Ok tt, s).
Definition modify {S : Type} (f : S → S) : M S unit := λ s, (Ok tt, f s).

(** [headers[key]] *)
Definition header {S : Type} (headers : gmap string nat) (key : string)
  : M S nat :=
  match headers !! key with
  | Some col => mret col
  | None => raise KeyError
  end.

Definition write_row (headers : gmap string nat) (row : nat)
  (bid_info : BidFolderInfo) : M Worksheet unit :=
  col ← header headers "Bid Folder";
  modify (λ ws, set_cell ws row col (VStr (folder bid_info)));;
  col ← header headers "Bid Number";
  modify (λ ws, set_cell ws row col (VStr (bid_number bid_info)));;
  col ← header headers "Estimator";
  modify (λ ws, set_cell ws row col (VStr (initials bid_info)));;
  col ← header headers "Bid Due Date";
  modify (λ ws, set_cell ws row col (VStr (bid_date bid_info)));;
  col ← header headers "Customer/GC";
  modify (λ ws, set_cell ws row col (VStr (customer bid_info)));;
  col ← header headers "Bid Name";
  modify (λ ws, set_cell ws row col (VStr (bid_name bid_info))).

(** The loop body of [sync_bid_workbook] for one folder name; the result is
    the running [last_row]. *)
Definition sync_folder (headers : gmap string nat) (last_row : nat)
  (folder_name : string) : M Worksheet nat :=
  match parse_bid_folder_name folder_name with
  | None => mret last_row
  | Some info =>
      col ← header headers "Bid Number";
      ws ← get;
      row ← match get_row_index_by_value ws col (bid_number info) with
            | Some row => mret (Some row)
            | None =>
                col ← header headers "Bid Folder";
                ws ← get;
                mret (get_row_index_by_value ws col (folder info))
            end;
      match row with
      | Some row => write_row headers row info;; mret last_row
      | None => write_row headers (last_row + 1) info;; mret (last_row + 1)
      end
  end.

Fixpoint sync_folders (headers : gmap string nat) (last_row : nat)
  (folder_names : list string) : M Worksheet unit :=
  match folder_names with
  | [] => mret tt
  | folder_name :: rest =>
      last_row ← sync_folder headers last_row folder_name;
      sync_folders headers last_row rest
  end.

(** *** The loop read as a function

    With the canonical columns in [headers], no lookup of [write_row] or
    [sync_folder] can fail, and a turn of the loop is the following function
    of the sheet and of [last_row]; the lemmas [write_row_canonical] and
    [sync_folder_canonical] below say so. *)

Definition canonical_headers (headers : gmap string nat) : Prop :=
  ∀ i k, HEADER_DEFAULTS !! i = Some k → headers !! k = Some (S i).

Definition put_row (ws : Worksheet) (row : nat) (info : BidFolderInfo)
  : Worksheet :=
  let ws := set_cell ws row 1 (VStr (folder info)) in
  let ws := set_cell ws row 2 (VStr (bid_number info)) in
  let ws := set_cell ws row 3 (VStr (initials info)) in
  let ws := set_cell ws row 4 (VStr (bid_date info)) in
  let ws := set_cell ws row 5 (VStr (customer info)) in
  set_cell ws row 6 (VStr (bid_name info)).

Definition target_row (ws : Worksheet) (info : BidFolderInfo) : option nat :=
  match get_row_index_by_value ws 2 (bid_number info) with
  | Some row => Some row
  | None => get_row_index_by_value ws 1 (folder info)
  end.

Definition sync_step (st : Worksheet * nat) (folder_name : string)
  : Worksheet * nat :=
  let '(ws, last_row) := st in
  match parse_bid_folder_name folder_name with
  | None => st
  | Some info =>
      match target_row ws info with
      | Some row => (put_row ws row info, last_row)
      | None => (put_row ws (last_row + 1) info, last_row + 1)
      end
  end.

(** *** Notions for the second run

    The cell that [write_row] puts in a column for a record; a row that
    carries a record; the last record of a list of names with a given bid
    number; a sheet in which, for each bid number of the names, the first
    row with that number carries the last record with that number. *)








(** The sheet after the body of [sync_bid_workbook], for the sorted folder
    names (lemma [sync_body_run]). *)
Definition sync_sheet (folder_names : list string) (ws : Worksheet) : Worksheet :=
  let ws1 := (ensure_headers ws).2 in
  (fold_left sync_step folder_names (ws1, get_last_row ws1)).1.

(** ** Paths, files and the operator

    A path is a directory and a last component.  The world outside the
    program: the workbooks on disk, the files that another process holds
    open, the directories with their entries (name, is it a directory), the
    lines the operator is going to type, and the clock. *)

Record Path : Set := { parent : string; name : string }.

Global Instance Path_eq_dec : EqDecision Path.
Proof. solve_decision. Defined.

Global Instance Path_countable : Countable Path :=
  inj_countable' (λ p, (parent p, name p))
    (λ '(d, n), {| parent := d; name := n |}) (λ p, match p with Build_Path _ _ => eq_refl end).

Record datetime : Set := {
  year : nat; month : nat; day : nat;
  hour : nat; minute : nat; second : nat;
}.

Abbreviation Workbook := (gmap string Worksheet).

Record world : Type := {
  files : gmap Path Workbook;
  locked : gset Path;
  dirs : gmap Path (list (string * bool));
  stdin : list string;
  clock : datetime;
}.

Definition set_files (f : gmap Path Workbook) (w : world) : world :=
  {| files := f; locked := locked w; dirs := dirs w; stdin := stdin w;
     clock := clock w |}.

Definition set_stdin (lines : list string) (w : world) : world :=
  {| files := files w; locked := locked w; dirs := dirs w; stdin := lines;
     clock := clock w |}.

(** [str.rfind(".")] on the characters: the index of the last dot. *)
Fixpoint rfind_dot (l : list ascii) : option nat :=
  match l with
  | [] => None
  | c :: l' =>
      match rfind_dot l' with
      | Some i => Some (S i)
      | None => if Text.is_code 46 c then Some 0 else None
      end
  end.

(** [path.stem] and [path.suffix]: the name is cut at its last dot, unless
    that dot is the first or the last character. *)
Definition split_suffix (p : Path) : string * string :=
  let l := Text.chars (name p) in
  match rfind_dot l with
  | Some (S i) =>
      if decide (S i < length l - 1)
      then (Text.text (take (S i) l), Text.text (drop (S i) l))
      else (name p, "")
  | _ => (name p, "")
  end.

Definition stem (p : Path) : string := fst (split_suffix p).
Definition suffix (p : Path) : string := snd (split_suffix p).

(** [path.with_name(new)], which refuses a path without a name. *)
Definition with_name {S : Type} (p : Path) (new : string) : M S Path :=
  if decide (name p = "") then raise ValueError
  else mret {| parent := parent p; name := new |}.

(** [strftime("%Y%m%d-%H%M%S")] *)
Definition nat_field (width n : nat) : string :=
  Text.pad_to width (Text.str_of_int (Z.of_nat n)).

Definition strftime (t : datetime) : string :=
  nat_field 4 (year t) +:+ nat_field 2 (month t) +:+ nat_field 2 (day t)
  +:+ "-" +:+ nat_field 2 (hour t) +:+ nat_field 2 (minute t)
  +:+ nat_field 2 (second t).

Definition get_pending_save_path (path : Path) : M world Path :=
  w ← get;
  let stamp := strftime (clock w) in
  with_name path (stem path +:+ " - Pending Update " +:+ stamp +:+ suffix path).

(** [openpyxl.load_workbook(path)]: a file that another process holds
    open cannot be opened. *)
Definition load_workbook (path : Path) : M world Workbook :=
  w ← get;
  match files w !! path with
  | None => raise FileNotFoundError
  | Some wb => if decide (path ∈ locked w) then raise PermissionError else mret wb
  end.

(** [workbook.save(path)] *)
Definition save (wb : Workbook) (path : Path) : M world unit :=
  w ← get;
  if decide (path ∈ locked w) then raise PermissionError
  else put (set_files (<[path := wb]> (files w)) w).

(** [shutil.copy2(src, dst)]: the bytes of a file that is held open can
    still be copied, which is what [new_excel_context] relies on. *)
Definition copy2 (src dst : Path) : M world unit :=
  w ← get;
  match files w !! src with
  | None => raise FileNotFoundError
  | Some wb =>
      if decide (dst ∈ locked w) then raise PermissionError
      else put (set_files (<[dst := wb]> (files w)) w)
  end.

(** [try: m except e: handler] *)
Definition try_except {S A : Type} (m : M S A) (e : exn) (handler : M S A)
  : M S A := λ s,
  match m s with
  | (Raise e', s') => if decide (e' = e) then handler s' else (Raise e', s')
  | r => r
  end.

(** The context keeps the Workbook object; [worksheet] is the title under
    which the sheet object lives in it, so that what is written through the
    sheet is in the Workbook that [close_excel_context] saves. *)
Record ExcelContext : Type := {
  workbook : Workbook;
  worksheet : string;
  read_only : bool;
  pending_save_path : option Path;
  workbook_path : Path;
}.

Definition new_excel_context (path : Path) (worksheet_name : string)
  : M world ExcelContext :=
  w ← get;
  if negb (bool_decide (is_Some (files w !! path))) then raise FileNotFoundError
  else
    '(wb, ro, pending) ←
      try_except
        (wb ← load_workbook path; mret (wb, false, None))
        PermissionError
        (pending ← get_pending_save_path path;
         copy2 path pending;;
         wb ← load_workbook pending;
         mret (wb, true, Some pending));
    let wb' :=
      match wb !! worksheet_name with
      | Some _ => wb
      | None => <[worksheet_name := empty_sheet]> wb
      end in
    mret {| workbook := wb'; worksheet := worksheet_name; read_only := ro;
            pending_save_path := pending; workbook_path := path |}.

Definition close_excel_context (context : ExcelContext) : M world unit :=
  match read_only context, pending_save_path context with
  | true, Some pending => save (workbook context) pending
  | _, _ => save (workbook context) (workbook_path context)
  end.

(** The sheet object of a context, and the context after the sheet object
    has been mutated into [ws]. *)
Definition context_sheet (context : ExcelContext) : Worksheet :=
  default empty_sheet (workbook context !! worksheet context).

Definition context_with_sheet (context : ExcelContext) (ws : Worksheet)
  : ExcelContext :=
  {| workbook := <[worksheet context := ws]> (workbook context);
     worksheet := worksheet context; read_only := read_only context;
     pending_save_path := pending_save_path context;
     workbook_path := workbook_path context |}.

(** [try: body finally: close_excel_context(context)], the body working on
    the world and on the sheet of the context. *)
Definition try_finally_close {A : Type} (context : ExcelContext)
  (body : M (world * Worksheet) A) : M world A := λ w,
  let '(r, (w1, ws)) := body (w, context_sheet context) in
  match close_excel_context (context_with_sheet context ws) w1 with
  | (Ok _, w2) => (r, w2)
  | (Raise e, w2) => (Raise e, w2)
  end.

Definition on_world {A : Type} (m : M world A) : M (world * Worksheet) A :=
  λ '(w, ws), let '(r, w') := m w in (r, (w', ws)).

Definition on_sheet {A : Type} (m : M Worksheet A) : M (world * Worksheet) A :=
  λ '(w, ws), let '(r, ws') := m ws in (r, (w, ws')).

(** [sorted(names)]: insertion keeps the order of equal names. *)
Fixpoint insert_sorted (x : string) (l : list string) : list string :=
  match l with
  | [] => [x]
  | y :: l' => if String.leb x y then x :: l else y :: insert_sorted x l'
  end.

Definition sorted (l : list string) : list string := foldr insert_sorted [] l.

(** The folder names that [get_bid_folders] makes of the entries of a
    directory. *)
Definition folder_names (entries : list (string * bool)) : list string :=
  sorted (fst <$> filter (λ e, snd e = true) entries).

(** [get_bid_folders(bid_root)], as the names of the folders. *)
Definition get_bid_folders (bid_root : Path) : M world (list string) :=
  w ← get;
  match dirs w !! bid_root with
  | None => raise FileNotFoundError
  | Some entries => mret (folder_names entries)
  end.

(** [get_next_bid_number(bid_root)] *)
Definition get_next_bid_number (bid_root : Path) : M world Z :=
  folders ← get_bid_folders bid_root;
  match next_bid_number folders with
  | Ok n => mret n
  | Raise e => raise e
  end.

(** The sheet that a workbook gives for a title: the one it has, or the one
    that [create_sheet] makes. *)
Definition sheet_of (wb : Workbook) (title : string) : Worksheet :=
  default empty_sheet (wb !! title).

(** ** ReconciliationDriver *)

Definition run_ensure_headers : M Worksheet (gmap string nat) :=
  λ ws, let '(headers, ws') := ensure_headers ws in (Ok headers, ws').

Definition sync_body (bid_root : Path) : M (world * Worksheet) unit :=
  headers ← on_sheet run_ensure_headers;
  last_row ← on_sheet (get_last_row <$> get);
  folders ← on_world (get_bid_folders bid_root);
  on_sheet (sync_folders headers last_row folders).

Definition sync_bid_workbook (bid_root workbook_path : Path)
  (worksheet_name : string) : M world unit :=
  context ← new_excel_context workbook_path worksheet_name;
  try_finally_close context (sync_body bid_root).

(** [input(prompt)]: the next line the operator types. *)
Definition input : M world string := λ w,
  match stdin w with
  | [] => (Raise EOFError, w)
  | line :: rest => (Ok line, set_stdin rest w)
  end.

Definition nonempty (s : string) : bool := negb (bool_decide (s = "")).

Fixpoint read_non_empty_from (lines : list string) : result string * list string :=
  match lines with
  | [] => (Raise EOFError, [])
  | line :: rest =>
      let value := sanitize_name (Some line) in
      if nonempty (Text.strip value) then (Ok value, rest)
      else read_non_empty_from rest
  end.

Definition read_non_empty : M world string := λ w,
  let '(r, rest) := read_non_empty_from (stdin w) in (r, set_stdin rest w).

Definition lower (c : ascii) : ascii :=
  if Text.between 65 90 c then ascii_of_N (Text.code c + 32) else c.

(** [re.match(r"^(y|yes)$", raw, re.IGNORECASE)] and the same for
    [(n|no)], on a stripped line. *)
Definition says (answers : list string) (raw : string) : bool :=
  bool_decide (Text.text (lower <$> Text.chars raw) ∈ answers).

Fixpoint read_yes_no_from (lines : list string) : result bool * list string :=
  match lines with
  | [] => (Raise EOFError, [])
  | line :: rest =>
      let raw := Text.strip line in
      if negb (nonempty raw) then (Ok false, rest)
      else if says ["y"; "yes"] raw then (Ok true, rest)
      else if says ["n"; "no"] raw then (Ok false, rest)
      else read_yes_no_from rest
  end.

Definition read_yes_no_default_no : M world bool := λ w,
  let '(r, rest) := read_yes_no_from (stdin w) in (r, set_stdin rest w).

Definition has_header (headers : gmap string nat) (key : string) : bool :=
  bool_decide (is_Some (headers !! key)).

(** The two prompts about a proposal field of [update_bid_status]: the
    result is the new text, or the empty string to keep the cell. *)
Definition ask_field (headers : gmap string nat) (key : string) (row : nat)
  : M (world * Worksheet) string :=
  if has_header headers key then
    col ← header headers key;
    ws ← on_sheet get;
    let current := get_cell_text ws row col in
    if nonempty current then
      yes ← on_world read_yes_no_default_no;
      if yes : bool then Text.strip <$> on_world input else mret ""
    else Text.strip <$> on_world input
  else mret "".

Definition put_field (headers : gmap string nat) (key : string) (row : nat)
  (text : string) : M (world * Worksheet) unit :=
  if nonempty text && has_header headers key then
    col ← header headers key;
    on_sheet (modify (λ ws, set_cell ws row col (VStr text)))
  else mret tt.

Definition update_body (bid_number status : string)
  : M (world * Worksheet) unit :=
  headers ← on_sheet run_ensure_headers;
  col ← header headers "Bid Number";
  ws ← on_sheet get;
  match get_row_index_by_value ws col bid_number with
  | None => raise ValueError
  | Some row =>
      proposal_amount ← ask_field headers "Proposal Amount" row;
      proposal_date ← ask_field headers "Proposal Date" row;
      award ← (if has_header headers "Award"
               then Text.strip <$> on_world input else mret "");
      put_field headers "Bid Status" row status;;
      put_field headers "Proposal Amount" row proposal_amount;;
      put_field headers "Proposal Date" row proposal_date;;
      put_field headers "Award" row award
  end.

Definition update_bid_status (workbook_path : Path) (worksheet_name : string)
  : M world unit :=
  bid_number ← read_non_empty;
  status ← Text.strip <$> input;
  context ← new_excel_context workbook_path worksheet_name;
  try_finally_close context (update_body bid_number status).

(** [keeps R m]: whatever [m] does, the state it leaves is related by [R] to
    the state it started from. *)
Definition keeps {S A : Type} (R : S → S → Prop) (m : M S A) : Prop :=
  ∀ s, R s (m s).2.


(** A relation on sheets, or on worlds, read on the pairs that the bodies
    of the drivers work on. *)
Definition on_sheets (R : Worksheet → Worksheet → Prop)
  : world * Worksheet → world * Worksheet → Prop :=
  λ st st', R st.2 st'.2.

Definition on_worlds (R : world → world → Prop)
  : world * Worksheet → world * Worksheet → Prop :=
  λ st st', R st.1 st'.1.

(** Two worlds with the same files, locks, directories and clock: they
    differ at most by the lines that the operator has still to type. *)
Definition same_disk (w w' : world) : Prop :=
  files w' = files w ∧ locked w' = locked w ∧ dirs w' = dirs w
  ∧ clock w' = clock w.

(** The path that [close_excel_context] saves to. *)
Definition active_path (context : ExcelContext) : Path :=
  match read_only context, pending_save_path context with
  | true, Some pending => pending
  | _, _ => workbook_path context
  end.

(** The path that [get_pending_save_path] builds at time [t]. *)
Definition side_path (path : Path) (t : datetime) : Path :=
  {| parent := parent path;
     name := stem path +:+ " - Pending Update " +:+ strftime t +:+ suffix path |}.

(** The workbook object of a new context: the sheet is made if the workbook
    has none of that title. *)
Definition with_sheet_made (wb : Workbook) (title : string) : Workbook :=
  match wb !! title with
  | Some _ => wb
  | None => <[title := empty_sheet]> wb
  end.

(** Two sheets that agree outside row 1 and outside the listed columns. *)
Definition same_but (cols : list nat) (ws ws' : Worksheet) : Prop :=
  ∀ r c, r ≠ 1 → c ∉ cols → cell_value ws' r c = cell_value ws r c.

(** ** A small world for the examples *)

Definition demo_root : Path := {| parent := "S:"; name := "Bids" |}.

Definition demo_book : Path := {| parent := "S:"; name := "Bids.xlsx" |}.

Definition demo_clock : datetime :=
  {| year := 2026; month := 3; day := 7; hour := 9; minute := 5; second := 0 |}.

Definition demo_world (wb : Workbook) (held : gset Path)
  (folders : list string) (lines : list string) : world :=
  {| files := {[ demo_book := wb ]};
     locked := held;
     dirs := {[ demo_root := (λ n, (n, true)) <$> folders ]};
     stdin := lines;
     clock := demo_clock |}.

(** A sheet whose only cells are the given labels, in row 1 from column 1. *)
Definition sheet_with_headers (labels : list string) : Worksheet :=
  {| cells := list_to_map
       ((λ '(idx, label), ((1, idx), VStr label)) <$> enumerate 1 labels);
     max_row := 1 |}.

Definition TAB : string := String "009"%char "".

(** ** Notions for the further properties *)

(** A text in which white space occurs only as single spaces; [in_run]
    tells that a white space character stands just before the text. *)
Fixpoint single_spaced (in_run : bool) (l : list ascii) : Prop :=
  match l with
  | [] => True
  | c :: l' =>
      if Text.is_space c
      then c = " "%char ∧ in_run = false ∧ single_spaced true l'
      else single_spaced false l'
  end.


(** The texts that the two groups of the pattern of [normalize_bid_date]
    can match: months 1 to 12 and days 1 to 31, with or without a leading
    zero below ten. *)
Definition month_texts : list (list ascii) :=
  ((λ b, ["0"%char; b]) <$> Text.chars "123456789")
  ++ ((λ a, [a]) <$> Text.chars "123456789")
  ++ ((λ b, ["1"%char; b]) <$> Text.chars "012").

Definition day_texts : list (list ascii) :=
  ((λ b, ["0"%char; b]) <$> Text.chars "123456789")
  ++ ((λ a, [a]) <$> Text.chars "123456789")
  ++ ((λ b, ["1"%char; b]) <$> Text.chars "0123456789")
  ++ ((λ b, ["2"%char; b]) <$> Text.chars "0123456789")
  ++ ((λ b, ["3"%char; b]) <$> Text.chars "01").

(** The text that [normalize_bid_date] returns for a month and a day. *)
Definition date_text (month day : N) : string :=
  Text.fmt_02d month +:+ "-" +:+ Text.fmt_02d day.


(** Two sheets that agree outside one row. *)
Definition same_outside_row (row : nat) (ws ws' : Worksheet) : Prop :=
  ∀ r c, r ≠ row → cell_value ws' r c = cell_value ws r c.

(** Two sheets that agree at one cell. *)
Definition same_at (row col : nat) (ws ws' : Worksheet) : Prop :=
  cell_value ws' row col = cell_value ws row col.

(** The test of the first loop of [ensure_headers] read as a question
    about a column of row 1: does it hold a value that counts as true and
    that stands, after the legacy names are resolved, for the header? *)
Definition header_matches (ws : Worksheet) (key : string) (col : nat) : bool :=
  match cell_value ws 1 col with
  | Some v => truthy (Some v) && bool_decide (resolve (str v) = key)
  | None => false
  end.

(** A sheet with the default headers and the row of one bid, for the
    examples. *)
Definition demo_sheet : Worksheet :=
  put_row (ensure_headers empty_sheet).2 2
    {| bid_number := "5"; initials := "MD"; bid_date := "01-02";
       customer := "Acme"; bid_name := "Lobby";
       folder := "5 - MD - 01-02 - Acme - Lobby" |}.

(* ===== theorems ===== *)

Example ex1 : next_bid_number ["12 - MD - x"; "7 - JS - y"; "13-something"] = Ok 14%Z.
Proof. vm_compute. reflexivity. Qed.

(** ** The grid *)

Lemma Worksheet_eq (ws1 ws2 : Worksheet) :
  cells ws1 = cells ws2 → max_row ws1 = max_row ws2 → ws1 = ws2.
Proof. destruct ws1, ws2; simpl; intros -> ->; reflexivity. Qed.

Lemma cell_value_set_cell ws r c v r' c' :
  cell_value (set_cell ws r c v) r' c'
  = if decide ((r, c) = (r', c')) then Some v else cell_value ws r' c'.
Proof. unfold cell_value, set_cell; simpl. apply lookup_insert. Qed.

Lemma cell_value_set_cell_eq ws r c v :
  cell_value (set_cell ws r c v) r c = Some v.
Proof. rewrite cell_value_set_cell. by rewrite decide_True. Qed.

Lemma cell_value_set_cell_ne ws r c v r' c' :
  (r, c) ≠ (r', c') →
  cell_value (set_cell ws r c v) r' c' = cell_value ws r' c'.
Proof. intros. rewrite cell_value_set_cell. by rewrite decide_False. Qed.

Lemma set_cell_same ws r c v :
  cell_value ws r c = Some v → r ≤ max_row ws → set_cell ws r c v = ws.
Proof.
  intros Hv Hr. apply Worksheet_eq; simpl.
  - by apply insert_id.
  - lia.
Qed.

Lemma get_last_row_set_cell ws r c v :
  get_last_row (set_cell ws r c v) = Nat.max r (get_last_row ws).
Proof.
  unfold get_last_row; simpl. repeat case_decide; lia.
Qed.

Lemma get_last_row_pos ws : 1 ≤ get_last_row ws.
Proof. unfold get_last_row. case_decide; lia. Qed.

(** ** The header row *)

Local Arguments truthy : simpl never.
Local Arguments differs : simpl never.

Lemma resolve_legacy s c : legacy_header_map !! s = Some c → resolve c = c.
Proof.
  intros H. unfold resolve.
  apply elem_of_list_to_map_2 in H.
  repeat (apply elem_of_cons in H as [H|H]; [by simplify_eq|]).
  by apply elem_of_nil in H.
Qed.

Lemma resolve_idemp s : resolve (resolve s) = resolve s.
Proof.
  destruct (legacy_header_map !! s) as [c|] eqn:E.
  - assert (resolve s = c) as -> by (unfold resolve; by rewrite E).
    by eapply resolve_legacy.
  - assert (resolve s = s) as -> by (unfold resolve; by rewrite E).
    unfold resolve; by rewrite E.
Qed.

Lemma normal_label_idemp o : normal_label (normal_label o) = normal_label o.
Proof.
  destruct o as [v|]; [|done]. unfold normal_label.
  destruct (truthy (Some v)) eqn:T; [|by rewrite T].
  destruct (truthy (Some (VStr (resolve (str v))))); [|done].
  simpl. by rewrite resolve_idemp.
Qed.

(** One turn of the scan changes the sheet at most at (1, col), where the
    cell becomes its normal label. *)
Lemma scan_header_cells ws h b col r c :
  cell_value (scan_header (ws, h, b) col).1.1 r c
  = if decide ((1, col) = (r, c)) then normal_label (cell_value ws 1 col)
    else cell_value ws r c.
Proof.
  unfold scan_header.
  destruct (cell_value ws 1 col) as [v|] eqn:E; simpl.
  - destruct (truthy (Some v)) eqn:T; simpl.
    + unfold differs. case_bool_decide as D; simpl.
      * case_decide as Hd; [|done].
        injection Hd as <- <-. rewrite E. unfold normal_label.
        rewrite ?T; first [exact D | done].
      * rewrite cell_value_set_cell.
        case_decide; [|done]. unfold normal_label. by rewrite ?T.
    + case_decide as Hd; [|done]. injection Hd as <- <-.
      rewrite E. unfold normal_label. by rewrite ?T.
  - case_decide as Hd; [|done]. by injection Hd as <- <-.
Qed.

Lemma scan_header_last_row ws h b col :
  get_last_row (scan_header (ws, h, b) col).1.1 = get_last_row ws.
Proof.
  unfold scan_header.
  destruct (cell_value ws 1 col) as [v|]; [|done].
  destruct (truthy (Some v)); [|done]. simpl.
  destruct (differs _ _); [|done].
  rewrite get_last_row_set_cell. pose proof (get_last_row_pos ws). lia.
Qed.

Lemma scan_header_has_any ws h b col :
  (scan_header (ws, h, b) col).2 = b || truthy (cell_value ws 1 col).
Proof.
  unfold scan_header.
  destruct (cell_value ws 1 col) as [v|]; [|by rewrite orb_false_r].
  destruct (truthy (Some v)); simpl; [by rewrite orb_true_r|by rewrite orb_false_r].
Qed.

Lemma scan_header_keys ws h b col k :
  is_Some ((scan_header (ws, h, b) col).1.2 !! k)
  ↔ is_Some (h !! k)
    ∨ ∃ v, cell_value ws 1 col = Some v ∧ truthy (Some v) = true
           ∧ resolve (str v) = k.
Proof.
  unfold scan_header.
  destruct (cell_value ws 1 col) as [v|] eqn:E; simpl.
  - destruct (truthy (Some v)) eqn:T; simpl.
    + unfold setdefault. fold (resolve (str v)).
      destruct (h !! resolve (str v)) as [n|] eqn:L.
      * split; [intros; by left|]. intros [?|(v' & ? & ? & <-)]; [done|].
        simplify_eq. by rewrite L.
      * rewrite lookup_insert. case_decide as Hk.
        -- subst k. split; [|done]. intros _. right. by exists v.
        -- split; [intros; by left|]. intros [?|(v' & ? & ? & ?)]; [done|].
           by simplify_eq.
    + split; [intros; by left|]. intros [?|(v' & ? & ? & ?)]; [done|].
      simplify_eq. congruence.
  - split; [intros; by left|]. intros [?|(v' & ? & ?)]; [done|]. done.
Qed.

(** The whole scan, over columns that are pairwise different. *)
Lemma scan_fold cols : NoDup cols → ∀ ws h b,
  let st := fold_left scan_header cols (ws, h, b) in
  (∀ r c, cell_value st.1.1 r c
          = if decide (r = 1 ∧ c ∈ cols) then normal_label (cell_value ws 1 c)
            else cell_value ws r c)
  ∧ get_last_row st.1.1 = get_last_row ws
  ∧ (st.2 = true
     ↔ b = true ∨ ∃ col, col ∈ cols ∧ truthy (cell_value ws 1 col) = true)
  ∧ ∀ k, is_Some (st.1.2 !! k)
         ↔ is_Some (h !! k)
           ∨ ∃ col v, col ∈ cols ∧ cell_value ws 1 col = Some v
                      ∧ truthy (Some v) = true ∧ resolve (str v) = k.
Proof.
  induction 1 as [|col cols Hnin Hnd IH]; intros ws h b; cbv zeta; cbn [fold_left].
  - split_and!; [intros r c| | |intros k].
    + rewrite decide_False; [done|]. intros [_ H]. by apply elem_of_nil in H.
    + done.
    + split; [intros; by left|]. intros [?|(?&H&_)]; [done|]. by apply elem_of_nil in H.
    + split; [intros; by left|]. intros [?|(?&?&H&_)]; [done|]. by apply elem_of_nil in H.
  - destruct (scan_header (ws, h, b) col) as [[ws1 h1] b1] eqn:S1.
    pose proof (scan_header_cells ws h b col) as Hc.
    pose proof (scan_header_last_row ws h b col) as Hl.
    pose proof (scan_header_has_any ws h b col) as Hb.
    pose proof (scan_header_keys ws h b col) as Hk.
    rewrite S1 in Hc, Hl, Hb, Hk. simpl in Hc, Hl, Hb, Hk.
    destruct (IH ws1 h1 b1) as (IHc & IHl & IHb & IHk). cbv zeta in *.
    assert (∀ c, c ∈ cols → cell_value ws1 1 c = cell_value ws 1 c) as Hsame.
    { intros c Hin. rewrite Hc. rewrite decide_False; [done|].
      intros [= ->]. done. }
    split_and!.
    + intros r c. rewrite IHc. case_decide as H1.
      * destruct H1 as [-> Hin]. rewrite Hsame by done.
        rewrite decide_True; [done|]. split; [done|]. by right.
      * rewrite Hc. case_decide as H2.
        -- injection H2 as <- <-. rewrite decide_True; [done|].
           split; [done|]. by left.
        -- rewrite decide_False; [done|]. intros [-> [->|?]%elem_of_cons]; tauto.
    + congruence.
    + rewrite IHb, Hb. rewrite orb_true_iff. split.
      * intros [[?|?]|(c & Hin & Ht)]; [by left|right; exists col|right; exists c].
        -- split; [by left|done].
        -- split; [by right|]. by rewrite <- Hsame.
      * intros [?|(c & [->|Hin]%elem_of_cons & Ht)]; [by left; left|by left; right|].
        right. exists c. split; [done|]. by rewrite Hsame.
    + intros k. rewrite IHk, Hk. split.
      * intros [[?|(v & ? & ? & ?)]|(c & v & Hin & Hv & ? & ?)]; [by left|right..].
        -- exists col, v. split_and!; [by left|done..].
        -- exists c, v. split_and!; [by right| |done..]. by rewrite <- Hsame.
      * intros [?|(c & v & [->|Hin]%elem_of_cons & Hv & ? & ?)]; [by left; left|..].
        -- left; right. by exists v.
        -- right. exists c, v. split_and!; [done| |done..]. by rewrite Hsame.
Qed.


Lemma write_defaults_cells ws r c :
  cell_value (write_defaults ws) r c
  = match default_at r c with
    | Some h => Some (VStr h)
    | None => cell_value ws r c
    end.
Proof.
  unfold write_defaults, enumerate; cbn [length HEADER_DEFAULTS seq combine fold_left].
  repeat (rewrite cell_value_set_cell;
          case_decide; [simplify_eq; reflexivity|]).
  unfold default_at. case_decide as Hx; [|done]. destruct Hx as [-> Hc].
  do 10 (destruct c as [|c]; [done || lia|]). reflexivity.
Qed.

Lemma write_defaults_last_row ws :
  get_last_row (write_defaults ws) = get_last_row ws.
Proof.
  unfold write_defaults, enumerate; cbn [length HEADER_DEFAULTS seq combine fold_left].
  rewrite !get_last_row_set_cell. pose proof (get_last_row_pos ws). lia.
Qed.

Lemma index_defaults_default h i k :
  HEADER_DEFAULTS !! i = Some k → index_defaults h !! k = Some (S i).
Proof.
  intros Hi. unfold index_defaults, enumerate;
    cbn [length HEADER_DEFAULTS seq combine fold_left].
  do 9 (destruct i as [|i]; [injection Hi as <-; by simplify_map_eq|]).
  done.
Qed.

Lemma index_defaults_other h k :
  k ∉ HEADER_DEFAULTS → index_defaults h !! k = h !! k.
Proof.
  intros Hk. unfold index_defaults, enumerate;
    cbn [length HEADER_DEFAULTS seq combine fold_left].
  rewrite !lookup_insert_ne; [done|..];
    intros <-; apply Hk; unfold HEADER_DEFAULTS; set_solver.
Qed.

Lemma default_at_Some r c k :
  default_at r c = Some k ↔ r = 1 ∧ 1 ≤ c ∧ HEADER_DEFAULTS !! (c - 1) = Some k.
Proof. unfold default_at. case_decide; naive_solver. Qed.

(** The sheet that [ensure_headers] leaves: the canonical headers in columns
    1 to 9 of row 1, the normal label of what was there in columns 10 to 30,
    and every other cell as it was. *)
Lemma ensure_headers_cells ws r c :
  cell_value (ensure_headers ws).2 r c
  = match default_at r c with
    | Some h => Some (VStr h)
    | None =>
        if decide (r = 1 ∧ c ∈ seq 1 30) then normal_label (cell_value ws 1 c)
        else cell_value ws r c
    end.
Proof.
  unfold ensure_headers.
  destruct (scan_fold (seq 1 30) (NoDup_seq _ _) ws ∅ false) as (Hc & _ & Hb & _).
  cbv zeta in *.
  destruct (fold_left scan_header (seq 1 30) (ws, ∅, false)) as [[ws1 h1] b1].
  cbn [fst snd] in Hc, Hb. destruct b1; cbn [negb fst snd].
  - destruct (existsb _ (enumerate 1 HEADER_DEFAULTS)) eqn:Ex; cbn [fst snd].
    + rewrite write_defaults_cells. destruct (default_at r c); [done|]. apply Hc.
    + destruct (default_at r c) as [k|] eqn:D; [|apply Hc].
      apply default_at_Some in D as (-> & Hc1 & Hk).
      unfold enumerate in Ex;
        cbn [length HEADER_DEFAULTS seq combine existsb] in Ex.
      rewrite !orb_false_iff in Ex. unfold differs in Ex.
      rewrite !negb_false_iff, !bool_decide_eq_true in Ex.
      do 10 (destruct c as [|c]; [first [lia | injection Hk as <-; tauto]|]).
      done.
  - rewrite write_defaults_cells. destruct (default_at r c); [done|]. apply Hc.
Qed.

Lemma ensure_headers_last_row ws :
  get_last_row (ensure_headers ws).2 = get_last_row ws.
Proof.
  unfold ensure_headers.
  destruct (scan_fold (seq 1 30) (NoDup_seq _ _) ws ∅ false) as (_ & Hl & _).
  cbv zeta in *.
  destruct (fold_left scan_header (seq 1 30) (ws, ∅, false)) as [[ws1 h1] b1].
  cbn [fst snd] in Hl. destruct b1; cbn [negb fst snd].
  - destruct (existsb _ (enumerate 1 HEADER_DEFAULTS)); cbn [fst snd]; [|done]. by rewrite write_defaults_last_row.
  - by rewrite write_defaults_last_row.
Qed.

Lemma ensure_headers_default ws i k :
  HEADER_DEFAULTS !! i = Some k → (ensure_headers ws).1 !! k = Some (S i).
Proof.
  intros Hi. unfold ensure_headers.
  destruct (fold_left scan_header (seq 1 30) (ws, ∅, false)) as [[ws1 h1] b1].
  destruct b1; cbn [negb fst snd]; by apply index_defaults_default.
Qed.

Lemma ensure_headers_other ws k :
  k ∉ HEADER_DEFAULTS →
  is_Some ((ensure_headers ws).1 !! k)
  ↔ ∃ col v, col ∈ seq 1 30 ∧ cell_value ws 1 col = Some v
             ∧ truthy (Some v) = true ∧ resolve (str v) = k.
Proof.
  intros Hk. unfold ensure_headers.
  destruct (scan_fold (seq 1 30) (NoDup_seq _ _) ws ∅ false) as (_ & _ & _ & Hh).
  cbv zeta in *.
  destruct (fold_left scan_header (seq 1 30) (ws, ∅, false)) as [[ws1 h1] b1].
  cbn [fst snd] in Hh.
  assert (is_Some (index_defaults h1 !! k) ↔ is_Some (h1 !! k)) as Hi
    by by rewrite index_defaults_other.
  destruct b1; cbn [negb fst snd]; rewrite Hi, Hh; (split; [intros [H|H]|intros H]);
    try done; try by right.
  all: rewrite lookup_empty in H; by destruct H.
Qed.

(** ** Matching rows *)

Lemma find_ext_in {A} (f g : A → bool) l :
  (∀ x, x ∈ l → f x = g x) → find f l = find g l.
Proof.
  induction l as [|x l IH]; intros H; simpl; [done|].
  rewrite <- (H x) by (by left). destruct (f x); [done|].
  apply IH. intros y Hy. apply H. by right.
Qed.

Lemma find_seq_Some f start len r :
  find f (seq start len) = Some r
  ↔ (start ≤ r < start + len) ∧ f r = true
    ∧ ∀ r', start ≤ r' < r → f r' = false.
Proof.
  revert start. induction len as [|len IH]; intros start; simpl.
  - split; [done|]. intros [? _]. lia.
  - destruct (f start) eqn:F.
    + split.
      * intros [= <-]. split_and!; first [done|lia|intros; lia].
      * intros (Hr & Hf & Hfirst).
        destruct (decide (r = start)) as [->|]; [done|].
        rewrite Hfirst in F by lia. done.
    + rewrite IH. split.
      * intros (Hr & Hf & Hfirst). split_and!; [lia|lia|done|].
        intros r' Hr'. destruct (decide (r' = start)) as [->|]; [done|].
        apply Hfirst. lia.
      * intros (Hr & Hf & Hfirst).
        assert (r ≠ start) by congruence.
        split_and!; [lia|lia|done|]. intros r' Hr'. apply Hfirst. lia.
Qed.

Lemma find_seq_None f start len :
  find f (seq start len) = None ↔ ∀ r, start ≤ r < start + len → f r = false.
Proof.
  revert start. induction len as [|len IH]; intros start; simpl.
  - split; [intros; lia|done].
  - destruct (f start) eqn:F.
    + split; [done|]. intros H. rewrite H in F by lia. done.
    + rewrite IH. split.
      * intros H r Hr. destruct (decide (r = start)) as [->|]; [done|].
        apply H. lia.
      * intros H r Hr. apply H. lia.
Qed.

Lemma get_row_index_Some ws col target r :
  get_row_index_by_value ws col target = Some r
  ↔ (2 ≤ r ≤ get_last_row ws) ∧ row_matches ws col target r = true
    ∧ ∀ r', 2 ≤ r' < r → row_matches ws col target r' = false.
Proof.
  unfold get_row_index_by_value. rewrite find_seq_Some.
  pose proof (get_last_row_pos ws). split; intros (? & ? & ?); split_and!; try done; lia.
Qed.

Lemma get_row_index_None ws col target :
  get_row_index_by_value ws col target = None
  ↔ ∀ r, 2 ≤ r ≤ get_last_row ws → row_matches ws col target r = false.
Proof.
  unfold get_row_index_by_value. rewrite find_seq_None.
  pose proof (get_last_row_pos ws) as Hp. split; intros H r Hr; apply H; lia.
Qed.

Lemma get_row_index_ext ws ws' col target :
  get_last_row ws = get_last_row ws' →
  (∀ r, 2 ≤ r → cell_value ws r col = cell_value ws' r col) →
  get_row_index_by_value ws col target = get_row_index_by_value ws' col target.
Proof.
  intros Hl Hc. unfold get_row_index_by_value. rewrite Hl.
  apply find_ext_in. intros r Hr%elem_of_seq.
  unfold row_matches. rewrite Hc by lia. done.
Qed.

Lemma ensure_headers_data ws r c :
  r ≠ 1 → cell_value (ensure_headers ws).2 r c = cell_value ws r c.
Proof.
  intros Hr. rewrite ensure_headers_cells.
  unfold default_at. rewrite !decide_False by tauto. done.
Qed.

Lemma get_row_index_ensure_headers ws col target :
  get_row_index_by_value (ensure_headers ws).2 col target
  = get_row_index_by_value ws col target.
Proof.
  apply get_row_index_ext.
  - apply ensure_headers_last_row.
  - intros r Hr. apply ensure_headers_data. lia.
Qed.

(** ** The loop of the synchronisation *)

Lemma ensure_headers_canonical ws : canonical_headers (ensure_headers ws).1.
Proof. intros i k. apply ensure_headers_default. Qed.

Lemma header_canonical {S} headers i k (s : S) :
  canonical_headers headers → HEADER_DEFAULTS !! i = Some k →
  header headers k s = (Ok (Datatypes.S i), s).
Proof. intros Hc Hi. unfold header. by rewrite (Hc i k Hi). Qed.

Lemma write_row_canonical headers row info ws :
  canonical_headers headers →
  write_row headers row info ws = (Ok tt, put_row ws row info).
Proof.
  intros Hc. unfold write_row, put_row, mbind, M_bind, modify.
  rewrite (header_canonical headers 0 "Bid Folder") by done.
  rewrite (header_canonical headers 1 "Bid Number") by done.
  rewrite (header_canonical headers 2 "Estimator") by done.
  rewrite (header_canonical headers 3 "Bid Due Date") by done.
  rewrite (header_canonical headers 4 "Customer/GC") by done.
  rewrite (header_canonical headers 5 "Bid Name") by done.
  reflexivity.
Qed.

Lemma sync_folder_canonical headers last_row folder_name ws :
  canonical_headers headers →
  sync_folder headers last_row folder_name ws
  = (Ok (sync_step (ws, last_row) folder_name).2,
     (sync_step (ws, last_row) folder_name).1).
Proof.
  intros Hc. unfold sync_folder, sync_step, target_row.
  destruct (parse_bid_folder_name folder_name) as [info|]; [|done].
  unfold mbind, M_bind, get.
  rewrite (header_canonical headers 1 "Bid Number") by done.
  destruct (get_row_index_by_value ws 2 (bid_number info)) as [row|]; simpl.
  - by rewrite write_row_canonical.
  - rewrite (header_canonical headers 0 "Bid Folder") by done. simpl.
    destruct (get_row_index_by_value ws 1 (folder info)) as [row|]; simpl;
      by rewrite write_row_canonical.
Qed.

Lemma sync_folders_canonical headers folder_names : ∀ last_row ws,
  canonical_headers headers →
  sync_folders headers last_row folder_names ws
  = (Ok tt, (fold_left sync_step folder_names (ws, last_row)).1).
Proof.
  induction folder_names as [|n rest IH]; intros last_row ws Hc; [done|].
  cbn [sync_folders fold_left]. unfold mbind, M_bind.
  rewrite sync_folder_canonical by done.
  destruct (sync_step (ws, last_row) n) as [ws1 lr1]. by apply IH.
Qed.

(** ** Opening and closing the workbook *)

Lemma new_excel_context_unlocked path title w wb :
  files w !! path = Some wb → path ∉ locked w →
  new_excel_context path title w
  = (Ok {| workbook := match wb !! title with
                       | Some _ => wb
                       | None => <[title := empty_sheet]> wb
                       end;
           worksheet := title; read_only := false;
           pending_save_path := None; workbook_path := path |}, w).
Proof.
  intros Hf Hl. unfold new_excel_context, mbind, M_bind, get.
  rewrite Hf. rewrite bool_decide_eq_true_2 by done. cbn [negb].
  unfold try_except, load_workbook, mbind, M_bind, get. rewrite Hf.
  rewrite decide_False by done. reflexivity.
Qed.

Lemma context_sheet_new (wb : Workbook) title ro pending path :
  context_sheet {| workbook := match wb !! title with
                               | Some _ => wb
                               | None => <[title := empty_sheet]> wb
                               end;
                   worksheet := title; read_only := ro;
                   pending_save_path := pending; workbook_path := path |}
  = sheet_of wb title.
Proof.
  unfold context_sheet, sheet_of; simpl.
  destruct (wb !! title) as [ws|] eqn:E; [by rewrite E|].
  by rewrite lookup_insert_eq.
Qed.

Lemma workbook_with_sheet (wb : Workbook) (title : string) (ws : Worksheet) :
  <[title := ws]> (match wb !! title with
                   | Some _ => wb
                   | None => <[title := empty_sheet]> wb
                   end) = <[title := ws]> wb.
Proof. destruct (wb !! title); [done|]. apply insert_insert_eq. Qed.

Lemma sync_body_run root w ws entries :
  dirs w !! root = Some entries →
  sync_body root (w, ws) = (Ok tt, (w, sync_sheet (folder_names entries) ws)).
Proof.
  intros Hd. unfold sync_body, mbind, M_bind, on_sheet, on_world,
    run_ensure_headers, sync_sheet.
  pose proof (ensure_headers_canonical ws) as Hc.
  destruct (ensure_headers ws) as [headers ws1]. cbn [fst snd] in *.
  unfold fmap, M_fmap, get, get_bid_folders, mbind, M_bind, get. rewrite Hd.
  cbn. by rewrite sync_folders_canonical.
Qed.


(** A run of [sync_bid_workbook] on a workbook that nobody holds open. *)
Lemma sync_bid_workbook_run root path title w wb entries :
  files w !! path = Some wb → path ∉ locked w →
  dirs w !! root = Some entries →
  sync_bid_workbook root path title w
  = (Ok tt,
     set_files
       (<[path := <[title := sync_sheet (folder_names entries) (sheet_of wb title)]> wb]>
          (files w)) w).
Proof.
  intros Hf Hl Hd. unfold sync_bid_workbook, mbind, M_bind.
  rewrite (new_excel_context_unlocked _ _ _ wb) by done.
  unfold try_finally_close. rewrite context_sheet_new.
  rewrite (sync_body_run _ _ _ entries) by done.
  unfold close_excel_context, context_with_sheet; cbn.
  unfold save, mbind, M_bind, get, put. rewrite decide_False by done.
  by rewrite workbook_with_sheet.
Qed.

(** ** Synchronising new folders *)

(** C6.  With exactly the folders "5 - MD - 01-02 - Acme - Lobby" and
    "6 - JS - 03-04 - Beta - Roof" under the bid root and an empty sheet,
    [sync_bid_workbook] succeeds and saves a sheet that holds the nine
    headers in row 1 and two data rows: row 2 with Bid Number "5" and row 3
    with Bid Number "6", each with the fields decoded from its folder name;
    the sheet grows from 1 row to 3.  In general a folder that matches no
    row is written to row [last_row + 1] and the counter becomes
    [last_row + 1], and a folder that matches leaves the counter as it is,
    so the new folders of one pass land on consecutive rows. *)
Theorem sync_two_new_folders root path title w (wb : Workbook) entries :
  files w !! path = Some wb → path ∉ locked w →
  sheet_of wb title = empty_sheet →
  dirs w !! root = Some entries →
  folder_names entries
  = ["5 - MD - 01-02 - Acme - Lobby"; "6 - JS - 03-04 - Beta - Roof"] →
  let synced : Worksheet :=
    {| cells := list_to_map
         [ ((1, 1), VStr "Bid Folder"); ((1, 2), VStr "Bid Number");
           ((1, 3), VStr "Estimator"); ((1, 4), VStr "Bid Due Date");
           ((1, 5), VStr "Customer/GC"); ((1, 6), VStr "Bid Name");
           ((1, 7), VStr "Proposal Date"); ((1, 8), VStr "Proposal Amount");
           ((1, 9), VStr "Bid Status");
           ((2, 1), VStr "5 - MD - 01-02 - Acme - Lobby"); ((2, 2), VStr "5");
           ((2, 3), VStr "MD"); ((2, 4), VStr "01-02");
           ((2, 5), VStr "Acme"); ((2, 6), VStr "Lobby");
           ((3, 1), VStr "6 - JS - 03-04 - Beta - Roof"); ((3, 2), VStr "6");
           ((3, 3), VStr "JS"); ((3, 4), VStr "03-04");
           ((3, 5), VStr "Beta"); ((3, 6), VStr "Roof") ];
       max_row := 3 |} in
  sync_bid_workbook root path title w
  = (Ok tt, set_files (<[path := <[title := synced]> wb]> (files w)) w)
  ∧ get_last_row synced = get_last_row (sheet_of wb title) + 2
  ∧ parse_bid_folder_name "5 - MD - 01-02 - Acme - Lobby"
    = Some {| bid_number := "5"; initials := "MD"; bid_date := "01-02";
              customer := "Acme"; bid_name := "Lobby";
              folder := "5 - MD - 01-02 - Acme - Lobby" |}
  ∧ parse_bid_folder_name "6 - JS - 03-04 - Beta - Roof"
    = Some {| bid_number := "6"; initials := "JS"; bid_date := "03-04";
              customer := "Beta"; bid_name := "Roof";
              folder := "6 - JS - 03-04 - Beta - Roof" |}
  ∧ (∀ headers last_row folder_name info ws,
       canonical_headers headers →
       parse_bid_folder_name folder_name = Some info →
       (target_row ws info = None →
        sync_folder headers last_row folder_name ws
        = (Ok (last_row + 1), put_row ws (last_row + 1) info))
       ∧ (∀ row, target_row ws info = Some row →
          sync_folder headers last_row folder_name ws
          = (Ok last_row, put_row ws row info))).
Proof.
  intros Hf Hl He Hd Hn synced. split_and!.
  - rewrite (sync_bid_workbook_run _ _ _ _ wb entries) by done.
    rewrite Hn, He. do 4 f_equal. all: vm_compute; reflexivity.
  - rewrite He. reflexivity.
  - vm_compute. reflexivity.
  - vm_compute. reflexivity.
  - intros headers last_row folder_name info ws Hc Hp.
    rewrite sync_folder_canonical by done. unfold sync_step. rewrite Hp.
    split; [intros ->; reflexivity|intros row ->; reflexivity].
Qed.

Lemma sync_two_new_folders_witness :
  let w := demo_world ∅ ∅
             ["6 - JS - 03-04 - Beta - Roof"; "5 - MD - 01-02 - Acme - Lobby"]
             [] in
  ∃ ws, sync_bid_workbook demo_root demo_book "Bid List" w
        = (Ok tt, set_files (<[demo_book := <[ "Bid List" := ws ]> ∅]> (files w)) w)
        ∧ cell_value ws 2 2 = Some (VStr "5")
        ∧ cell_value ws 3 2 = Some (VStr "6").
Proof.
  intros w.
  destruct (sync_two_new_folders demo_root demo_book "Bid List" w ∅
              [("6 - JS - 03-04 - Beta - Roof", true);
               ("5 - MD - 01-02 - Acme - Lobby", true)])
    as (Hrun & _); [reflexivity|vm_compute; discriminate|reflexivity
                   |reflexivity|vm_compute; reflexivity|].
  eexists. split; [exact Hrun|]. split; reflexivity.
Defined.

(** ** The contract of [ensure_headers] *)





(** ** What a computation leaves of the state *)

Section Keeps.
Context {S : Type} (R : S → S → Prop).
Context `{!Reflexive R, !Transitive R}.

Lemma keeps_ret {A} (a : A) : keeps R (mret a).
Proof. intros s. reflexivity. Qed.

Lemma keeps_raise {A} e : keeps R (raise e : M S A).
Proof. intros s. reflexivity. Qed.

Lemma keeps_bind {A B} (m : M S A) (k : A → M S B) :
  keeps R m → (∀ a, keeps R (k a)) → keeps R (m ≫= k).
Proof.
  intros Hm Hk s. unfold mbind, M_bind. specialize (Hm s).
  destruct (m s) as [[a|e] s1]; cbn [fst snd] in *; [|done].
  etrans; [exact Hm|]. apply Hk.
Qed.

Lemma keeps_fmap {A B} (f : A → B) (m : M S A) :
  keeps R m → keeps R (f <$> m).
Proof.
  intros Hm s. unfold fmap, M_fmap. specialize (Hm s).
  by destruct (m s) as [[a|e] s1].
Qed.

Lemma keeps_header {A} headers key (k : nat → M S A) :
  (∀ col, headers !! key = Some col → keeps R (k col)) →
  keeps R (header headers key ≫= k).
Proof.
  intros Hk s. unfold mbind, M_bind, header.
  destruct (headers !! key) as [col|]; cbn; [by apply Hk|done].
Qed.
End Keeps.

Global Instance on_sheets_refl R `{!Reflexive R} : Reflexive (on_sheets R).
Proof. intros [w ws]. unfold on_sheets. reflexivity. Qed.

Global Instance on_sheets_trans R `{!Transitive R} : Transitive (on_sheets R).
Proof. intros [? ?] [? ?] [? ?]. unfold on_sheets; simpl. apply transitivity. Qed.

Global Instance on_worlds_refl R `{!Reflexive R} : Reflexive (on_worlds R).
Proof. intros [w ws]. unfold on_worlds. reflexivity. Qed.

Global Instance on_worlds_trans R `{!Transitive R} : Transitive (on_worlds R).
Proof. intros [? ?] [? ?] [? ?]. unfold on_worlds; simpl. apply transitivity. Qed.

Global Instance same_disk_refl : Reflexive same_disk.
Proof. by intros w. Qed.

Global Instance same_disk_trans : Transitive same_disk.
Proof.
  intros a b c (?&?&?&?) (?&?&?&?). unfold same_disk. split_and!; congruence.
Qed.

Lemma keeps_world_on_sheets {A} R `{!Reflexive R} (m : M world A) :
  keeps (on_sheets R) (on_world m).
Proof. intros [w ws]. unfold on_world, on_sheets. by destruct (m w). Qed.

Lemma keeps_sheet_on_worlds {A} R `{!Reflexive R} (m : M Worksheet A) :
  keeps (on_worlds R) (on_sheet m).
Proof. intros [w ws]. unfold on_sheet, on_worlds. by destruct (m ws). Qed.

Lemma keeps_world_on_worlds {A} R (m : M world A) :
  keeps R m → keeps (on_worlds R) (on_world m).
Proof.
  intros Hm [w ws]. unfold on_world, on_worlds. specialize (Hm w).
  by destruct (m w).
Qed.

Lemma keeps_sheet_on_sheets {A} R (m : M Worksheet A) :
  keeps R m → keeps (on_sheets R) (on_sheet m).
Proof.
  intros Hm [w ws]. unfold on_sheet, on_sheets. specialize (Hm ws).
  by destruct (m ws).
Qed.

(** The operator's answers leave the disk as it is. *)
Lemma keeps_input : keeps same_disk input.
Proof. intros w. unfold input. by destruct (stdin w). Qed.

Lemma keeps_read_yes_no : keeps same_disk read_yes_no_default_no.
Proof.
  intros w. unfold read_yes_no_default_no. by destruct (read_yes_no_from _).
Qed.

Lemma keeps_read_non_empty : keeps same_disk read_non_empty.
Proof.
  intros w. unfold read_non_empty. by destruct (read_non_empty_from _).
Qed.


(** The parts of [update_body], for a relation on the sheets and for the
    disk. *)
Section Fields.
Context (R : Worksheet → Worksheet → Prop).
Context `{!Reflexive R, !Transitive R}.

Lemma keeps_ask_field headers key row :
  keeps (on_sheets R) (ask_field headers key row).
Proof.
  unfold ask_field. destruct (has_header headers key); [|apply keeps_ret; apply _].
  apply keeps_header; [apply _..|]; intros col _.
  apply keeps_bind; [apply _|apply keeps_world_on_sheets || apply keeps_sheet_on_sheets|].
  { intros ws. reflexivity. }
  intros ws. destruct (nonempty _).
  - apply keeps_bind; [apply _|by apply keeps_world_on_sheets|]. intros [|].
    + by apply keeps_fmap, keeps_world_on_sheets.
    + apply keeps_ret; apply _.
  - by apply keeps_fmap, keeps_world_on_sheets.
Qed.

Lemma keeps_put_field headers key row text :
  (∀ col ws, headers !! key = Some col →
             R ws (set_cell ws row col (VStr text))) →
  keeps (on_sheets R) (put_field headers key row text).
Proof.
  intros Hset. unfold put_field.
  destruct (nonempty text && has_header headers key);
    [|apply keeps_ret; apply _].
  apply keeps_header; [apply _..|]; intros col Hcol [w ws].
  unfold on_sheet, on_sheets, modify; cbn. by apply Hset.
Qed.
End Fields.

Lemma keeps_disk_ask_field headers key row :
  keeps (on_worlds same_disk) (ask_field headers key row).
Proof.
  unfold ask_field. destruct (has_header headers key); [|apply keeps_ret; apply _].
  apply keeps_header; [apply _..|]; intros col _.
  apply keeps_bind; [apply _|by apply keeps_sheet_on_worlds|].
  intros ws. destruct (nonempty _).
  - apply keeps_bind; [apply _| |].
    { apply keeps_world_on_worlds, keeps_read_yes_no. }
    intros [|]; [|apply keeps_ret; apply _].
    apply keeps_fmap, keeps_world_on_worlds, keeps_input.
  - apply keeps_fmap, keeps_world_on_worlds, keeps_input.
Qed.

Lemma keeps_disk_put_field headers key row text :
  keeps (on_worlds same_disk) (put_field headers key row text).
Proof.
  unfold put_field.
  destruct (nonempty text && has_header headers key); [|apply keeps_ret; apply _].
  apply keeps_header; [apply _..|]; intros col _. by apply keeps_sheet_on_worlds.
Qed.

Lemma keeps_disk_update_body bid_number status :
  keeps (on_worlds same_disk) (update_body bid_number status).
Proof.
  unfold update_body.
  apply keeps_bind; [apply _|by apply keeps_sheet_on_worlds|]. intros headers.
  apply keeps_header; [apply _..|]; intros col _.
  apply keeps_bind; [apply _|by apply keeps_sheet_on_worlds|]. intros ws.
  destruct (get_row_index_by_value ws col bid_number) as [row|];
    [|apply keeps_raise; apply _].
  apply keeps_bind; [apply _|apply keeps_disk_ask_field|]. intros amount.
  apply keeps_bind; [apply _|apply keeps_disk_ask_field|]. intros date.
  apply keeps_bind; [apply _| |].
  { destruct (has_header headers "Award"); [|apply keeps_ret; apply _].
    apply keeps_fmap, keeps_world_on_worlds, keeps_input. }
  intros award.
  repeat (apply keeps_bind; [apply _|apply keeps_disk_put_field|intros _]).
  apply keeps_disk_put_field.
Qed.


Global Instance same_but_refl cols : Reflexive (same_but cols).
Proof. by intros ws r c _ _. Qed.

Global Instance same_but_trans cols : Transitive (same_but cols).
Proof. intros a b c Hab Hbc r col Hr Hc. by rewrite Hbc, Hab. Qed.

Lemma same_but_set_cell cols ws row col v :
  col ∈ cols → same_but cols ws (set_cell ws row col v).
Proof.
  intros Hin r c Hr Hc. apply cell_value_set_cell_ne. intros [= -> ->]. done.
Qed.

Lemma same_but_ensure_headers cols ws : same_but cols ws (ensure_headers ws).2.
Proof. intros r c Hr _. by apply ensure_headers_data. Qed.

(** ** The Award column *)

Lemma str_of_int_not_Award z : Text.str_of_int z ≠ "Award".
Proof.
  unfold Text.str_of_int. destruct (Z.to_int z) as [d|d]; simpl; [|done].
  by destruct d.
Qed.

Lemma resolve_Award s : resolve s = "Award" → s = "Award".
Proof.
  unfold resolve. destruct (legacy_header_map !! s) as [c|] eqn:E; simpl; [|done].
  intros ->. apply elem_of_list_to_map_2 in E.
  repeat (apply elem_of_cons in E as [E|E]; [by simplify_eq|]).
  by apply elem_of_nil in E.
Qed.

Lemma label_Award v : resolve (str v) = "Award" → v = VStr "Award".
Proof.
  intros H%resolve_Award. destruct v as [s|z]; simpl in H; [by subst|].
  by apply str_of_int_not_Award in H.
Qed.

Lemma normal_label_Award o :
  normal_label o = Some (VStr "Award") → o = Some (VStr "Award").
Proof.
  destruct o as [v|]; [|done]. unfold normal_label.
  destruct (truthy (Some v)); [|done].
  intros [= H]. by apply label_Award in H as ->.
Qed.

Lemma Award_not_default : "Award" ∉ HEADER_DEFAULTS.
Proof. unfold HEADER_DEFAULTS. set_solver. Qed.

Lemma ensure_headers_Award ws :
  is_Some ((ensure_headers ws).1 !! "Award")
  ↔ ∃ col, col ∈ seq 1 30 ∧ cell_value ws 1 col = Some (VStr "Award").
Proof.
  rewrite (ensure_headers_other ws "Award" Award_not_default). split.
  - intros (col & v & Hin & Hv & _ & Hr). exists col. split; [done|].
    by apply label_Award in Hr as ->.
  - intros (col & Hin & Hv). exists col, (VStr "Award"). by split_and!.
Qed.

Lemma canonical_lookup headers i k col :
  canonical_headers headers → HEADER_DEFAULTS !! i = Some k →
  headers !! k = Some col → col = S i.
Proof. intros Hc Hi Hk. rewrite (Hc i k Hi) in Hk. by injection Hk. Qed.

(** After the headers are in place, [update_body] writes data cells in the
    columns 7 to 9 only, when there is no Award column. *)
Lemma update_rest_keeps headers bid_number status :
  canonical_headers headers → headers !! "Award" = None →
  keeps (on_sheets (same_but [7; 8; 9]))
    (col ← header headers "Bid Number";
     ws ← on_sheet get;
     match get_row_index_by_value ws col bid_number with
     | None => raise ValueError
     | Some row =>
         proposal_amount ← ask_field headers "Proposal Amount" row;
         proposal_date ← ask_field headers "Proposal Date" row;
         award ← (if has_header headers "Award"
                  then Text.strip <$> on_world input else mret "");
         put_field headers "Bid Status" row status;;
         put_field headers "Proposal Amount" row proposal_amount;;
         put_field headers "Proposal Date" row proposal_date;;
         put_field headers "Award" row award
     end).
Proof.
  intros Hc Ha.
  apply keeps_header; [apply _..|]. intros col _.
  apply keeps_bind; [apply _| |].
  { apply keeps_sheet_on_sheets. intros ws. reflexivity. }
  intros ws.
  destruct (get_row_index_by_value ws col bid_number) as [row|];
    [|apply keeps_raise; apply _].
  apply keeps_bind; [apply _|apply keeps_ask_field; apply _|]. intros amount.
  apply keeps_bind; [apply _|apply keeps_ask_field; apply _|]. intros date.
  apply keeps_bind; [apply _| |].
  { destruct (has_header headers "Award"); [|apply keeps_ret; apply _].
    apply keeps_fmap, keeps_world_on_sheets; apply _. }
  intros award.
  apply keeps_bind; [apply _| |intros _].
  { apply keeps_put_field; [apply _|]. intros c ws0 Hk.
    apply (canonical_lookup _ 8) in Hk as ->; [|done..].
    apply same_but_set_cell. set_solver. }
  apply keeps_bind; [apply _| |intros _].
  { apply keeps_put_field; [apply _|]. intros c ws0 Hk.
    apply (canonical_lookup _ 7) in Hk as ->; [|done..].
    apply same_but_set_cell. set_solver. }
  apply keeps_bind; [apply _| |intros _].
  { apply keeps_put_field; [apply _|]. intros c ws0 Hk.
    apply (canonical_lookup _ 6) in Hk as ->; [|done..].
    apply same_but_set_cell. set_solver. }
  apply keeps_put_field; [apply _|]. intros c ws0 Hk. congruence.
Qed.

(** C10.  After [ensure_headers] the mapping has an "Award" entry exactly
    when a cell of row 1, columns 1 to 30, held the text "Award" before the
    call, and [ensure_headers] puts the text "Award" in no cell that did not
    hold it.  Without that entry [update_bid_status] writes nothing for the
    award whatever its value, and then the only data cells (rows other than
    row 1) that [update_body] can change are in the columns 7 to 9 of
    Proposal Date, Proposal Amount and Bid Status; this is the case on a
    sheet whose headers [ensure_headers] made from an empty row 1. *)
Theorem award_needs_existing_header :
  (∀ ws, is_Some ((ensure_headers ws).1 !! "Award")
         ↔ ∃ col, col ∈ seq 1 30 ∧ cell_value ws 1 col = Some (VStr "Award"))
  ∧ (∀ ws r c, cell_value (ensure_headers ws).2 r c = Some (VStr "Award") →
               cell_value ws r c = Some (VStr "Award"))
  ∧ (∀ headers row award st,
       headers !! "Award" = None →
       put_field headers "Award" row award st = (Ok tt, st))
  ∧ (∀ bid_number status w ws,
       (∀ col, col ∈ seq 1 30 → cell_value ws 1 col ≠ Some (VStr "Award")) →
       same_but [7; 8; 9] ws (update_body bid_number status (w, ws)).2.2)
  ∧ (∀ ws, (∀ col, col ∈ seq 1 30 → cell_value ws 1 col = None) →
           (ensure_headers ws).1 !! "Award" = None).
Proof.
  split_and!.
  - apply ensure_headers_Award.
  - intros ws r c. rewrite ensure_headers_cells.
    destruct (default_at r c) as [k|] eqn:D.
    + intros [= ->]. apply default_at_Some in D as (_ & _ & D).
      apply list_elem_of_lookup_2 in D. by apply Award_not_default in D.
    + case_decide as Hd; [|done]. destruct Hd as [-> _].
      apply normal_label_Award.
  - intros headers row award [w ws] Ha. unfold put_field, has_header.
    rewrite Ha. rewrite bool_decide_eq_false_2 by (by intros [? ?]).
    by rewrite andb_false_r.
  - intros bid_number status w ws Hno.
    assert ((ensure_headers ws).1 !! "Award" = None) as Ha.
    { apply eq_None_not_Some. rewrite ensure_headers_Award.
      intros (col & Hin & Hv). by apply (Hno col). }
    pose proof (ensure_headers_canonical ws) as Hc.
    pose proof (same_but_ensure_headers [7; 8; 9] ws) as Hs.
    unfold update_body. unfold mbind at 1, M_bind at 1.
    unfold on_sheet at 1, run_ensure_headers.
    destruct (ensure_headers ws) as [headers ws1]. cbn [fst snd] in *.
    etrans; [exact Hs|].
    by apply (update_rest_keeps headers bid_number status Hc Ha (w, ws1)).
  - intros ws Hb. apply eq_None_not_Some. rewrite ensure_headers_Award.
    intros (col & Hin & Hv). by rewrite Hb in Hv.
Qed.

(** ** The locked workbook *)

Lemma chars_text l : Text.chars (Text.text l) = l.
Proof. apply list_ascii_of_string_of_list_ascii. Qed.

Lemma text_chars s : Text.text (Text.chars s) = s.
Proof. apply string_of_list_ascii_of_string. Qed.

Lemma text_app l1 l2 : Text.text (l1 ++ l2) = Text.text l1 +:+ Text.text l2.
Proof. induction l1 as [|c l1 IH]; simpl; [done|]. by rewrite IH. Qed.

Lemma chars_app s1 s2 : Text.chars (s1 +:+ s2) = Text.chars s1 ++ Text.chars s2.
Proof. induction s1 as [|c s1 IH]; simpl; [done|]. by rewrite IH. Qed.

Lemma length_chars s : length (Text.chars s) = String.length s.
Proof. induction s as [|c s IH]; simpl; [done|]. by rewrite IH. Qed.





Lemma get_pending_save_path_run path w :
  name path ≠ "" →
  get_pending_save_path path w = (Ok (side_path path (clock w)), w).
Proof.
  intros Hn. unfold get_pending_save_path, mbind, M_bind, get, with_name.
  by rewrite decide_False.
Qed.

Lemma new_excel_context_locked path title w wb :
  files w !! path = Some wb → path ∈ locked w → name path ≠ "" →
  side_path path (clock w) ∉ locked w →
  new_excel_context path title w
  = (Ok {| workbook := with_sheet_made wb title;
           worksheet := title; read_only := true;
           pending_save_path := Some (side_path path (clock w));
           workbook_path := path |},
     set_files (<[side_path path (clock w) := wb]> (files w)) w).
Proof.
  intros Hf Hl Hn Hs. unfold new_excel_context, mbind, M_bind, get.
  rewrite Hf. rewrite bool_decide_eq_true_2 by done. cbn [negb].
  unfold try_except, load_workbook at 1, mbind, M_bind, get. rewrite Hf.
  rewrite decide_True by done. cbn. rewrite decide_True by done.
  rewrite get_pending_save_path_run by done.
  unfold copy2, mbind, M_bind, get, put. rewrite Hf.
  rewrite decide_False by done.
  unfold load_workbook, mbind, M_bind, get. cbn.
  rewrite lookup_insert_eq. rewrite decide_False by done. reflexivity.
Qed.

Lemma close_excel_context_run context w :
  active_path context ∉ locked w →
  close_excel_context context w
  = (Ok tt, set_files (<[active_path context := workbook context]> (files w)) w).
Proof.
  intros Hl. unfold close_excel_context, active_path in *.
  destruct (read_only context), (pending_save_path context);
    unfold save, mbind, M_bind, get, put; by rewrite decide_False.
Qed.

(** What a context that [new_excel_context] returned is like. *)
Lemma new_excel_context_Ok path title w context w' :
  new_excel_context path title w = (Ok context, w') →
  ∃ wb, files w !! path = Some wb
        ∧ workbook context = with_sheet_made wb title
        ∧ worksheet context = title
        ∧ workbook_path context = path
        ∧ locked w' = locked w
        ∧ active_path context ∉ locked w'
        ∧ (((path ∉ locked w) ∧ read_only context = false
            ∧ pending_save_path context = None ∧ w' = w)
           ∨ ((path ∈ locked w) ∧ read_only context = true
              ∧ pending_save_path context = Some (side_path path (clock w))
              ∧ w' = set_files (<[side_path path (clock w) := wb]> (files w)) w)).
Proof.
  intros H. destruct (files w !! path) as [wb|] eqn:Hf.
  2: { unfold new_excel_context, mbind, M_bind, get in H. rewrite Hf in H.
       rewrite bool_decide_eq_false_2 in H by (by intros [? ?]). done. }
  exists wb. split; [done|].
  destruct (decide (path ∈ locked w)) as [Hl|Hl].
  - destruct (decide (name path = "")) as [Hn|Hn].
    { unfold new_excel_context, mbind, M_bind, get in H. rewrite Hf in H.
      rewrite bool_decide_eq_true_2 in H by done. cbn [negb] in H.
      unfold try_except, load_workbook at 1, mbind, M_bind, get in H.
      rewrite Hf in H. rewrite decide_True in H by done. cbn in H.
      rewrite decide_True in H by done.
      unfold get_pending_save_path, mbind, M_bind, get, with_name in H.
      rewrite decide_True in H by done. done. }
    destruct (decide (side_path path (clock w) ∈ locked w)) as [Hs|Hs].
    { unfold new_excel_context, mbind, M_bind, get in H. rewrite Hf in H.
      rewrite bool_decide_eq_true_2 in H by done. cbn [negb] in H.
      unfold try_except, load_workbook at 1, mbind, M_bind, get in H.
      rewrite Hf in H. rewrite decide_True in H by done. cbn in H.
      rewrite decide_True in H by done.
      rewrite get_pending_save_path_run in H by done.
      unfold copy2, mbind, M_bind, get, put in H. rewrite Hf in H.
      rewrite decide_True in H by done. done. }
    rewrite (new_excel_context_locked _ _ _ wb) in H by done.
    injection H as <- <-. cbn. split_and!; try done. right. by split_and!.
  - rewrite (new_excel_context_unlocked _ _ _ wb) in H by done.
    injection H as <- <-. cbn. split_and!; try done. left. by split_and!.
Qed.

Lemma try_finally_close_run {A} context (body : M (world * Worksheet) A) w :
  keeps (on_worlds same_disk) body →
  active_path context ∉ locked w →
  ∃ r w1 ws,
    body (w, context_sheet context) = (r, (w1, ws))
    ∧ same_disk w w1
    ∧ try_finally_close context body w
      = (r, set_files
              (<[active_path context :=
                   <[worksheet context := ws]> (workbook context)]> (files w1)) w1).
Proof.
  intros Hk Hl. specialize (Hk (w, context_sheet context)).
  unfold try_finally_close.
  destruct (body (w, context_sheet context)) as [r [w1 ws]] eqn:Hb.
  unfold on_worlds in Hk; cbn [fst snd] in Hk.
  exists r, w1, ws. split_and!; [done..|].
  rewrite close_excel_context_run.
  - reflexivity.
  - destruct Hk as (_ & -> & _). apply Hl.
Qed.



(** *** No [PermissionError] from the bodies *)

Section NoPermissionError.
Context {S : Type}.





End NoPermissionError.
















(** ** A status update for a bid number that is not in the sheet *)

Lemma update_body_not_found bid_number status w ws :
  get_row_index_by_value ws 2 bid_number = None →
  update_body bid_number status (w, ws)
  = (Raise ValueError, (w, (ensure_headers ws).2)).
Proof.
  intros Hnone. unfold update_body, mbind, M_bind, on_sheet, run_ensure_headers.
  pose proof (ensure_headers_canonical ws) as Hc.
  pose proof (get_row_index_ensure_headers ws 2 bid_number) as Hg.
  destruct (ensure_headers ws) as [headers ws1]. cbn [fst snd] in *.
  rewrite (header_canonical headers 1 "Bid Number") by done.
  unfold get; cbn. by rewrite Hg, Hnone.
Qed.

Lemma update_bid_status_not_found_run path title w bid w1 line w2 context w3 :
  read_non_empty w = (Ok bid, w1) →
  input w1 = (Ok line, w2) →
  new_excel_context path title w2 = (Ok context, w3) →
  get_row_index_by_value (context_sheet context) 2 bid = None →
  update_bid_status path title w
  = (Raise ValueError,
     set_files
       (<[active_path context :=
            <[title := (ensure_headers (context_sheet context)).2]>
              (workbook context)]> (files w3)) w3).
Proof.
  intros Hread Hinput Hnew Hnone.
  unfold update_bid_status, mbind, M_bind. rewrite Hread.
  unfold fmap, M_fmap. rewrite Hinput, Hnew.
  apply new_excel_context_Ok in Hnew
    as (wb & _ & _ & Htitle & _ & _ & Hfree & _).
  unfold try_finally_close.
  rewrite update_body_not_found by done.
  rewrite close_excel_context_run by done.
  cbn. by rewrite Htitle.
Qed.

(** C1, as the code has it.  When the operator's bid number matches no row
    of the Bid Number column (column 2, rows 2 to the last),
    [update_bid_status] raises [ValueError]; before that [ensure_headers]
    has normalised row 1 and, on the way out, [close_excel_context] saves
    the workbook with that sheet to the active path.  The sheet saved
    agrees with the one that was opened on every cell outside row 1 and has
    the same last row; its row 1 is the one that [ensure_headers] makes. *)
Theorem update_bid_status_not_found path title w bid w1 line w2 context w3 :
  read_non_empty w = (Ok bid, w1) →
  input w1 = (Ok line, w2) →
  new_excel_context path title w2 = (Ok context, w3) →
  get_row_index_by_value (context_sheet context) 2 bid = None →
  let ws := context_sheet context in
  let ws' := (ensure_headers ws).2 in
  update_bid_status path title w
  = (Raise ValueError,
     set_files
       (<[active_path context := <[title := ws']> (workbook context)]>
          (files w3)) w3)
  ∧ (∀ r c, r ≠ 1 → cell_value ws' r c = cell_value ws r c)
  ∧ get_last_row ws' = get_last_row ws
  ∧ (∀ r c, cell_value ws' r c
            = match default_at r c with
              | Some k => Some (VStr k)
              | None =>
                  if decide (r = 1 ∧ c ∈ seq 1 30)
                  then normal_label (cell_value ws 1 c)
                  else cell_value ws r c
              end).
Proof.
  intros Hread Hinput Hnew Hnone ws ws'. split_and!.
  - by eapply update_bid_status_not_found_run.
  - intros r c Hr. by apply ensure_headers_data.
  - apply ensure_headers_last_row.
  - intros r c. apply ensure_headers_cells.
Qed.

Lemma legacy_sheet_open lines :
  let ws := sheet_with_headers
              ["Folder Name"; "Bid#"; "Estimator"; "Due Date"; "GC/Owner";
               "Description"] in
  let w := demo_world {[ "Bid List" := ws ]} ∅ [] lines in
  new_excel_context demo_book "Bid List" w
  = (Ok {| workbook := {[ "Bid List" := ws ]}; worksheet := "Bid List";
           read_only := false; pending_save_path := None;
           workbook_path := demo_book |}, w).
Proof.
  intros ws w.
  rewrite (new_excel_context_unlocked _ _ _ {[ "Bid List" := ws ]});
    [|apply lookup_singleton_eq|apply not_elem_of_empty].
  by rewrite lookup_singleton_eq.
Qed.

Lemma update_bid_status_not_found_witness :
  let ws := sheet_with_headers
              ["Folder Name"; "Bid#"; "Estimator"; "Due Date"; "GC/Owner";
               "Description"] in
  let w := demo_world {[ "Bid List" := ws ]} ∅ [] ["99"; ""] in
  ∃ w', update_bid_status demo_book "Bid List" w = (Raise ValueError, w').
Proof.
  intros ws w.
  destruct (update_bid_status_not_found demo_book "Bid List" w "99"
              (set_stdin [""] w) "" (set_stdin [] w) _ _
              eq_refl eq_refl (legacy_sheet_open []))
    as (H & _).
  - vm_compute. reflexivity.
  - eexists. exact H.
Defined.

(** C1 as stated fails: looking for bid number 99 in a sheet that has only
    the legacy header row raises [ValueError], yet the header cells have been
    rewritten and the workbook saved, so that the file is not the one it
    was. *)
Lemma update_bid_status_not_found_changes_store :
  let ws := sheet_with_headers
              ["Folder Name"; "Bid#"; "Estimator"; "Due Date"; "GC/Owner";
               "Description"] in
  let w := demo_world {[ "Bid List" := ws ]} ∅ [] ["99"; ""] in
  ∃ w' ws',
    get_row_index_by_value ws 2 "99" = None
    ∧ update_bid_status demo_book "Bid List" w = (Raise ValueError, w')
    ∧ files w !! demo_book = Some {[ "Bid List" := ws ]}
    ∧ files w' !! demo_book = Some {[ "Bid List" := ws' ]}
    ∧ cell_value ws 1 1 = Some (VStr "Folder Name")
    ∧ cell_value ws' 1 1 = Some (VStr "Bid Folder")
    ∧ files w' ≠ files w.
Proof.
  intros ws w.
  assert (get_row_index_by_value ws 2 "99" = None) as Hnone
    by (vm_compute; reflexivity).
  pose proof (update_bid_status_not_found_run demo_book "Bid List" w "99"
                (set_stdin [""] w) "" (set_stdin [] w) _ _
                eq_refl eq_refl (legacy_sheet_open []) Hnone) as Hrun.
  unfold context_sheet in Hrun.
  cbn [active_path read_only pending_save_path workbook_path workbook
       worksheet] in Hrun.
  rewrite insert_singleton_eq, lookup_singleton_eq in Hrun.
  cbn [default from_option] in Hrun.
  assert (cell_value (ensure_headers ws).2 1 1 = Some (VStr "Bid Folder")) as Hcell
    by (vm_compute; reflexivity).
  assert (files w !! demo_book = Some ({[ "Bid List" := ws ]} : Workbook)) as Hw
    by apply lookup_singleton_eq.
  exists (set_files (<[demo_book := {[ "Bid List" := (ensure_headers ws).2 ]}]>
                       (files w)) (set_stdin [] w)), (ensure_headers ws).2.
  split_and!; [done|exact Hrun|done| |reflexivity|exact Hcell|].
  - cbn. apply lookup_insert_eq.
  - cbn [files set_files]. intros Heq.
    apply (f_equal (λ f, f !! demo_book)) in Heq.
    rewrite lookup_insert_eq in Heq.
    change (files (set_stdin [] w)) with (files w) in Heq. rewrite Hw in Heq.
    apply (inj Some) in Heq.
    apply (f_equal (λ wb : Workbook, wb !! "Bid List")) in Heq.
    rewrite !lookup_singleton_eq in Heq. apply (inj Some) in Heq.
    apply (f_equal (λ s, cell_value s 1 1)) in Heq.
    change (cell_value (ensure_headers ws).2 1 1 = cell_value ws 1 1) in Heq.
    rewrite Hcell in Heq. discriminate Heq.
Qed.

(** ** Character classes *)

Lemma digit_not_space c : Text.is_digit c = true → Text.is_space c = false.
Proof.
  unfold Text.is_digit, Text.is_space, Text.between, Text.is_code.
  generalize (Text.code c). intros n H.
  apply andb_true_iff in H as [H1%N.leb_le H2%N.leb_le].
  repeat match goal with
         | |- context [(?a <=? ?b)%N] => destruct (N.leb_spec a b)
         | |- context [(?a =? ?b)%N] => destruct (N.eqb_spec a b)
         end; simpl; try reflexivity; lia.
Qed.

Lemma digit_is_word c : Text.is_digit c = true → Text.is_word c = true.
Proof. unfold Text.is_word. by intros ->. Qed.

Lemma is_dash_eq c : is_dash c = true ↔ c = "-"%char.
Proof.
  unfold is_dash, Text.is_code, Text.code. rewrite N.eqb_eq. split.
  - intros H. rewrite <- (ascii_N_embedding c), H. reflexivity.
  - by intros ->.
Qed.

Lemma dash_not_space : Text.is_space "-" = false.
Proof. reflexivity. Qed.

(** ** The next bid number *)

Lemma lstrip_app_spaces ws l :
  Forall (λ c, Text.is_space c = true) ws →
  Text.lstrip (ws ++ l) = Text.lstrip l.
Proof. induction 1 as [|c ws Hc _ IH]; simpl; [done|]. by rewrite Hc. Qed.

Lemma lstrip_spec l :
  ∃ ws, l = ws ++ Text.lstrip l ∧ Forall (λ c, Text.is_space c = true) ws.
Proof.
  induction l as [|c l (ws & IH1 & IH2)]; simpl.
  - by exists [].
  - destruct (Text.is_space c) eqn:E.
    + exists (c :: ws). split; [by rewrite <- app_comm_cons, <- IH1|].
      by constructor.
    + by exists [].
Qed.

Lemma lstrip_head l c l' :
  Text.lstrip l = c :: l' → Text.is_space c = false.
Proof.
  induction l as [|x l IH]; simpl; [done|].
  destruct (Text.is_space x) eqn:E; [done|]. by intros [= <- _].
Qed.

Lemma span_app p l :
  (Text.span p l).1 ++ (Text.span p l).2 = l.
Proof.
  induction l as [|c l IH]; simpl; [done|].
  destruct (p c); [|done]. destruct (Text.span p l); simpl in *. by rewrite IH.
Qed.

Lemma span_Forall p l : Forall (λ c, p c = true) (Text.span p l).1.
Proof.
  induction l as [|c l IH]; simpl; [constructor|].
  destruct (p c) eqn:E; [|constructor].
  destruct (Text.span p l); simpl in *. by constructor.
Qed.

Lemma span_rest p l c rest : (Text.span p l).2 = c :: rest → p c = false.
Proof.
  induction l as [|x l IH]; simpl; [done|].
  destruct (p x) eqn:E.
  - destruct (Text.span p l); simpl in *. done.
  - by intros [= <- _].
Qed.

Lemma span_exact p ds rest :
  Forall (λ c, p c = true) ds →
  match rest with [] => True | c :: _ => p c = false end →
  Text.span p (ds ++ rest) = (ds, rest).
Proof.
  induction 1 as [|c ds Hc _ IH]; intros Hr; simpl.
  - destruct rest as [|c rest]; [done|]. simpl. by rewrite Hr.
  - rewrite Hc. by rewrite IH.
Qed.

(** [match_leading_number] says what the pattern says: white space, then a
    run of digits that is not empty and ends at a word boundary. *)
Lemma match_leading_number_spec name ds :
  match_leading_number name = Some ds
  ↔ ∃ ws rest,
      Text.chars name = ws ++ ds ++ rest
      ∧ Forall (λ c, Text.is_space c = true) ws
      ∧ ds ≠ [] ∧ Forall (λ c, Text.is_digit c = true) ds
      ∧ match rest with [] => True | c :: _ => Text.is_word c = false end.
Proof.
  unfold match_leading_number. split.
  - destruct (lstrip_spec (Text.chars name)) as (ws & Hn & Hws).
    pose proof (span_app Text.is_digit (Text.lstrip (Text.chars name))) as Ha.
    pose proof (span_Forall Text.is_digit (Text.lstrip (Text.chars name))) as Hd.
    destruct (Text.span _ _) as [digits rest]; simpl in *.
    destruct digits as [|d digits]; [done|].
    intros H. exists ws, rest.
    destruct rest as [|c rest].
    + injection H as <-. rewrite Ha. by split_and!.
    + destruct (Text.is_word c) eqn:W; [done|]. injection H as <-.
      rewrite Ha. by split_and!.
  - intros (ws & rest & Hn & Hws & Hne & Hd & Hr).
    rewrite Hn, lstrip_app_spaces by done.
    destruct ds as [|d ds]; [done|].
    assert (Text.lstrip ((d :: ds) ++ rest) = (d :: ds) ++ rest) as ->.
    { simpl. apply Forall_cons in Hd as [Hd _].
      by rewrite (digit_not_space d Hd). }
    rewrite span_exact; [|done|].
    + destruct rest as [|c rest]; [done|]. by rewrite Hr.
    + destruct rest as [|c rest]; [done|].
      destruct (Text.is_digit c) eqn:E; [|done].
      apply digit_is_word in E. congruence.
Qed.

Lemma max_bid_number_fold names acc :
  fold_left
    (λ max_value name,
       match match_leading_number name with
       | Some digits =>
           let number := Text.int_of_digits digits in
           if (max_value <? number)%N then number else max_value
       | None => max_value
       end) names acc
  = N.max acc (foldr N.max 0%N (bid_numbers names)).
Proof.
  revert acc. induction names as [|name names IH]; intros acc; simpl.
  - lia.
  - rewrite IH. unfold bid_numbers; simpl.
    destruct (match_leading_number name) as [ds|]; simpl; [|done].
    destruct (N.ltb_spec acc (Text.int_of_digits ds)); lia.
Qed.

Lemma max_bid_number_spec names :
  max_bid_number names = foldr N.max 0%N (bid_numbers names).
Proof. unfold max_bid_number. rewrite max_bid_number_fold. lia. Qed.

(** C7, as the code has it.  The numbers compared are those of the names
    that start, after optional white space, with a run of digits ending at
    a word boundary.  When no name is of that form [get_next_bid_number]
    raises [ValueError]; when the largest of the numbers is positive the
    result is that number plus one.  On the names "12 - MD - ...",
    "7 - JS - ..." and "13-something" the result is 14. *)
Theorem next_bid_number_of_matching_names names :
  (bid_numbers names = [] → next_bid_number names = Raise ValueError)
  ∧ ((0 < foldr N.max 0 (bid_numbers names))%N →
     next_bid_number names
     = Ok (Z.of_N (foldr N.max 0%N (bid_numbers names)) + 1)%Z)
  ∧ (∀ name ds,
       match_leading_number name = Some ds
       ↔ ∃ ws rest,
           Text.chars name = ws ++ ds ++ rest
           ∧ Forall (λ c, Text.is_space c = true) ws
           ∧ ds ≠ [] ∧ Forall (λ c, Text.is_digit c = true) ds
           ∧ match rest with
             | [] => True
             | c :: _ => Text.is_word c = false
             end)
  ∧ (∀ root w entries,
       dirs w !! root = Some entries →
       get_next_bid_number root w
       = (next_bid_number (folder_names entries), w))
  ∧ next_bid_number
      ["12 - MD - 01-02 - Acme - Lobby"; "7 - JS - 03-04 - Beta - Roof";
       "13-something"] = Ok 14%Z.
Proof.
  split_and!.
  - intros H. unfold next_bid_number. rewrite max_bid_number_spec, H. done.
  - intros H. unfold next_bid_number. rewrite max_bid_number_spec.
    destruct (N.eqb_spec (foldr N.max 0%N (bid_numbers names)) 0); [lia|done].
  - apply match_leading_number_spec.
  - intros root w entries Hd.
    unfold get_next_bid_number, get_bid_folders, mbind, M_bind, get.
    rewrite Hd. cbn. by destruct (next_bid_number _).
  - vm_compute. reflexivity.
Qed.

(** C7 as stated fails: the name "12a - ..." starts with the digits 12, so
    the claim gives 13, but the digits do not end at a word boundary and the
    code does not count them. *)
Lemma next_bid_number_skips_digits_before_letter :
  let names := ["7 - JS - 03-04 - Beta - Roof";
                "12a - MD - 01-02 - Acme - Lobby"] in
  claimed_next_bid_number names = Ok 13%Z
  ∧ next_bid_number names = Ok 8%Z.
Proof. split; vm_compute; reflexivity. Qed.

(** ** The due date *)


(** ** Decoding a folder name *)

Lemma push_cons a p ps : push a (p :: ps) = (a :: p) :: ps.
Proof. reflexivity. Qed.

Lemma re_split_nonempty n s : re_split n s ≠ [].
Proof.
  destruct n as [|n]; [by destruct s|].
  induction s as [|a s IH]; [done|]. cbn [re_split].
  destruct s as [|d [|b rest]]; try (destruct (re_split (S n) _); done).
  destruct (_ && _); [done|]. by destruct (re_split (S n) _).
Qed.

Lemma re_split_step n a s :
  re_split (S n) (a :: s)
  = match s with
    | d :: b :: rest =>
        if Text.is_space a && is_dash d && Text.is_space b
        then [] :: re_split n rest
        else push a (re_split (S n) s)
    | _ => push a (re_split (S n) s)
    end.
Proof. reflexivity. Qed.

Lemma split_literal_step n a s :
  split_literal (S n) (a :: s)
  = match s with
    | d :: b :: rest =>
        if bool_decide (a = " "%char) && is_dash d && bool_decide (b = " "%char)
        then [] :: split_literal n rest
        else push a (split_literal (S n) s)
    | _ => push a (split_literal (S n) s)
    end.
Proof. reflexivity. Qed.

(** On a text whose only white space is the space, the pattern and the
    literal separator cut at the same places. *)
Lemma re_split_literal k : ∀ n s,
  length s ≤ k →
  (∀ c, c ∈ s → Text.is_space c = true → c = " "%char) →
  re_split n s = split_literal n s.
Proof.
  induction k as [|k IH]; intros n s Hk Hs.
  - destruct s; [|simpl in Hk; lia]. by destruct n.
  - destruct n as [|n]; [by destruct s|].
    destruct s as [|a s]; [done|].
    rewrite re_split_step, split_literal_step. simpl in Hk.
    assert (∀ c, c ∈ s → Text.is_space c = true → c = " "%char) as Hs'
      by (intros c Hc; apply Hs; by right).
    destruct s as [|d [|b rest]]; try (by rewrite IH by (simpl in *; lia || done)).
    assert (∀ c, c ∈ a :: d :: b :: rest →
                 Text.is_space c = bool_decide (c = " "%char)) as Heq.
    { intros c Hc. case_bool_decide as Hd; [by subst|].
      destruct (Text.is_space c) eqn:E; [|done]. by apply Hs in E. }
    rewrite (Heq a), (Heq b) by set_solver.
    destruct (_ && _).
    + f_equal. apply IH; [simpl in *; lia|].
      intros c Hc. apply Hs. set_solver.
    + by rewrite IH by (simpl in *; lia || done).
Qed.

Lemma rejoin_push a parts seps :
  parts ≠ [] → rejoin (push a parts) seps = a :: rejoin parts seps.
Proof.
  destruct parts as [|p ps]; [done|]. intros _. by destruct seps.
Qed.

(** The parts, put together again with separators of the pattern, are the
    text; there is one separator less than parts, and at most [n] of
    them. *)
Lemma re_split_rejoin k : ∀ n s,
  length s ≤ k →
  ∃ seps, rejoin (re_split n s) seps = s
          ∧ length (re_split n s) = S (length seps)
          ∧ Forall is_separator seps
          ∧ length seps ≤ n.
Proof.
  induction k as [|k IH]; intros n s Hk.
  - destruct s; [|simpl in Hk; lia]. exists [].
    destruct n; simpl; split_and!; (done || lia).
  - destruct n as [|n].
    { exists []. destruct s; simpl; split_and!; (done || lia). }
    destruct s as [|a s].
    { exists []. simpl; split_and!; (done || lia). }
    rewrite re_split_step. simpl in Hk.
    assert (∃ seps, rejoin (push a (re_split (S n) s)) seps = a :: s
                    ∧ length (push a (re_split (S n) s)) = S (length seps)
                    ∧ Forall is_separator seps ∧ length seps ≤ S n) as Hpush.
    { destruct (IH (S n) s ltac:(lia)) as (seps & H1 & H2 & H3 & H4).
      exists seps. rewrite rejoin_push by apply re_split_nonempty.
      rewrite H1. split_and!; try done.
      destruct (re_split (S n) s); [done|]. by simpl in *. }
    destruct s as [|d [|b rest]]; [done..|].
    destruct (Text.is_space a && is_dash d && Text.is_space b) eqn:E; [|done].
    apply andb_true_iff in E as [[Ha Hd%is_dash_eq]%andb_true_iff Hb].
    subst d.
    destruct (IH n rest ltac:(simpl in *; lia)) as (seps & H1 & H2 & H3 & H4).
    exists ([a; "-"%char; b] :: seps). simpl. rewrite H1, H2.
    split_and!; [done|done| |lia].
    constructor; [|done]. by exists a, b.
Qed.

Lemma parse_None_iff folder_name :
  parse_bid_folder_name folder_name = None
  ↔ length (re_split 4 (Text.chars folder_name)) < 5.
Proof.
  unfold parse_bid_folder_name.
  destruct (re_split 4 _) as [|p0 [|p1 [|p2 [|p3 [|p4 ps]]]]]; simpl;
    split; (done || lia).
Qed.

Lemma parse_Some_parts folder_name info :
  parse_bid_folder_name folder_name = Some info →
  ∃ p0 p1 p2 p3 p4,
    re_split 4 (Text.chars folder_name) = [p0; p1; p2; p3; p4]
    ∧ info = {| bid_number := Text.text (Text.strip_chars p0);
                initials := Text.text (Text.strip_chars p1);
                bid_date := Text.text (Text.strip_chars p2);
                customer := Text.text (Text.strip_chars p3);
                bid_name := Text.text (Text.strip_chars p4);
                folder := folder_name |}.
Proof.
  unfold parse_bid_folder_name.
  destruct (re_split_rejoin _ 4 (Text.chars folder_name) (le_n _))
    as (seps & _ & Hlen & _ & Hn).
  destruct (re_split 4 _) as [|p0 [|p1 [|p2 [|p3 [|p4 ps]]]]]; try done.
  intros [= <-]. exists p0, p1, p2, p3, p4. split; [|done].
  destruct ps; [done|]. simpl in Hlen. lia.
Qed.

(** The first cut is at the leftmost separator, and the rest of the split
    goes on after it. *)
Lemma re_split_no_separator n s :
  (∀ i, starts_with_separator (drop i s) = false) → re_split (S n) s = [s].
Proof.
  induction s as [|a s IH]; intros H; [done|].
  rewrite re_split_step.
  assert (re_split (S n) s = [s]) as Hs.
  { apply IH. intros i. apply (H (S i)). }
  pose proof (H 0) as H0. simpl in H0.
  destruct s as [|d [|b rest]]; try (by rewrite Hs).
  rewrite H0. by rewrite Hs.
Qed.

Lemma re_split_leftmost n i : ∀ s,
  starts_with_separator (drop i s) = true →
  (∀ j, j < i → starts_with_separator (drop j s) = false) →
  re_split (S n) s = take i s :: re_split n (drop (i + 3) s).
Proof.
  induction i as [|i IH]; intros s Hi Hfirst.
  - destruct s as [|a [|d [|b rest]]]; try done.
    rewrite re_split_step. simpl in Hi. by rewrite Hi.
  - destruct s as [|a s]; [done|]. rewrite re_split_step.
    assert (re_split (S n) s = take i s :: re_split n (drop (i + 3) s)) as Hs.
    { apply IH; [done|]. intros j Hj. apply (Hfirst (S j)). lia. }
    pose proof (Hfirst 0 ltac:(lia)) as H0. simpl in H0.
    destruct s as [|d [|b rest]]; try (by rewrite Hs).
    rewrite H0. by rewrite Hs.
Qed.

(** C9, as the code has it.  [parse_bid_folder_name] cuts the name at the
    leftmost occurrences of a white space character, a dash and a white
    space character, at most four times, so that what follows the fourth
    cut is the fifth part whatever it contains; it returns [None] exactly
    when fewer than five parts result, and the five fields are the parts,
    stripped.  When the only white space of the name is the space, this is
    the split on the literal " - ". *)
Theorem parse_bid_folder_name_splits folder_name :
  (∃ seps,
     rejoin (re_split 4 (Text.chars folder_name)) seps = Text.chars folder_name
     ∧ length (re_split 4 (Text.chars folder_name)) = S (length seps)
     ∧ Forall is_separator seps
     ∧ length seps ≤ 4)
  ∧ (parse_bid_folder_name folder_name = None
     ↔ length (re_split 4 (Text.chars folder_name)) < 5)
  ∧ (∀ info,
       parse_bid_folder_name folder_name = Some info →
       ∃ p0 p1 p2 p3 p4,
         re_split 4 (Text.chars folder_name) = [p0; p1; p2; p3; p4]
         ∧ info = {| bid_number := Text.text (Text.strip_chars p0);
                     initials := Text.text (Text.strip_chars p1);
                     bid_date := Text.text (Text.strip_chars p2);
                     customer := Text.text (Text.strip_chars p3);
                     bid_name := Text.text (Text.strip_chars p4);
                     folder := folder_name |})
  ∧ (∀ n s,
       ((∀ i, starts_with_separator (drop i s) = false) →
        re_split (S n) s = [s])
       ∧ (∀ i, starts_with_separator (drop i s) = true →
               (∀ j, j < i → starts_with_separator (drop j s) = false) →
               re_split (S n) s = take i s :: re_split n (drop (i + 3) s))
       ∧ re_split 0 s = [s])
  ∧ ((∀ c, c ∈ Text.chars folder_name → Text.is_space c = true → c = " "%char) →
     parse_bid_folder_name folder_name = decode_literal folder_name).
Proof.
  split_and!.
  - by eapply re_split_rejoin.
  - apply parse_None_iff.
  - apply parse_Some_parts.
  - intros n s. split_and!.
    + apply re_split_no_separator.
    + intros i. apply re_split_leftmost.
    + by destruct s.
  - intros Hs. unfold parse_bid_folder_name, decode_literal.
    by rewrite (re_split_literal _ 4 _ (le_n _) Hs).
Qed.

(** C9 as stated fails: with tabs around the first dash the name still
    decodes, although the literal " - " occurs only three times in it. *)
Lemma parse_bid_folder_name_splits_at_tabs :
  let folder_name :=
    "5" +:+ TAB +:+ "-" +:+ TAB +:+ "MD - 01-02 - Acme - Lobby" in
  decode_literal folder_name = None
  ∧ parse_bid_folder_name folder_name
    = Some {| bid_number := "5"; initials := "MD"; bid_date := "01-02";
              customer := "Acme"; bid_name := "Lobby";
              folder := folder_name |}.
Proof. split; vm_compute; reflexivity. Qed.

(** ** Stripping *)

Lemma lstrip_no_lead l : no_lead (Text.lstrip l).
Proof.
  induction l as [|c l IH]; simpl; [done|].
  destruct (Text.is_space c) eqn:E; [done|]. simpl. done.
Qed.

Lemma lstrip_id l : no_lead l → Text.lstrip l = l.
Proof. destruct l as [|c l]; simpl; [done|]. by intros ->. Qed.

Lemma rstrip_snoc l c :
  Text.rstrip (l ++ [c])
  = if Text.is_space c then Text.rstrip l else l ++ [c].
Proof.
  induction l as [|x l IH]; simpl.
  - by destruct (Text.is_space c).
  - rewrite IH. destruct (Text.is_space c) eqn:E; [done|].
    destruct l as [|y l]; simpl; [done|]. done.
Qed.

Lemma no_trail_snoc l c : no_trail (l ++ [c]) ↔ Text.is_space c = false.
Proof. unfold no_trail. by rewrite last_snoc. Qed.

Lemma rstrip_no_trail l : no_trail (Text.rstrip l).
Proof.
  induction l as [|c l IH] using rev_ind; [done|].
  rewrite rstrip_snoc. destruct (Text.is_space c) eqn:E; [done|].
  by apply no_trail_snoc.
Qed.

Lemma rstrip_id l : no_trail l → Text.rstrip l = l.
Proof.
  destruct l as [|c l _] using rev_ind; [done|].
  rewrite no_trail_snoc, rstrip_snoc. by intros ->.
Qed.

Lemma lstrip_suffix l : ∃ ws, l = ws ++ Text.lstrip l.
Proof. destruct (lstrip_spec l) as (ws & H & _). by exists ws. Qed.

Lemma no_trail_app_r l1 l2 : l2 ≠ [] → no_trail (l1 ++ l2) ↔ no_trail l2.
Proof.
  intros Hne. unfold no_trail.
  destruct l2 as [|c l2 _] using rev_ind; [done|].
  by rewrite app_assoc, !last_snoc.
Qed.

Lemma lstrip_no_trail l : no_trail l → no_trail (Text.lstrip l).
Proof.
  intros H. destruct (lstrip_suffix l) as (ws & Hl).
  destruct (Text.lstrip l) as [|c r] eqn:E; [done|].
  rewrite Hl in H. by apply no_trail_app_r in H.
Qed.

Lemma strip_chars_no_lead l : no_lead (Text.strip_chars l).
Proof. apply lstrip_no_lead. Qed.

Lemma strip_chars_no_trail l : no_trail (Text.strip_chars l).
Proof. apply lstrip_no_trail, rstrip_no_trail. Qed.

Lemma strip_chars_id l : no_lead l → no_trail l → Text.strip_chars l = l.
Proof. intros H1 H2. unfold Text.strip_chars. by rewrite rstrip_id, lstrip_id. Qed.

Lemma strip_chars_idemp l :
  Text.strip_chars (Text.strip_chars l) = Text.strip_chars l.
Proof.
  apply strip_chars_id; [apply strip_chars_no_lead|apply strip_chars_no_trail].
Qed.

Lemma strip_text l : Text.strip (Text.text l) = Text.text (Text.strip_chars l).
Proof. unfold Text.strip. by rewrite chars_text. Qed.

Lemma strip_idemp s : Text.strip (Text.strip s) = Text.strip s.
Proof. unfold Text.strip at 2. by rewrite strip_text, strip_chars_idemp. Qed.

(** ** Rows written by the synchronisation *)







Lemma row_matches_true ws col target r :
  row_matches ws col target r = true
  ↔ ∃ v, cell_value ws r col = Some v ∧ Text.strip (str v) = target.
Proof.
  unfold row_matches. destruct (cell_value ws r col) as [v|].
  - rewrite bool_decide_eq_true. naive_solver.
  - naive_solver.
Qed.














(** ** The second run of the synchronisation *)








(** ** The header row in the second run *)

Lemma resolve_default i k : HEADER_DEFAULTS !! i = Some k → resolve k = k.
Proof.
  intros H. do 9 (destruct i as [|i]; [by injection H as <-|]). done.
Qed.

Lemma truthy_default i k :
  HEADER_DEFAULTS !! i = Some k → truthy (Some (VStr k)) = true.
Proof.
  intros H. do 9 (destruct i as [|i]; [by injection H as <-|]). done.
Qed.

Lemma ensure_headers_normal ws : header_row_normal (ensure_headers ws).2.
Proof.
  split.
  - intros i k Hi. rewrite ensure_headers_cells.
    assert (default_at 1 (S i) = Some k) as ->; [|done].
    apply default_at_Some. split_and!; [done|lia|].
    by replace (S i - 1) with i by lia.
  - intros col Hcol. rewrite ensure_headers_cells.
    destruct (default_at 1 col) as [k|] eqn:D.
    + apply default_at_Some in D as (_ & _ & D).
      unfold normal_label. rewrite (truthy_default _ _ D). simpl.
      by rewrite (resolve_default _ _ D).
    + rewrite decide_True by done. apply normal_label_idemp.
Qed.


Lemma scan_header_fixed ws h b col :
  normal_label (cell_value ws 1 col) = cell_value ws 1 col →
  (scan_header (ws, h, b) col).1.1 = ws.
Proof.
  unfold scan_header, normal_label.
  destruct (cell_value ws 1 col) as [v|]; [|done].
  destruct (truthy (Some v)) eqn:T; [|done]. intros Hfix. cbn [fst snd].
  unfold differs. rewrite bool_decide_eq_true_2; [done|].
  rewrite <- Hfix. done.
Qed.

Lemma scan_fold_fixed cols : ∀ ws h b,
  (∀ col, col ∈ cols →
     normal_label (cell_value ws 1 col) = cell_value ws 1 col) →
  (fold_left scan_header cols (ws, h, b)).1.1 = ws.
Proof.
  induction cols as [|col cols IH]; intros ws h b H; [done|].
  cbn [fold_left].
  pose proof (scan_header_fixed ws h b col (H col ltac:(by left))) as Hs.
  destruct (scan_header (ws, h, b) col) as [[ws' h'] b']. cbn [fst snd] in Hs.
  subst ws'. apply IH. intros c Hc. apply H. by right.
Qed.

Lemma ensure_headers_fixed ws :
  header_row_normal ws → (ensure_headers ws).2 = ws.
Proof.
  intros [Hcanon Hfix]. unfold ensure_headers.
  pose proof (scan_fold_fixed (seq 1 30) ws ∅ false Hfix) as Hsheet.
  destruct (scan_fold (seq 1 30) (NoDup_seq _ _) ws ∅ false) as (_ & _ & Hb & _).
  cbv zeta in Hb.
  destruct (fold_left scan_header (seq 1 30) (ws, ∅, false)) as [[ws1 h1] b1].
  cbn [fst snd] in *. subst ws1.
  assert (b1 = true) as ->.
  { apply Hb. right. exists 1. split; [set_solver|].
    rewrite (Hcanon 0 "Bid Folder") by done. done. }
  cbn [negb].
  assert (existsb (λ '(idx, header), differs (cell_value ws 1 idx) header)
            (enumerate 1 HEADER_DEFAULTS) = false) as ->; [|done].
  unfold enumerate; cbn [length HEADER_DEFAULTS seq combine existsb].
  rewrite (Hcanon 0 "Bid Folder"), (Hcanon 1 "Bid Number"),
    (Hcanon 2 "Estimator"), (Hcanon 3 "Bid Due Date"),
    (Hcanon 4 "Customer/GC"), (Hcanon 5 "Bid Name"),
    (Hcanon 6 "Proposal Date"), (Hcanon 7 "Proposal Amount"),
    (Hcanon 8 "Bid Status") by done.
  reflexivity.
Qed.




Lemma sheet_of_insert (wb : Workbook) title ws :
  sheet_of (<[title := ws]> wb) title = ws.
Proof. unfold sheet_of. by rewrite lookup_insert_eq. Qed.

Lemma sheet_of_singleton title ws :
  sheet_of ({[ title := ws ]} : Workbook) title = ws.
Proof. unfold sheet_of. by rewrite lookup_singleton_eq. Qed.





(** ** Sanitising a joined name *)

Lemma lstrip_app l1 l2 :
  Text.lstrip (l1 ++ l2)
  = match Text.lstrip l1 with
    | [] => Text.lstrip l2
    | _ => Text.lstrip l1 ++ l2
    end.
Proof.
  induction l1 as [|c l1 IH]; simpl; [by destruct (Text.lstrip l2)|].
  destruct (Text.is_space c); [done|]. done.
Qed.

Lemma rstrip_app l1 l2 :
  Text.rstrip (l1 ++ l2)
  = match Text.rstrip l2 with
    | [] => Text.rstrip l1
    | _ => l1 ++ Text.rstrip l2
    end.
Proof.
  induction l1 as [|c l1 IH]; simpl; [by destruct (Text.rstrip l2)|].
  rewrite IH. destruct (Text.rstrip l2) as [|x r]; [done|].
  by destruct l1.
Qed.

Lemma rstrip_nil_iff l :
  Text.rstrip l = [] ↔ Forall (λ c, Text.is_space c = true) l.
Proof.
  induction l as [|c l IH]; simpl; [by split|].
  destruct (Text.rstrip l) as [|x r].
  - destruct (Text.is_space c) eqn:E.
    + split; [|done]. intros _. constructor; [done|]. by apply IH.
    + split; [done|]. intros [Hc _]%Forall_cons. congruence.
  - split; [done|]. intros [_ Hl]%Forall_cons. by apply IH in Hl.
Qed.

Lemma lstrip_nil_iff l :
  Text.lstrip l = [] ↔ Forall (λ c, Text.is_space c = true) l.
Proof.
  induction l as [|c l IH]; simpl; [by split|].
  destruct (Text.is_space c) eqn:E.
  - rewrite IH. split; [by constructor|by intros [_ ?]%Forall_cons].
  - split; [done|]. intros [Hc _]%Forall_cons. congruence.
Qed.

(** Stripping on the left and on the right commute. *)
Lemma strip_comm l : Text.rstrip (Text.lstrip l) = Text.lstrip (Text.rstrip l).
Proof.
  destruct (lstrip_spec l) as (ws & Hl & Hws).
  destruct (Text.lstrip l) as [|c r] eqn:E.
  - simpl. apply lstrip_nil_iff in E. apply rstrip_nil_iff in E as ->. done.
  - pose proof (lstrip_head _ _ _ E) as Hc.
    rewrite Hl, rstrip_app.
    assert (Text.rstrip (c :: r) ≠ []) as Hne.
    { intros H%rstrip_nil_iff. apply Forall_cons in H as [H _]. congruence. }
    destruct (Text.rstrip (c :: r)) as [|x r'] eqn:Er; [done|].
    rewrite lstrip_app_spaces by done.
    symmetry. apply lstrip_id.
    assert (x = c) as ->; [|done].
    simpl in Er. destruct (Text.rstrip r); [|by injection Er].
    rewrite Hc in Er. by injection Er.
Qed.

Lemma ends_in_space_cons f c l :
  ends_in_space f (c :: l) = ends_in_space (Text.is_space c) l.
Proof.
  unfold ends_in_space. destruct l as [|x l]; [done|].
  rewrite last_cons_cons. destruct (last (x :: l)) eqn:E; [done|].
  by apply last_None in E.
Qed.

Lemma sub_spaces_app f l1 l2 :
  Text.sub_spaces f (l1 ++ l2)
  = Text.sub_spaces f l1 ++ Text.sub_spaces (ends_in_space f l1) l2.
Proof.
  revert f. induction l1 as [|c l1 IH]; intros f; [done|].
  rewrite ends_in_space_cons. simpl.
  destruct (Text.is_space c) eqn:E.
  - destruct f; by rewrite IH.
  - by rewrite IH.
Qed.

Lemma sub_spaces_true_no_lead l : no_lead (Text.sub_spaces true l).
Proof.
  induction l as [|c l IH]; simpl; [done|].
  destruct (Text.is_space c) eqn:E; [done|]. done.
Qed.

Lemma sub_spaces_true_lstrip l :
  Text.sub_spaces true l = Text.lstrip (Text.sub_spaces false l).
Proof.
  destruct l as [|c l]; simpl; [done|].
  destruct (Text.is_space c) eqn:E.
  - simpl. symmetry. apply lstrip_id, sub_spaces_true_no_lead.
  - simpl. by rewrite E.
Qed.

(** The end of a text whose white space has been collapsed. *)
Lemma sub_spaces_end l :
  if ends_in_space false l
  then ∃ x, Text.sub_spaces false l = x ++ [" "%char] ∧ no_trail x
  else no_trail (Text.sub_spaces false l).
Proof.
  induction l as [|c l IH] using rev_ind; [done|].
  unfold ends_in_space at 1. rewrite last_snoc.
  rewrite sub_spaces_app. simpl.
  destruct (Text.is_space c) eqn:E.
  - destruct (ends_in_space false l).
    + rewrite app_nil_r. exact IH.
    + by exists (Text.sub_spaces false l).
  - by apply no_trail_snoc.
Qed.

Lemma sub_spaces_then_space l :
  Text.sub_spaces false l
  ++ (if ends_in_space false l then [] else [" "%char])
  = Text.rstrip (Text.sub_spaces false l) ++ [" "%char].
Proof.
  pose proof (sub_spaces_end l) as H.
  destruct (ends_in_space false l).
  - destruct H as (x & -> & Hx). rewrite app_nil_r.
    rewrite rstrip_snoc. simpl. by rewrite rstrip_id.
  - by rewrite rstrip_id.
Qed.

Lemma sub_illegal_app l1 l2 :
  Text.sub_illegal (l1 ++ l2) = Text.sub_illegal l1 ++ Text.sub_illegal l2.
Proof. apply map_app. Qed.

Lemma sub_spaces_joiner f l :
  Text.sub_spaces f (JOINER ++ l)
  = (if f then [] else [" "%char])
    ++ "-"%char :: " "%char :: Text.sub_spaces true l.
Proof. by destruct f. Qed.

(** Sanitising two texts joined by " - " sanitises each of them, when
    neither becomes empty. *)
Lemma sanitize_join a b :
  Text.sanitize_chars a ≠ [] → Text.sanitize_chars b ≠ [] →
  Text.sanitize_chars (a ++ JOINER ++ b)
  = Text.sanitize_chars a ++ JOINER ++ Text.sanitize_chars b.
Proof.
  unfold Text.sanitize_chars. rewrite !sub_illegal_app.
  change (Text.sub_illegal JOINER) with JOINER.
  set (A := Text.sub_illegal a). set (B := Text.sub_illegal b).
  intros HA HB.
  rewrite sub_spaces_app, sub_spaces_joiner.
  rewrite app_assoc, sub_spaces_then_space, sub_spaces_true_lstrip.
  unfold Text.strip_chars in *.
  rewrite <- app_assoc. simpl.
  change (Text.rstrip (Text.sub_spaces false A)
          ++ " "%char :: "-"%char :: " "%char
             :: Text.lstrip (Text.sub_spaces false B))
    with (Text.rstrip (Text.sub_spaces false A)
          ++ JOINER ++ Text.lstrip (Text.sub_spaces false B)).
  rewrite !rstrip_app, strip_comm.
  destruct (Text.lstrip (Text.rstrip (Text.sub_spaces false B))) as [|y sb] eqn:EB;
    [done|].
  unfold JOINER; cbn [app]. rewrite lstrip_app.
  destruct (Text.lstrip (Text.rstrip (Text.sub_spaces false A))) as [|x sa] eqn:EA;
    [done|].
  done.
Qed.

(** ** Splitting a joined name *)

Lemma has_separator_false l :
  has_separator l = false → ∀ j, starts_with_separator (drop j l) = false.
Proof.
  induction l as [|c l IH]; intros H j.
  - by destruct j.
  - cbn [has_separator] in H. apply orb_false_iff in H as [H1 H2].
    destruct j as [|j]; [done|]. by apply IH.
Qed.

Lemma starts_with_separator_before s more : ∀ j,
  j < length s →
  starts_with_separator (drop j (s ++ " "%char :: more))
  = starts_with_separator (drop j (s ++ [" "%char])).
Proof.
  induction s as [|x s IH]; intros j Hj; [simpl in Hj; lia|].
  destruct j as [|j].
  - destruct s as [|y [|z s]]; [|done..].
    destruct more as [|m more]; [done|].
    cbn [app drop starts_with_separator].
    change (is_dash " ") with false. by rewrite andb_false_r.
  - simpl. apply IH. simpl in Hj. lia.
Qed.

Lemma re_split_joined n s rest :
  has_separator (s ++ [" "%char]) = false →
  re_split (S n) (s ++ JOINER ++ rest) = s :: re_split n rest.
Proof.
  intros H.
  rewrite (re_split_leftmost n (length s)).
  - rewrite take_app_length. f_equal. f_equal.
    rewrite <- drop_drop, drop_app_length. done.
  - by rewrite drop_app_length.
  - intros j Hj. unfold JOINER. cbn [app].
    rewrite starts_with_separator_before by done.
    by apply has_separator_false.
Qed.

(** ** The text of an integer *)

Lemma string_of_uint_plain d :
  Forall plain (Text.chars (NilEmpty.string_of_uint d)).
Proof. induction d; simpl; constructor; done. Qed.

Lemma str_of_int_plain z :
  Forall plain (Text.chars (Text.str_of_int z)) ∧ Text.str_of_int z ≠ "".
Proof.
  unfold Text.str_of_int. destruct (Z.to_int z) as [d|d]; simpl.
  - destruct d; simpl; (split; [|done]); try (constructor; [done|]);
      first [by constructor | apply string_of_uint_plain].
  - split; [|done]. constructor; [done|].
    destruct d; simpl; try (constructor; [done|]);
      first [by constructor | apply string_of_uint_plain].
Qed.

Lemma sub_illegal_plain l : Forall plain l → Text.sub_illegal l = l.
Proof.
  induction 1 as [|c l [_ Hc] _ IH]; simpl; [done|]. by rewrite Hc, IH.
Qed.

Lemma sub_spaces_plain f l : Forall plain l → Text.sub_spaces f l = l.
Proof.
  intros H. revert f. induction H as [|c l [Hc _] _ IH]; intros f; simpl; [done|].
  by rewrite Hc, IH.
Qed.

Lemma plain_no_lead l : Forall plain l → no_lead l.
Proof. by intros [|c l' [? _] _]. Qed.

Lemma plain_no_trail l : Forall plain l → no_trail l.
Proof.
  intros H. unfold no_trail. destruct (last l) as [c|] eqn:E; [|done].
  apply last_Some_elem_of in E. rewrite Forall_forall in H.
  by destruct (H c E).
Qed.

Lemma sanitize_plain l : Forall plain l → Text.sanitize_chars l = l.
Proof.
  intros H. unfold Text.sanitize_chars.
  rewrite sub_illegal_plain, sub_spaces_plain by done.
  apply strip_chars_id; [by apply plain_no_lead|by apply plain_no_trail].
Qed.

Lemma plain_separator_free l :
  Forall plain l → has_separator (l ++ [" "%char]) = false.
Proof.
  induction 1 as [|c l [Hc _] _ IH]; [done|].
  cbn [app has_separator]. rewrite IH, orb_false_r.
  unfold starts_with_separator.
  destruct (l ++ [" "%char]) as [|d [|b r]]; [done..|]. by rewrite Hc.
Qed.

Lemma text_nil_iff l : Text.text l = "" ↔ l = [].
Proof. destruct l; [done|]. split; discriminate. Qed.

(** ** Decoding an encoded name *)

Lemma sanitize_chars_stripped l :
  Text.strip_chars (Text.sanitize_chars l) = Text.sanitize_chars l.
Proof. unfold Text.sanitize_chars. apply strip_chars_idemp. Qed.

Lemma chars_joiner : Text.chars " - " = JOINER.
Proof. reflexivity. Qed.

(** The characters of the name that [build_bid_folder_name] builds, when no
    sanitised field is empty. *)
Lemma build_chars f1 f2 f3 f4 f5 :
  Text.sanitize_chars f1 ≠ [] → Text.sanitize_chars f2 ≠ [] →
  Text.sanitize_chars f3 ≠ [] → Text.sanitize_chars f4 ≠ [] →
  Text.sanitize_chars f5 ≠ [] →
  Text.sanitize_chars
    (f1 ++ JOINER ++ f2 ++ JOINER ++ f3 ++ JOINER ++ f4 ++ JOINER ++ f5)
  = Text.sanitize_chars f1 ++ JOINER ++ Text.sanitize_chars f2 ++ JOINER
    ++ Text.sanitize_chars f3 ++ JOINER ++ Text.sanitize_chars f4 ++ JOINER
    ++ Text.sanitize_chars f5.
Proof.
  intros H1 H2 H3 H4 H5.
  assert (∀ a b : list ascii, a ≠ [] → a ++ b ≠ []) as Hne
    by (intros [|] b; done).
  pose proof (sanitize_join f4 f5 H4 H5) as E4.
  assert (Text.sanitize_chars (f3 ++ JOINER ++ f4 ++ JOINER ++ f5)
          = Text.sanitize_chars f3 ++ JOINER ++ Text.sanitize_chars f4
            ++ JOINER ++ Text.sanitize_chars f5) as E3.
  { rewrite sanitize_join; [by rewrite E4|done|]. rewrite E4. by apply Hne. }
  assert (Text.sanitize_chars
            (f2 ++ JOINER ++ f3 ++ JOINER ++ f4 ++ JOINER ++ f5)
          = Text.sanitize_chars f2 ++ JOINER ++ Text.sanitize_chars f3
            ++ JOINER ++ Text.sanitize_chars f4 ++ JOINER
            ++ Text.sanitize_chars f5) as E2.
  { rewrite sanitize_join; [by rewrite E3|done|]. rewrite E3. by apply Hne. }
  rewrite sanitize_join; [by rewrite E2|done|]. rewrite E2. by apply Hne.
Qed.

(** The split of a name made of five sanitised fields. *)
Lemma re_split_five s1 s2 s3 s4 s5 :
  has_separator (s1 ++ [" "%char]) = false →
  has_separator (s2 ++ [" "%char]) = false →
  has_separator (s3 ++ [" "%char]) = false →
  has_separator (s4 ++ [" "%char]) = false →
  re_split 4 (s1 ++ JOINER ++ s2 ++ JOINER ++ s3 ++ JOINER ++ s4 ++ JOINER ++ s5)
  = [s1; s2; s3; s4; s5].
Proof.
  intros H1 H2 H3 H4. rewrite !re_split_joined by done. by destruct s5.
Qed.

(** C2, as the code has it.  When no sanitised field is empty and none of
    the sanitised initials, due date and customer contains white space,
    dash, white space or ends in white space, dash, decoding the name that
    [build_bid_folder_name] makes gives back the five sanitised fields (the
    bid number is the text of the integer, which sanitising leaves as it
    is).  The bid name may contain anything, separators included. *)
Theorem decode_encode_sanitized (n : Z) (i d c b : string) :
  sanitize_name (Some i) ≠ "" → sanitize_name (Some d) ≠ "" →
  sanitize_name (Some c) ≠ "" → sanitize_name (Some b) ≠ "" →
  separator_free (sanitize_name (Some i)) →
  separator_free (sanitize_name (Some d)) →
  separator_free (sanitize_name (Some c)) →
  parse_bid_folder_name (build_bid_folder_name n i d c b)
  = Some {| bid_number := sanitize_name (Some (Text.str_of_int n));
            initials := sanitize_name (Some i);
            bid_date := sanitize_name (Some d);
            customer := sanitize_name (Some c);
            bid_name := sanitize_name (Some b);
            folder := build_bid_folder_name n i d c b |}
  ∧ sanitize_name (Some (Text.str_of_int n)) = Text.str_of_int n.
Proof.
  unfold separator_free, sanitize_name.
  intros Hi Hd Hc Hb Fi Fd Fc. rewrite chars_text in Fi, Fd, Fc.
  rewrite text_nil_iff in Hi, Hd, Hc, Hb.
  destruct (str_of_int_plain n) as [Hplain Hn].
  pose proof (sanitize_plain _ Hplain) as Sn.
  split; [|by rewrite Sn, text_chars].
  unfold parse_bid_folder_name, build_bid_folder_name, sanitize_name.
  rewrite chars_text, !chars_app, chars_joiner.
  rewrite build_chars; try done.
  2: { rewrite Sn. intros H. apply Hn. by rewrite <- (text_chars _), H. }
  rewrite re_split_five; try done.
  2: { rewrite Sn. by apply plain_separator_free. }
  by rewrite !sanitize_chars_stripped.
Qed.

Lemma decode_encode_sanitized_witness :
  parse_bid_folder_name (build_bid_folder_name 5 "MD" "01-02" "Acme" "Lobby")
  = Some {| bid_number := "5"; initials := "MD"; bid_date := "01-02";
            customer := "Acme"; bid_name := "Lobby";
            folder := "5 - MD - 01-02 - Acme - Lobby" |}.
Proof.
  destruct (decode_encode_sanitized 5 "MD" "01-02" "Acme" "Lobby") as [H _];
    [discriminate..|reflexivity|reflexivity|reflexivity|].
  exact H.
Defined.

(** C2 as stated fails: no field of (5, "MD", "01-02", "Acme -", "Lobby")
    contains " - " or a character that [sanitize_name] replaces, but the
    customer ends in " -", which together with the joining " - " is cut one
    character early: the customer comes back as "Acme" and the bid name as
    "- Lobby". *)
Lemma decode_encode_loses_trailing_dash :
  claim_valid_field (Text.str_of_int 5) = true
  ∧ claim_valid_field "MD" = true
  ∧ claim_valid_field "01-02" = true
  ∧ claim_valid_field "Acme -" = true
  ∧ claim_valid_field "Lobby" = true
  ∧ build_bid_folder_name 5 "MD" "01-02" "Acme -" "Lobby"
    = "5 - MD - 01-02 - Acme - - Lobby"
  ∧ parse_bid_folder_name (build_bid_folder_name 5 "MD" "01-02" "Acme -" "Lobby")
    = Some {| bid_number := "5"; initials := "MD"; bid_date := "01-02";
              customer := "Acme"; bid_name := "- Lobby";
              folder := "5 - MD - 01-02 - Acme - - Lobby" |}
  ∧ sanitize_name (Some "Acme -") = "Acme -"
  ∧ sanitize_name (Some "Lobby") = "Lobby".
Proof. split_and!; vm_compute; reflexivity. Qed.

(** ** The shape of a sanitised name *)

Lemma single_spaced_sub_spaces l : ∀ f,
  single_spaced f (Text.sub_spaces f l).
Proof.
  induction l as [|c l IH]; intros f; [done|]. cbn [Text.sub_spaces].
  destruct (Text.is_space c) eqn:Hc.
  - destruct f; [apply IH|]. cbn. change (Text.is_space " ") with true.
    cbn. split_and!; [done..|apply IH].
  - cbn. rewrite Hc. apply IH.
Qed.

Lemma single_spaced_fixed l : ∀ f,
  single_spaced f l → Text.sub_spaces f l = l.
Proof.
  induction l as [|c l IH]; intros f H; [done|]. cbn in *.
  destruct (Text.is_space c).
  - destruct H as (-> & -> & H). by rewrite IH.
  - by rewrite IH.
Qed.

Lemma single_spaced_weaken l f : single_spaced f l → single_spaced false l.
Proof.
  destruct l as [|c l]; [done|]. cbn. destruct (Text.is_space c); [|done].
  by intros (? & _ & ?).
Qed.

Lemma single_spaced_lstrip l : ∀ f,
  single_spaced f l → single_spaced false (Text.lstrip l).
Proof.
  induction l as [|c l IH]; intros f H; [done|]. cbn in *.
  destruct (Text.is_space c) eqn:Hc.
  - destruct H as (_ & _ & H). by eapply IH.
  - cbn. by rewrite Hc.
Qed.

Lemma single_spaced_app l1 l2 : ∀ f,
  single_spaced f (l1 ++ l2) → single_spaced f l1.
Proof.
  induction l1 as [|c l1 IH]; intros f H; [done|]. cbn in *.
  destruct (Text.is_space c); [|by eapply IH].
  destruct H as (? & ? & H). split_and!; [done..|by eapply IH].
Qed.

Lemma single_spaced_adjacent l1 a b l2 : ∀ f,
  single_spaced f (l1 ++ a :: b :: l2) →
  Text.is_space a = true → Text.is_space b = false.
Proof.
  induction l1 as [|c l1 IH]; intros f H Ha.
  - cbn in H. rewrite Ha in H. destruct H as (_ & _ & H).
    destruct (Text.is_space b); [|done]. by destruct H as (_ & ? & _).
  - cbn in H. destruct (Text.is_space c).
    + destruct H as (_ & _ & H). by eapply IH.
    + by eapply IH.
Qed.

Lemma single_spaced_space l c : ∀ f,
  single_spaced f l → c ∈ l → Text.is_space c = true → c = " "%char.
Proof.
  induction l as [|x l IH]; intros f H Hin Hc; [by apply elem_of_nil in Hin|].
  apply elem_of_cons in Hin as [->|Hin].
  - cbn in H. rewrite Hc in H. by destruct H.
  - cbn in H. destruct (Text.is_space x).
    + destruct H as (_ & _ & H). by eapply IH.
    + by eapply IH.
Qed.

Lemma rstrip_prefix l : ∃ ws, l = Text.rstrip l ++ ws.
Proof.
  induction l as [|c l [ws IH]]; [by exists []|]. cbn.
  destruct (Text.rstrip l) as [|x r] eqn:E.
  - destruct (Text.is_space c); [by exists (c :: l)|].
    exists l. done.
  - exists ws. cbn. by rewrite IH at 1.
Qed.

Lemma strip_chars_Forall (P : ascii → Prop) l :
  Forall P l → Forall P (Text.strip_chars l).
Proof.
  intros H. unfold Text.strip_chars.
  destruct (rstrip_prefix l) as [ws1 E1].
  destruct (lstrip_suffix (Text.rstrip l)) as [ws2 E2].
  rewrite E1, E2 in H.
  apply Forall_app in H as [H _]. by apply Forall_app in H as [_ H].
Qed.

Lemma single_spaced_strip l :
  single_spaced false l → single_spaced false (Text.strip_chars l).
Proof.
  intros H. unfold Text.strip_chars.
  destruct (rstrip_prefix l) as [ws E]. rewrite E in H.
  apply single_spaced_app in H. by eapply single_spaced_lstrip.
Qed.

Lemma sub_illegal_legal l :
  Forall (λ c, Text.is_illegal c = false) (Text.sub_illegal l).
Proof.
  unfold Text.sub_illegal. apply Forall_fmap, Forall_forall. intros c _. cbn.
  by destruct (Text.is_illegal c) eqn:E.
Qed.

Lemma sub_illegal_fixed l :
  Forall (λ c, Text.is_illegal c = false) l → Text.sub_illegal l = l.
Proof.
  unfold Text.sub_illegal. induction 1 as [|c l Hc _ IH]; [done|].
  cbn. by rewrite Hc, IH.
Qed.

Lemma sub_spaces_Forall (P : ascii → Prop) l : ∀ f,
  P " "%char → Forall P l → Forall P (Text.sub_spaces f l).
Proof.
  induction l as [|c l IH]; intros f Hsp H; [done|].
  apply Forall_cons in H as [Hc H]. cbn.
  destruct (Text.is_space c); [destruct f|]; auto.
Qed.

(** What [sanitize_chars] returns. *)
Lemma sanitize_chars_shape l :
  Forall (λ c, Text.is_illegal c = false) (Text.sanitize_chars l)
  ∧ single_spaced false (Text.sanitize_chars l)
  ∧ no_lead (Text.sanitize_chars l) ∧ no_trail (Text.sanitize_chars l).
Proof.
  unfold Text.sanitize_chars. split_and!.
  - apply strip_chars_Forall, sub_spaces_Forall; [done|apply sub_illegal_legal].
  - apply single_spaced_strip, single_spaced_sub_spaces.
  - apply strip_chars_no_lead.
  - apply strip_chars_no_trail.
Qed.

Lemma sanitize_chars_idemp l :
  Text.sanitize_chars (Text.sanitize_chars l) = Text.sanitize_chars l.
Proof.
  destruct (sanitize_chars_shape l) as (H1 & H2 & H3 & H4).
  unfold Text.sanitize_chars at 1.
  rewrite sub_illegal_fixed, single_spaced_fixed by done.
  by apply strip_chars_id.
Qed.

(** X1.  [sanitize_name] is idempotent: sanitising a name that has been
    sanitised changes nothing ([None] gives the empty string, which is
    sanitised too). *)
Theorem sanitize_name_idempotent (value : option string) :
  sanitize_name (Some (sanitize_name value)) = sanitize_name value.
Proof.
  destruct value as [v|]; [|by vm_compute]. unfold sanitize_name.
  by rewrite chars_text, sanitize_chars_idemp.
Qed.

(** X2.  The text that [sanitize_name] returns has none of the nine
    characters that it replaces; its only white space characters are
    spaces, no two of them adjacent; and it neither starts nor ends with
    white space. *)
Theorem sanitize_name_shape (value : option string) :
  let out := Text.chars (sanitize_name value) in
  Forall (λ c, Text.is_illegal c = false) out
  ∧ (∀ c, c ∈ out → Text.is_space c = true → c = " "%char)
  ∧ (∀ l1 a b l2, out = l1 ++ a :: b :: l2 →
       Text.is_space a = true → Text.is_space b = false)
  ∧ no_lead out ∧ no_trail out.
Proof.
  destruct value as [v|]; cbn zeta.
  - unfold sanitize_name. rewrite chars_text.
    destruct (sanitize_chars_shape (Text.chars v)) as (H1 & H2 & H3 & H4).
    split_and!; [done| |intros l1 a b l2 E|done..].
    + intros c. by eapply single_spaced_space.
    + rewrite E in H2. by eapply single_spaced_adjacent.
  - split_and!; [by constructor| |intros [|? [|? ?]] ????; done|done..].
    intros c Hin. by apply elem_of_nil in Hin.
Qed.


(** ** The prompts *)

Lemma sanitize_name_stripped v :
  Text.strip (sanitize_name (Some v)) = sanitize_name (Some v).
Proof.
  unfold sanitize_name. by rewrite strip_text, sanitize_chars_stripped.
Qed.

Lemma read_non_empty_from_skip skipped line rest :
  Forall (λ l, sanitize_name (Some l) = "") skipped →
  sanitize_name (Some line) ≠ "" →
  read_non_empty_from (skipped ++ line :: rest)
  = (Ok (sanitize_name (Some line)), rest).
Proof.
  intros Hs Hl.
  induction Hs as [|l skipped E _ IH]; cbn [app read_non_empty_from]; cbv zeta.
  - rewrite sanitize_name_stripped. unfold nonempty.
    by rewrite bool_decide_false.
  - rewrite sanitize_name_stripped, E. exact IH.
Qed.

Lemma read_non_empty_from_blank lines :
  Forall (λ l, sanitize_name (Some l) = "") lines →
  read_non_empty_from lines = (Raise EOFError, []).
Proof.
  induction 1 as [|l lines E _ IH]; [done|].
  cbn [read_non_empty_from]; cbv zeta.
  rewrite sanitize_name_stripped, E. exact IH.
Qed.

Lemma sanitize_name_fixed v :
  sanitize_name (Some (sanitize_name (Some v))) = sanitize_name (Some v).
Proof. unfold sanitize_name. by rewrite chars_text, sanitize_chars_idemp. Qed.


(** X3.  [read_non_empty] skips every line whose sanitised text is empty
    and returns the sanitised text of the first other line, leaving the
    lines after it to the next prompt; the value it returns is not empty and
    sanitising it again changes nothing; when every line left is blank it
    ends with [EOFError], all lines consumed. *)
Theorem read_non_empty_first_valid_line (w : world) :
  (∀ skipped line rest,
     stdin w = skipped ++ line :: rest →
     Forall (λ l, sanitize_name (Some l) = "") skipped →
     sanitize_name (Some line) ≠ "" →
     read_non_empty w = (Ok (sanitize_name (Some line)), set_stdin rest w))
  ∧ (Forall (λ l, sanitize_name (Some l) = "") (stdin w) →
     read_non_empty w = (Raise EOFError, set_stdin [] w))
  ∧ (∀ value w',
       read_non_empty w = (Ok value, w') →
       value ≠ "" ∧ sanitize_name (Some value) = value
       ∧ ∃ skipped line,
           stdin w = skipped ++ line :: stdin w'
           ∧ Forall (λ l, sanitize_name (Some l) = "") skipped
           ∧ value = sanitize_name (Some line)).
Proof.
  split_and!.
  - intros skipped line rest E Hs Hl. unfold read_non_empty.
    by rewrite E, read_non_empty_from_skip.
  - intros H. unfold read_non_empty. by rewrite read_non_empty_from_blank.
  - intros value w'. unfold read_non_empty.
    generalize (stdin w) as lines. intros lines.
    destruct (read_non_empty_from lines) as [r rest] eqn:E.
    intros [= -> <-]. cbn [stdin set_stdin].
    revert E. induction lines as [|l lines IH]; [done|].
    cbn [read_non_empty_from]; cbv zeta.
    rewrite sanitize_name_stripped. unfold nonempty.
    destruct (decide (sanitize_name (Some l) = "")) as [El|El].
    + rewrite bool_decide_true by done. cbn. intros E.
      destruct (IH E) as (H1 & H2 & skipped & line & -> & Hs & ->).
      split_and!; [done..|]. exists (l :: skipped), line.
      split_and!; [done| |done]. by constructor.
    + rewrite bool_decide_false by done. cbn. intros [= <- <-].
      split_and!; [done|apply sanitize_name_fixed|].
      by exists [], l.
Qed.





(** ** The due date *)

Lemma is_code_eq n c : Text.is_code n c = true → c = ascii_of_N n.
Proof.
  unfold Text.is_code, Text.code. intros H%N.eqb_eq.
  by rewrite <- H, ascii_N_embedding.
Qed.

Lemma between_elem lo hi c :
  Text.between lo hi c = true →
  c ∈ ascii_of_nat <$> seq (N.to_nat lo) (N.to_nat hi - N.to_nat lo + 1).
Proof.
  unfold Text.between, Text.code.
  intros [H1%N.leb_le H2%N.leb_le]%andb_true_iff.
  apply list_elem_of_fmap. exists (nat_of_ascii c).
  split; [by rewrite ascii_nat_embedding|].
  apply elem_of_seq. unfold nat_of_ascii. lia.
Qed.

Lemma month_candidates_in l g r :
  (g, r) ∈ month_candidates l → g ∈ month_texts ∧ l = g ++ r.
Proof.
  unfold month_candidates, month_texts.
  destruct l as [|a l1]; [by intros ?%elem_of_nil|].
  rewrite !elem_of_app. intros [H|[H|H]].
  - destruct (Text.is_code 48 a) eqn:Ea; [|by apply elem_of_nil in H].
    apply is_code_eq in Ea as ->.
    destruct l1 as [|b l2]; [by apply elem_of_nil in H|].
    destruct (Text.between 49 57 b) eqn:Eb; [|by apply elem_of_nil in H].
    apply list_elem_of_singleton in H as [= -> ->]. split; [|done].
    left. apply list_elem_of_fmap. exists b. split; [done|].
    by apply between_elem in Eb.
  - destruct (Text.between 49 57 a) eqn:Ea; [|by apply elem_of_nil in H].
    apply list_elem_of_singleton in H as [= -> ->]. split; [|done].
    right; left. apply list_elem_of_fmap. exists a. split; [done|].
    by apply between_elem in Ea.
  - destruct (Text.is_code 49 a) eqn:Ea; [|by apply elem_of_nil in H].
    apply is_code_eq in Ea as ->.
    destruct l1 as [|b l2]; [by apply elem_of_nil in H|].
    destruct (Text.between 48 50 b) eqn:Eb; [|by apply elem_of_nil in H].
    apply list_elem_of_singleton in H as [= -> ->]. split; [|done].
    right; right. apply list_elem_of_fmap. exists b. split; [done|].
    by apply between_elem in Eb.
Qed.

Lemma day_candidates_in l g r :
  (g, r) ∈ day_candidates l → g ∈ day_texts ∧ l = g ++ r.
Proof.
  unfold day_candidates, day_texts.
  destruct l as [|a l1]; [by intros ?%elem_of_nil|].
  rewrite !elem_of_app. intros [H|[H|[H|H]]].
  - destruct (Text.is_code 48 a) eqn:Ea; [|by apply elem_of_nil in H].
    apply is_code_eq in Ea as ->.
    destruct l1 as [|b l2]; [by apply elem_of_nil in H|].
    destruct (Text.between 49 57 b) eqn:Eb; [|by apply elem_of_nil in H].
    apply list_elem_of_singleton in H as [= -> ->]. split; [|done].
    left. apply list_elem_of_fmap. exists b. split; [done|].
    by apply between_elem in Eb.
  - destruct (Text.between 49 57 a) eqn:Ea; [|by apply elem_of_nil in H].
    apply list_elem_of_singleton in H as [= -> ->]. split; [|done].
    right; left. apply list_elem_of_fmap. exists a. split; [done|].
    by apply between_elem in Ea.
  - destruct (Text.between 49 50 a) eqn:Ea; [|by apply elem_of_nil in H].
    destruct l1 as [|b l2]; [by apply elem_of_nil in H|].
    destruct (Text.is_digit b) eqn:Eb; [|by apply elem_of_nil in H].
    apply list_elem_of_singleton in H as [= -> ->]. split; [|done].
    apply between_elem in Ea. apply between_elem in Eb.
    apply list_elem_of_fmap in Ea as (k & -> & Hk).
    apply elem_of_seq in Hk.
    assert (k = 49 ∨ k = 50) as [->| ->] by (cbn in Hk; lia).
    + right; right; left. apply list_elem_of_fmap. by exists b.
    + right; right; right; left. apply list_elem_of_fmap. by exists b.
  - destruct (Text.is_code 51 a) eqn:Ea; [|by apply elem_of_nil in H].
    apply is_code_eq in Ea as ->.
    destruct l1 as [|b l2]; [by apply elem_of_nil in H|].
    destruct (Text.between 48 49 b) eqn:Eb; [|by apply elem_of_nil in H].
    apply list_elem_of_singleton in H as [= -> ->]. split; [|done].
    right; right; right; right. apply list_elem_of_fmap. exists b.
    split; [done|]. by apply between_elem in Eb.
Qed.

(** The input that [match_bid_date] accepts. *)
Lemma match_bid_date_Some raw g1 g2 :
  match_bid_date raw = Some (g1, g2) →
  g1 ∈ month_texts ∧ g2 ∈ day_texts
  ∧ ∃ tail, Text.chars raw = g1 ++ "-"%char :: g2 ++ tail
            ∧ at_dollar tail = true.
Proof.
  unfold match_bid_date. intros H%head_Some_elem_of.
  apply list_elem_of_In, in_flat_map in H as ([m l1] & Hm & H).
  apply list_elem_of_In, month_candidates_in in Hm as [Hm E1].
  destruct l1 as [|dash l2]; [done|].
  destruct (Text.is_code 45 dash) eqn:Ed; [|done].
  apply is_code_eq in Ed as ->.
  apply in_flat_map in H as ([d l3] & Hd & H).
  apply list_elem_of_In, day_candidates_in in Hd as [Hd E2].
  destruct (at_dollar l3) eqn:E3; [|done].
  destruct H as [[= -> ->]|[]]. split_and!; [done..|].
  exists l3. by rewrite E1, E2.
Qed.


Lemma normalize_bid_date_Ok raw s :
  normalize_bid_date raw = Ok s ↔
  ∃ g1 g2, match_bid_date raw = Some (g1, g2)
           ∧ s = date_text (Text.int_of_digits g1) (Text.int_of_digits g2).
Proof.
  unfold normalize_bid_date, date_text.
  destruct (match_bid_date raw) as [[g1 g2]|]; split.
  - intros [= <-]. by exists g1, g2.
  - by intros (? & ? & [= <- <-] & ->).
  - done.
  - by intros (? & ? & ? & _).
Qed.

(** Every pair of a month text and a day text, checked by evaluation: the
    numbers are in range, the text made of them has five characters, it is
    accepted again and unchanged, and [sanitize_name] and the splitting
    of [parse_bid_folder_name] leave it alone. *)
Lemma date_texts_checked g1 g2 :
  g1 ∈ month_texts → g2 ∈ day_texts →
  let month := Text.int_of_digits g1 in
  let day := Text.int_of_digits g2 in
  let s := date_text month day in
  (1 ≤ month ≤ 12)%N ∧ (1 ≤ day ≤ 31)%N
  ∧ String.length s = 5
  ∧ normalize_bid_date s = Ok s
  ∧ sanitize_name (Some s) = s
  ∧ separator_free s
  ∧ match_bid_date (Text.text (g1 ++ "-"%char :: g2)) = Some (g1, g2).
Proof.
  set (check g1 g2 :=
    let month := Text.int_of_digits g1 in
    let day := Text.int_of_digits g2 in
    let s := date_text month day in
    (1 <=? month)%N && (month <=? 12)%N && (1 <=? day)%N && (day <=? 31)%N
    && (String.length s =? 5)
    && match normalize_bid_date s with
       | Ok s' => String.eqb s' s
       | Raise _ => false
       end
    && String.eqb (sanitize_name (Some s)) s
    && negb (has_separator (Text.chars s ++ [" "%char]))
    && match match_bid_date (Text.text (g1 ++ "-"%char :: g2)) with
       | Some (h1, h2) =>
           bool_decide (h1 = g1) && bool_decide (h2 = g2)
       | None => false
       end).
  assert (forallb (λ g1, forallb (check g1) day_texts) month_texts = true)
    as Hall by (vm_compute; reflexivity).
  intros H1%list_elem_of_In H2%list_elem_of_In.
  rewrite forallb_forall in Hall. specialize (Hall g1 H1).
  rewrite forallb_forall in Hall. specialize (Hall g2 H2).
  unfold check in Hall. cbv zeta in *.
  repeat (apply andb_true_iff in Hall as [Hall ?]).
  repeat match goal with
         | H : (_ <=? _)%N = true |- _ => apply N.leb_le in H
         | H : (_ =? _) = true |- _ => apply Nat.eqb_eq in H
         | H : negb _ = true |- _ => apply negb_true_iff in H
         end.
  split_and!; try done.
  - by destruct (normalize_bid_date _) as [s'|]; [f_equal; apply String.eqb_eq|].
  - by apply String.eqb_eq.
  - destruct (match_bid_date _) as [[h1 h2]|]; [|done].
    by match goal with
       | H : _ && _ = true |- _ =>
           apply andb_true_iff in H
             as [->%bool_decide_eq_true ->%bool_decide_eq_true]
       end.
Qed.

(** X5.  Whatever [normalize_bid_date] returns is a month from 01 to 12, a
    dash and a day from 01 to 31, both with two digits (five characters);
    it is accepted again and comes back unchanged, so normalising is
    idempotent; and it is a text that [sanitize_name] leaves as it is and
    that has nothing the splitting of a folder name could cut at. *)
Theorem normalize_bid_date_result (raw s : string) :
  normalize_bid_date raw = Ok s →
  ∃ month day : N,
    (1 ≤ month ≤ 12)%N ∧ (1 ≤ day ≤ 31)%N
    ∧ s = Text.fmt_02d month +:+ "-" +:+ Text.fmt_02d day
    ∧ String.length s = 5
    ∧ normalize_bid_date s = Ok s
    ∧ sanitize_name (Some s) = s
    ∧ separator_free s.
Proof.
  intros (g1 & g2 & H & ->)%normalize_bid_date_Ok.
  apply match_bid_date_Some in H as (H1 & H2 & _).
  destruct (date_texts_checked g1 g2 H1 H2) as (? & ? & ? & ? & ? & ? & _).
  by exists (Text.int_of_digits g1), (Text.int_of_digits g2).
Qed.

Lemma normalize_bid_date_result_witness :
  ∃ month day : N,
    (1 ≤ month ≤ 12)%N ∧ (1 ≤ day ≤ 31)%N
    ∧ "12-05" = Text.fmt_02d month +:+ "-" +:+ Text.fmt_02d day
    ∧ String.length "12-05" = 5
    ∧ normalize_bid_date "12-05" = Ok "12-05"
    ∧ sanitize_name (Some "12-05") = "12-05"
    ∧ separator_free "12-05".
Proof. apply (normalize_bid_date_result "12-5" "12-05"). reflexivity. Defined.



(** X7.  Every month from 1 to 12 with every day from 1 to 31 is accepted,
    written without leading zeros (12-5) or with two digits each (12-05),
    and both ways give the two-digit text; the day is not checked against
    the month, so 2-31 is accepted as well. *)
Theorem normalize_bid_date_accepts (month day : N) :
  (1 ≤ month ≤ 12)%N → (1 ≤ day ≤ 31)%N →
  let short :=
    Text.str_of_int (Z.of_N month) +:+ "-" +:+ Text.str_of_int (Z.of_N day) in
  let long := Text.fmt_02d month +:+ "-" +:+ Text.fmt_02d day in
  normalize_bid_date short = Ok long ∧ normalize_bid_date long = Ok long.
Proof.
  intros Hm Hd.
  set (check (m d : nat) :=
    let month := N.of_nat m in
    let day := N.of_nat d in
    let short :=
      Text.str_of_int (Z.of_N month) +:+ "-" +:+ Text.str_of_int (Z.of_N day) in
    let long := Text.fmt_02d month +:+ "-" +:+ Text.fmt_02d day in
    match normalize_bid_date short, normalize_bid_date long with
    | Ok s1, Ok s2 => String.eqb s1 long && String.eqb s2 long
    | _, _ => false
    end).
  assert (forallb (λ m, forallb (check m) (seq 1 31)) (seq 1 12) = true)
    as Hall by (vm_compute; reflexivity).
  rewrite forallb_forall in Hall.
  specialize (Hall (N.to_nat month)).
  rewrite forallb_forall in Hall.
  specialize (Hall ltac:(apply in_seq; lia) (N.to_nat day)
                ltac:(apply in_seq; lia)).
  unfold check in Hall. rewrite !N2Nat.id in Hall. cbv zeta in *.
  destruct (normalize_bid_date (_ +:+ _)) as [s1|]; [|done].
  destruct (normalize_bid_date (Text.fmt_02d _ +:+ _)) as [s2|]; [|done].
  apply andb_true_iff in Hall as [->%String.eqb_eq ->%String.eqb_eq]. done.
Qed.

Lemma normalize_bid_date_accepts_witness :
  normalize_bid_date "2-31" = Ok "02-31" ∧ normalize_bid_date "02-31" = Ok "02-31".
Proof. apply (normalize_bid_date_accepts 2 31); lia. Defined.


(** ** The next bid number and the name built with it *)

Lemma int_of_digits_uint d : ∀ acc,
  fold_left (λ acc c, (10 * acc + Text.digit_value c)%N)
    (Text.chars (NilEmpty.string_of_uint d)) acc
  = match acc with
    | 0%N => Pos.of_uint d
    | N.pos p => N.pos (Pos.of_uint_acc d p)
    end.
Proof.
  assert (∀ p k, (10 * N.pos p + N.pos k = N.pos (k + 10 * p))%N) as Hpos
    by (intros; lia).
  assert (∀ p, (10 * N.pos p + 0 = N.pos (10 * p))%N) as Hzero
    by (intros; lia).
  induction d as [|d IH|d IH|d IH|d IH|d IH|d IH|d IH|d IH|d IH|d IH];
    intros acc; [by destruct acc|..];
    cbn [NilEmpty.string_of_uint Text.chars list_ascii_of_string fold_left];
    rewrite IH; destruct acc as [|p]; try done;
    match goal with
    | |- context [Text.digit_value ?c] =>
        let v := eval vm_compute in (Text.digit_value c) in
        change (Text.digit_value c) with v
    end;
    by rewrite ?Hpos, ?Hzero.
Qed.

Lemma string_of_uint_digits d :
  Forall (λ c, Text.is_digit c = true) (Text.chars (NilEmpty.string_of_uint d)).
Proof. induction d; cbn; by constructor. Qed.

Lemma str_of_int_digits z :
  (0 ≤ z)%Z →
  Forall (λ c, Text.is_digit c = true) (Text.chars (Text.str_of_int z))
  ∧ Text.chars (Text.str_of_int z) ≠ []
  ∧ Text.int_of_digits (Text.chars (Text.str_of_int z)) = Z.to_N z.
Proof.
  intros Hz. destruct z as [|p|p]; [| |lia].
  - split_and!; [by repeat constructor|done|done].
  - unfold Text.str_of_int, Text.int_of_digits. cbn [Z.to_int NilZero.string_of_int].
    pose proof (DecimalPos.Unsigned.to_uint_nonnil p) as Hnil.
    assert (NilZero.string_of_uint (Pos.to_uint p)
            = NilEmpty.string_of_uint (Pos.to_uint p)) as ->
      by (by destruct (Pos.to_uint p)).
    split_and!.
    + apply string_of_uint_digits.
    + by destruct (Pos.to_uint p).
    + by rewrite int_of_digits_uint, DecimalPos.Unsigned.of_to.
Qed.

Lemma rstrip_cons c l :
  Text.rstrip l ≠ [] → Text.rstrip (c :: l) = c :: Text.rstrip l.
Proof. cbn. by destruct (Text.rstrip l). Qed.

Lemma rstrip_cons_mark c l :
  Text.is_space c = false → Text.rstrip (c :: l) ≠ [].
Proof. cbn. intros ->. by destruct (Text.rstrip l). Qed.

(** The sanitised text of a number, the joiner and anything: it starts
    with the number, a space and a dash. *)
Lemma sanitize_chars_number D R :
  Forall plain D → D ≠ [] →
  ∃ Y, Text.sanitize_chars (D ++ JOINER ++ R)
       = D ++ " "%char :: "-"%char :: Y.
Proof.
  intros HD Hne. unfold Text.sanitize_chars.
  rewrite sub_illegal_app, sub_illegal_app, (sub_illegal_plain D) by done.
  change (Text.sub_illegal JOINER) with JOINER.
  rewrite sub_spaces_app, (sub_spaces_plain _ D) by done.
  assert (ends_in_space false D = false) as ->.
  { pose proof (plain_no_trail D HD) as Ht. unfold no_trail in Ht.
    unfold ends_in_space. destruct (last D) eqn:E; [done|].
    apply last_None in E. done. }
  rewrite sub_spaces_joiner. cbn [app].
  set (Z := Text.sub_spaces true (Text.sub_illegal R)).
  assert (Text.rstrip ("-"%char :: " "%char :: Z) ≠ []) as H1
    by (by apply rstrip_cons_mark).
  assert (Text.rstrip (" "%char :: "-"%char :: " "%char :: Z)
          = " "%char :: Text.rstrip ("-"%char :: " "%char :: Z)) as H2
    by (by apply rstrip_cons).
  assert (∃ W, Text.rstrip ("-"%char :: " "%char :: Z) = "-"%char :: W)
    as [W HW].
  { cbn. destruct (Text.rstrip Z); cbn; eauto. }
  exists W. unfold Text.strip_chars. rewrite rstrip_app, H2, HW.
  apply lstrip_id. destruct D as [|x D]; [done|].
  apply Forall_cons in HD as [[Hx _] _]. exact Hx.
Qed.

Lemma digits_plain D :
  Forall (λ c, Text.is_digit c = true) D → Forall plain D.
Proof.
  intros H. eapply Forall_impl; [exact H|]. cbv beta. clear. intros c Hc. split; [by apply digit_not_space|].
  apply between_elem in Hc.
  apply list_elem_of_fmap in Hc as (k & -> & Hk). apply elem_of_seq in Hk.
  cbn in Hk.
  assert (k ∈ seq 48 10) as Hin by (apply elem_of_seq; lia).
  clear Hk. revert k Hin. apply Forall_forall. by vm_compute; repeat constructor.
Qed.

Lemma match_leading_number_built n i d c b :
  (0 ≤ n)%Z →
  match_leading_number (build_bid_folder_name n i d c b)
  = Some (Text.chars (Text.str_of_int n)).
Proof.
  intros Hn. destruct (str_of_int_digits n Hn) as (Hd & Hne & _).
  unfold build_bid_folder_name, sanitize_name, match_leading_number.
  cbv zeta. rewrite chars_text, chars_app, chars_app, chars_joiner.
  set (D := Text.chars (Text.str_of_int n)) in *.
  destruct (sanitize_chars_number D
              (Text.chars (i +:+ " - " +:+ d +:+ " - " +:+ c +:+ " - " +:+ b))
              (digits_plain D Hd) Hne) as [Y ->].
  rewrite lstrip_id.
  2: { destruct D as [|x D']; [done|]. apply Forall_cons in Hd as [Hx _].
       by apply digit_not_space. }
  rewrite (span_exact Text.is_digit D) by done.
  destruct D; done.
Qed.


Lemma max_bid_number_permutation names names' :
  names ≡ₚ names' → max_bid_number names' = max_bid_number names.
Proof.
  intros H. rewrite !max_bid_number_spec. unfold bid_numbers.
  apply (foldr_permutation (=) N.max 0%N).
  - intros. lia.
  - by rewrite H.
Qed.

(** X8.  The folder that is named with the next bid number makes the
    next number advance by one: the name that [build_bid_folder_name] makes
    for the number starts with its digits and a space, so
    [get_next_bid_number] reads the number back from it, wherever the new
    folder stands among the others (its result does not depend on the order
    of the folders). *)
Theorem next_bid_number_advances
  (names names' : list string) (n : Z) (i d c b : string) :
  next_bid_number names = Ok n →
  names' ≡ₚ build_bid_folder_name n i d c b :: names →
  next_bid_number names' = Ok (n + 1)%Z
  ∧ match_leading_number (build_bid_folder_name n i d c b)
    = Some (Text.chars (Text.str_of_int n))
  ∧ Text.int_of_digits (Text.chars (Text.str_of_int n)) = Z.to_N n.
Proof.
  unfold next_bid_number. intros Hn Hp.
  destruct (max_bid_number names =? 0)%N eqn:E0; [done|].
  apply N.eqb_neq in E0. injection Hn as <-.
  set (m := max_bid_number names) in *.
  assert (0 ≤ Z.of_N m + 1)%Z as Hpos by lia.
  pose proof (match_leading_number_built _ i d c b Hpos) as Hmatch.
  destruct (str_of_int_digits _ Hpos) as (_ & _ & Hint).
  split_and!; [|done..].
  rewrite (max_bid_number_permutation _ _ (symmetry Hp)).
  rewrite max_bid_number_spec. unfold bid_numbers. cbn [omap list_omap].
  rewrite Hmatch. cbn [fmap option_fmap option_map foldr].
  rewrite Hint. fold (bid_numbers names). rewrite <- max_bid_number_spec.
  fold m. replace (N.max (Z.to_N (Z.of_N m + 1)) m) with (m + 1)%N by lia.
  destruct (m + 1 =? 0)%N eqn:E1; [apply N.eqb_eq in E1; lia|].
  f_equal. lia.
Qed.

Lemma next_bid_number_advances_witness :
  next_bid_number
    ["5 - MD - 01-02 - Acme - Lobby"; "8 - JS - 03-04 - Beta - Roof";
     "7 - JS - 03-04 - Beta - Roof"] = Ok 9%Z.
Proof.
  apply (next_bid_number_advances
           ["5 - MD - 01-02 - Acme - Lobby"; "7 - JS - 03-04 - Beta - Roof"]
           _ 8 "JS" "03-04" "Beta" "Roof").
  - reflexivity.
  - change (build_bid_folder_name 8 "JS" "03-04" "Beta" "Roof")
      with "8 - JS - 03-04 - Beta - Roof".
    apply perm_swap.
Defined.


(** ** Looking a row up, writing a row *)

(** X9.  [get_row_index_by_value] returns the first row from 2 to the
    last row whose cell in the column holds a value with the trimmed text
    of the target (an integer cell counts with its decimal text); the header
    row is never returned, rows with an empty cell are passed over, and the
    result is [None] exactly when no row in that range matches. *)
Theorem get_row_index_by_value_first_match
  (ws : Worksheet) (col : nat) (target : string) :
  let matches row :=
    ∃ v, cell_value ws row col = Some v ∧ Text.strip (str v) = target in
  match get_row_index_by_value ws col target with
  | Some row =>
      2 ≤ row ≤ get_last_row ws ∧ matches row
      ∧ ∀ r, 2 ≤ r < row → ¬ matches r
  | None => ∀ r, 2 ≤ r ≤ get_last_row ws → ¬ matches r
  end.
Proof.
  cbv zeta. destruct (get_row_index_by_value ws col target) as [row|] eqn:E.
  - apply get_row_index_Some in E as (Hr & Hm & Hfirst).
    split_and!; [lia..|by apply row_matches_true|].
    intros r Hlt Hmr%row_matches_true. by rewrite Hfirst in Hmr.
  - intros r Hr Hmr%row_matches_true.
    by rewrite (proj1 (get_row_index_None _ _ _) E) in Hmr.
Qed.

(** X10.  A target with white space at either end is never found,
    whatever the sheet holds, since the cells are compared trimmed and the
    target as it is. *)
Theorem get_row_index_by_value_untrimmed
  (ws : Worksheet) (col : nat) (target : string) :
  Text.strip target ≠ target →
  get_row_index_by_value ws col target = None.
Proof.
  intros H. apply get_row_index_None. intros r _.
  apply not_true_iff_false. intros (v & _ & E)%row_matches_true.
  apply H. by rewrite <- E, strip_idemp.
Qed.

Lemma get_row_index_by_value_untrimmed_witness :
  get_row_index_by_value (put_row empty_sheet 2
    {| bid_number := "5 "; initials := "MD"; bid_date := "01-02";
       customer := "Acme"; bid_name := "Lobby"; folder := "5" |}) 2 "5 "
  = None.
Proof. apply get_row_index_by_value_untrimmed. by vm_compute. Defined.




(** ** What a synchronisation keeps and what it adds *)










(** X14.  Folders whose names do not decode (fewer than five parts) play
    no part in the loop of [sync_bid_workbook]: with them or without them it
    does the same to the sheet and ends with the same result. *)
Theorem sync_folders_skips_undecodable
  (headers : gmap string nat) (folder_names : list string) :
  ∀ (last_row : nat) (ws : Worksheet),
    sync_folders headers last_row folder_names ws
    = sync_folders headers last_row
        (filter (λ name, is_Some (parse_bid_folder_name name)) folder_names) ws.
Proof.
  induction folder_names as [|name names IH]; intros last_row ws; [done|].
  rewrite filter_cons. cbn [sync_folders].
  destruct (parse_bid_folder_name name) as [info|] eqn:E.
  - rewrite decide_True by done. cbn [sync_folders]. unfold mbind, M_bind.
    destruct (sync_folder headers last_row name ws) as [[last'|e] ws1]; [|done].
    apply IH.
  - rewrite decide_False by (by intros [? ?]).
    unfold mbind, M_bind at 1, sync_folder. rewrite E. cbn. apply IH.
Qed.

Lemma new_excel_context_missing path title w :
  files w !! path = None →
  new_excel_context path title w = (Raise FileNotFoundError, w).
Proof.
  intros Hf. unfold new_excel_context, mbind, M_bind, get. rewrite Hf.
  rewrite bool_decide_eq_false_2 by (by intros [? ?]). reflexivity.
Qed.



(** X16.  Without a file at the workbook path both drivers end with
    [FileNotFoundError] and write nothing: [sync_bid_workbook] leaves the
    world as it was, and [update_bid_status], which opens the workbook only
    after its first two prompts, has consumed the operator's answers to
    them. *)
Theorem drivers_without_workbook
  (root path : Path) (title : string) (w : world) :
  files w !! path = None →
  sync_bid_workbook root path title w = (Raise FileNotFoundError, w)
  ∧ ∀ bid_number w1 line w2,
      read_non_empty w = (Ok bid_number, w1) →
      input w1 = (Ok line, w2) →
      update_bid_status path title w = (Raise FileNotFoundError, w2)
      ∧ files w2 = files w.
Proof.
  intros Hf. split.
  - unfold sync_bid_workbook, mbind, M_bind.
    by rewrite new_excel_context_missing.
  - intros bid w1 line w2 H1 H2.
    pose proof (keeps_read_non_empty w) as K1. rewrite H1 in K1.
    pose proof (keeps_input w1) as K2. rewrite H2 in K2.
    cbn [snd] in *. destruct K1 as (F1 & _), K2 as (F2 & _).
    assert (files w2 = files w) as F by congruence.
    split; [|done].
    unfold update_bid_status, mbind, M_bind. rewrite H1.
    unfold fmap, M_fmap. rewrite H2.
    rewrite new_excel_context_missing; [done|by rewrite F].
Qed.

Lemma drivers_without_workbook_witness :
  let w := demo_world ∅ ∅ [] ["5"; "Won"] in
  let elsewhere := {| parent := "S:"; name := "Gone.xlsx" |} in
  sync_bid_workbook demo_root elsewhere "Bid List" w = (Raise FileNotFoundError, w).
Proof.
  cbv zeta. apply drivers_without_workbook.
  apply lookup_singleton_ne. discriminate.
Defined.


(** ** What an update writes *)


Lemma bind_result {S A B} (m : M S A) (k : A → M S B) s :
  (m ≫= k) s
  = match m s with
    | (Ok a, s1) => k a s1
    | (Raise e, s1) => (Raise e, s1)
    end.
Proof. done. Qed.



Lemma keeps_sheet_award headers :
  keeps (on_sheets (=))
    (if has_header headers "Award"
     then Text.strip <$> on_world input else mret "").
Proof.
  destruct (has_header headers "Award"); [|apply keeps_ret; apply _].
  apply keeps_fmap, keeps_world_on_sheets; apply _.
Qed.



(** A run of [update_bid_status] on a workbook that nobody holds open,
    after its first two prompts. *)
Lemma update_bid_status_unlocked path title w wb bid_number w1 line w2 :
  files w !! path = Some wb → path ∉ locked w →
  read_non_empty w = (Ok bid_number, w1) →
  input w1 = (Ok line, w2) →
  ∃ r w3 ws',
    update_body bid_number (Text.strip line) (w2, sheet_of wb title)
    = (r, (w3, ws'))
    ∧ update_bid_status path title w
      = (r, set_files (<[path := <[title := ws']> wb]> (files w)) w3).
Proof.
  intros Hf Hl H1 H2.
  pose proof (keeps_read_non_empty w) as K1. rewrite H1 in K1.
  pose proof (keeps_input w1) as K2. rewrite H2 in K2.
  cbn [snd] in *. destruct K1 as (F1 & L1 & _), K2 as (F2 & L2 & _).
  assert (files w2 !! path = Some wb) as Hf2 by congruence.
  assert (path ∉ locked w2) as Hl2 by congruence.
  unfold update_bid_status. rewrite bind_result, H1, bind_result.
  unfold fmap at 1, M_fmap at 1. rewrite H2, bind_result.
  rewrite (new_excel_context_unlocked _ _ _ wb) by done.
  match goal with
  | |- context [try_finally_close ?c ?b w2] =>
      destruct (try_finally_close_run c b w2
                  (keeps_disk_update_body _ _) Hl2)
        as (r & w3 & ws' & E & (F3 & _) & ->)
  end.
  rewrite context_sheet_new in E. exists r, w3, ws'. split; [done|].
  cbn [workbook worksheet active_path read_only pending_save_path
       workbook_path].
  rewrite workbook_with_sheet. do 3 f_equal. congruence.
Qed.




Global Instance same_outside_row_refl row : Reflexive (same_outside_row row).
Proof. by intros ws r c _. Qed.

Global Instance same_outside_row_trans row : Transitive (same_outside_row row).
Proof. intros a b c Hab Hbc r col Hr. by rewrite Hbc, Hab. Qed.

Lemma same_outside_row_set_cell ws row col v :
  same_outside_row row ws (set_cell ws row col v).
Proof. intros r c Hr. apply cell_value_set_cell_ne. by intros [= -> _]. Qed.

Lemma update_row_keeps headers row status :
  keeps (on_sheets (same_outside_row row))
    (proposal_amount ← ask_field headers "Proposal Amount" row;
     proposal_date ← ask_field headers "Proposal Date" row;
     award ← (if has_header headers "Award"
              then Text.strip <$> on_world input else mret "");
     put_field headers "Bid Status" row status;;
     put_field headers "Proposal Amount" row proposal_amount;;
     put_field headers "Proposal Date" row proposal_date;;
     put_field headers "Award" row award).
Proof.
  apply keeps_bind; [apply _|apply keeps_ask_field; apply _|]. intros amount.
  apply keeps_bind; [apply _|apply keeps_ask_field; apply _|]. intros date.
  apply keeps_bind; [apply _| |].
  { destruct (has_header headers "Award"); [|apply keeps_ret; apply _].
    apply keeps_fmap, keeps_world_on_sheets; apply _. }
  intros award.
  repeat (apply keeps_bind; [apply _| |intros _]);
    (apply keeps_put_field; [apply _|]);
    intros; apply same_outside_row_set_cell.
Qed.

Lemma update_body_rows bid_number status w ws r c :
  r ≠ 1 → get_row_index_by_value ws 2 bid_number ≠ Some r →
  cell_value (update_body bid_number status (w, ws)).2.2 r c
  = cell_value ws r c.
Proof.
  intros Hr Hrow. unfold update_body. rewrite bind_result.
  unfold on_sheet at 1, run_ensure_headers.
  pose proof (ensure_headers_canonical ws) as Hc.
  pose proof (ensure_headers_data ws r c Hr) as Hd.
  pose proof (get_row_index_ensure_headers ws 2 bid_number) as Hi.
  destruct (ensure_headers ws) as [headers ws1]. cbn [fst snd] in *.
  rewrite bind_result, (header_canonical headers 1 "Bid Number") by done.
  rewrite bind_result. unfold on_sheet at 1, get.
  destruct (get_row_index_by_value ws1 2 bid_number) as [row|]; [|done].
  pose proof (update_row_keeps headers row status (w, ws1)) as K.
  unfold on_sheets in K. cbn [snd] in K. rewrite K; [done|].
  intros ->. by rewrite Hi in Hrow.
Qed.

(** X18.  An update touches one data row only: whatever the operator
    answers and however [update_bid_status] ends on a workbook that nobody
    holds open, the stored sheet afterwards differs from the one before, apart
    from row 1, at most in the first row whose Bid Number cell matches the
    bid number that was entered; the other sheets of the workbook and the
    other files are as they were. *)
Theorem update_touches_one_row
  (path : Path) (title : string) (w w1 w' : world) (wb : Workbook)
  (bid_number : string) (r : result unit) :
  files w !! path = Some wb → path ∉ locked w →
  read_non_empty w = (Ok bid_number, w1) →
  update_bid_status path title w = (r, w') →
  ∃ wb',
    files w' !! path = Some wb'
    ∧ (∀ row c,
         row ≠ 1 →
         get_row_index_by_value (sheet_of wb title) 2 bid_number ≠ Some row →
         cell_value (sheet_of wb' title) row c
         = cell_value (sheet_of wb title) row c)
    ∧ (∀ other, other ≠ title → wb' !! other = wb !! other)
    ∧ ∀ p, p ≠ path → files w' !! p = files w !! p.
Proof.
  intros Hf Hl H1 H.
  pose proof (keeps_read_non_empty w) as K1. rewrite H1 in K1.
  destruct K1 as (F1 & _). cbn [snd] in F1.
  destruct (input w1) as [[line|e2] w2] eqn:H2.
  2: { pose proof (keeps_input w1) as K2. rewrite H2 in K2.
       destruct K2 as (F2 & _). cbn [snd] in *.
       unfold update_bid_status in H. rewrite bind_result, H1, bind_result in H.
       unfold fmap at 1, M_fmap at 1 in H. rewrite H2 in H.
       injection H as _ <-. exists wb. rewrite F2, F1. by split_and!. }
  destruct (update_bid_status_unlocked path title w wb bid_number w1 line w2
              Hf Hl H1 H2) as (r' & w3 & ws' & E & Hrun).
  rewrite Hrun in H. injection H as -> <-.
  exists (<[title := ws']> wb). cbn [files set_files]. split_and!.
  - apply lookup_insert_eq.
  - intros row c Hrow Hne. rewrite sheet_of_insert.
    pose proof (update_body_rows bid_number (Text.strip line) w2
                  (sheet_of wb title) row c Hrow Hne) as Hb.
    by rewrite E in Hb.
  - intros other Ho. by apply lookup_insert_ne.
  - intros p Hp. by apply lookup_insert_ne.
Qed.

Lemma update_touches_one_row_witness :
  let ws := sheet_with_headers
              ["Folder Name"; "Bid#"; "Estimator"; "Due Date"; "GC/Owner";
               "Description"] in
  let w := demo_world {[ "Bid List" := ws ]} ∅ [] ["99"; ""] in
  ∃ w' wb',
    update_bid_status demo_book "Bid List" w = (Raise ValueError, w')
    ∧ files w' !! demo_book = Some wb'.
Proof.
  intros ws w.
  assert (get_row_index_by_value ws 2 "99" = None) as Hnone
    by (vm_compute; reflexivity).
  pose proof (update_bid_status_not_found_run demo_book "Bid List" w "99"
                (set_stdin [""] w) "" (set_stdin [] w) _ _
                eq_refl eq_refl (legacy_sheet_open []) Hnone) as Hrun.
  destruct (update_touches_one_row demo_book "Bid List" w (set_stdin [""] w) _
              {[ "Bid List" := ws ]} "99" _
              (lookup_singleton_eq _ _) (not_elem_of_empty _) eq_refl Hrun)
    as (wb' & H & _).
  eexists _, wb'. split; [exact Hrun|exact H].
Defined.


(** ** The columns of the other headers *)

Lemma scan_header_lookup ws h b col k :
  (scan_header (ws, h, b) col).1.2 !! k
  = match h !! k with
    | Some x => Some x
    | None => if header_matches ws k col then Some col else None
    end.
Proof.
  unfold scan_header, header_matches.
  destruct (cell_value ws 1 col) as [v|]; cbn [fst snd]; [|by destruct (h !! k)].
  destruct (truthy (Some v)); cbn [fst snd andb]; [|by destruct (h !! k)].
  unfold setdefault. fold (resolve (str v)).
  case_bool_decide as Hk.
  - subst k. destruct (h !! resolve (str v)) as [x|] eqn:E; [by rewrite E|].
    by rewrite lookup_insert_eq.
  - destruct (h !! resolve (str v)) as [x|] eqn:E; [by destruct (h !! k)|].
    rewrite lookup_insert_ne by done. by destruct (h !! k).
Qed.

Lemma scan_fold_lookup cols : NoDup cols → ∀ ws h b k,
  (fold_left scan_header cols (ws, h, b)).1.2 !! k
  = match h !! k with
    | Some x => Some x
    | None => find (header_matches ws k) cols
    end.
Proof.
  induction 1 as [|col cols Hnin Hnd IH]; intros ws h b k; cbn [fold_left find].
  - cbn [fst snd]. by destruct (h !! k).
  - pose proof (scan_header_lookup ws h b col k) as Hl.
    pose proof (scan_header_cells ws h b col) as Hc.
    destruct (scan_header (ws, h, b) col) as [[ws1 h1] b1].
    cbn [fst snd] in Hl, Hc. rewrite IH, Hl.
    destruct (h !! k) as [x|]; [done|].
    destruct (header_matches ws k col); [done|].
    apply find_ext_in. intros c Hin. unfold header_matches.
    rewrite Hc, decide_False; [done|]. by intros [= ->].
Qed.

Lemma ensure_headers_lookup_other ws k :
  k ∉ HEADER_DEFAULTS →
  (ensure_headers ws).1 !! k = find (header_matches ws k) (seq 1 30).
Proof.
  intros Hk. unfold ensure_headers.
  pose proof (scan_fold_lookup (seq 1 30) (NoDup_seq _ _) ws ∅ false k) as Hl.
  destruct (fold_left scan_header (seq 1 30) (ws, ∅, false)) as [[ws1 h1] b1].
  cbn [fst snd] in Hl. rewrite lookup_empty in Hl.
  destruct b1; cbn [negb fst snd]; by rewrite index_defaults_other.
Qed.

Lemma header_matches_true ws k col :
  header_matches ws k col = true
  ↔ ∃ v, cell_value ws 1 col = Some v ∧ truthy (Some v) = true
         ∧ resolve (str v) = k.
Proof.
  unfold header_matches. destruct (cell_value ws 1 col) as [v|]; split.
  - intros [? ?%bool_decide_eq_true]%andb_true_iff. by exists v.
  - intros (v' & [= <-] & -> & ?). by apply bool_decide_eq_true.
  - done.
  - by intros (? & ? & _).
Qed.

(** X19.  For a text that is not one of the nine default headers, the
    mapping of [ensure_headers] gives the first column from 1 to 30 whose
    cell of row 1 held, before the call, a value that counts as true and
    whose text, legacy names resolved, is that text.  The column is the one
    of the sheet as it was: the cell holds the text after the call exactly
    when the column is 10 or more, since columns 1 to 9 then hold the default
    headers, while the entry still points at the column. *)
Theorem ensure_headers_other_column (ws : Worksheet) (key : string) (col : nat) :
  key ∉ HEADER_DEFAULTS →
  let labelled c :=
    ∃ v, cell_value ws 1 c = Some v ∧ truthy (Some v) = true
         ∧ resolve (str v) = key in
  ((ensure_headers ws).1 !! key = Some col
   ↔ 1 ≤ col ≤ 30 ∧ labelled col ∧ ∀ c, 1 ≤ c < col → ¬ labelled c)
  ∧ ((ensure_headers ws).1 !! key = Some col →
     (cell_value (ensure_headers ws).2 1 col = Some (VStr key) ↔ 10 ≤ col)).
Proof.
  intros Hk. cbv zeta. rewrite ensure_headers_lookup_other by done.
  rewrite find_seq_Some. split.
  - rewrite header_matches_true. split.
    + intros (Hr & Hm & Hfirst). split_and!; [lia..|done|].
      intros c Hc Hl%header_matches_true. by rewrite Hfirst in Hl.
    + intros (Hr & Hm & Hfirst). split_and!; [lia..|done|].
      intros c Hc. apply not_true_iff_false.
      rewrite header_matches_true. by apply Hfirst.
  - intros (Hr & (v & Hv & Ht & Hres)%header_matches_true & _).
    rewrite ensure_headers_cells.
    destruct (default_at 1 col) as [h|] eqn:D.
    + apply default_at_Some in D as (_ & _ & D).
      assert (col - 1 < 9) as Hlt
        by (apply lookup_lt_Some in D; by cbn in D).
      split; [|lia]. intros [= ->]. exfalso. apply Hk.
      by eapply list_elem_of_lookup_2.
    + assert (10 ≤ col) as Hge.
      { unfold default_at in D. rewrite decide_True in D by lia.
        apply lookup_ge_None in D. cbn in D. lia. }
      split; [done|]. intros _.
      rewrite decide_True by (split; [done|apply elem_of_seq; lia]).
      unfold normal_label. by rewrite Hv, Ht, Hres.
Qed.

Lemma ensure_headers_other_column_witness :
  let ws := sheet_with_headers ["Bid#"; "Award"; "Notes"] in
  (ensure_headers ws).1 !! "Award" = Some 2
  ∧ cell_value (ensure_headers ws).2 1 2 ≠ Some (VStr "Award").
Proof.
  cbv zeta.
  destruct (ensure_headers_other_column
              (sheet_with_headers ["Bid#"; "Award"; "Notes"]) "Award" 2
              Award_not_default) as [_ H].
  assert ((ensure_headers (sheet_with_headers ["Bid#"; "Award"; "Notes"])).1
            !! "Award" = Some 2) as E by (vm_compute; reflexivity).
  split; [exact E|]. intros Hc. apply (H E) in Hc. lia.
Defined.


(** ** The status that an update writes *)

Global Instance same_at_refl row col : Reflexive (same_at row col).
Proof. by intros ws. Qed.

Global Instance same_at_trans row col : Transitive (same_at row col).
Proof. unfold same_at. intros a b c Hab Hbc. by rewrite Hbc, Hab. Qed.

Lemma ensure_headers_Award_column ws col :
  (ensure_headers ws).1 !! "Award" = Some col →
  cell_value ws 1 col = Some (VStr "Award").
Proof.
  rewrite ensure_headers_lookup_other by apply Award_not_default.
  intros (_ & (v & Hv & _ & Hr)%header_matches_true & _)%find_seq_Some.
  by apply label_Award in Hr as ->.
Qed.

Lemma bind_Ok {S A B} (m : M S A) (k : A → M S B) s b s' :
  (m ≫= k) s = (Ok b, s') →
  ∃ a s1, m s = (Ok a, s1) ∧ k a s1 = (Ok b, s').
Proof.
  unfold mbind, M_bind. destruct (m s) as [[a|e1] s1]; [|done].
  intros H. by exists a, s1.
Qed.

Lemma update_body_status bid_number status w ws st :
  cell_value ws 1 9 ≠ Some (VStr "Award") →
  update_body bid_number status (w, ws) = (Ok tt, st) →
  ∃ row,
    get_row_index_by_value ws 2 bid_number = Some row
    ∧ cell_value st.2 row 9
      = if nonempty status then Some (VStr status) else cell_value ws row 9.
Proof.
  intros Hno. unfold update_body. rewrite bind_result.
  unfold on_sheet at 1, run_ensure_headers.
  pose proof (ensure_headers_canonical ws) as Hc.
  pose proof (ensure_headers_Award_column ws 9) as Ha.
  pose proof (get_row_index_ensure_headers ws 2 bid_number) as Hi.
  pose proof (λ r, ensure_headers_data ws r 9) as Hd.
  destruct (ensure_headers ws) as [headers ws1]. cbn [fst snd] in *.
  rewrite bind_result, (header_canonical headers 1 "Bid Number") by done.
  rewrite bind_result. unfold on_sheet at 1, get.
  destruct (get_row_index_by_value ws1 2 bid_number) as [row|] eqn:Hrow; [|done].
  assert (2 ≤ row) as Hrow2 by (by apply get_row_index_Some in Hrow as ([? _] & _)).
  intros H. exists row. split; [by rewrite <- Hi|].
  apply bind_Ok in H as (amount & s1 & H1 & H).
  pose proof (keeps_ask_field (=) headers "Proposal Amount" row (w, ws1)) as K1.
  rewrite H1 in K1. unfold on_sheets in K1. cbn [snd] in K1.
  apply bind_Ok in H as (date & s2 & H2 & H).
  pose proof (keeps_ask_field (=) headers "Proposal Date" row s1) as K2.
  rewrite H2 in K2. unfold on_sheets in K2. cbn [snd] in K2.
  apply bind_Ok in H as (award & s3 & H3 & H).
  pose proof (keeps_sheet_award headers s2) as K3.
  rewrite H3 in K3. unfold on_sheets in K3. cbn [snd] in K3.
  apply bind_Ok in H as ([] & s4 & H4 & H).
  assert (cell_value s4.2 row 9
          = if nonempty status then Some (VStr status) else cell_value ws row 9)
    as Hs4.
  { unfold put_field, has_header in H4.
    rewrite (Hc 8 "Bid Status") in H4 by done.
    rewrite bool_decide_eq_true_2, andb_true_r in H4 by done.
    destruct (nonempty status).
    - unfold header in H4. rewrite (Hc 8 "Bid Status") in H4 by done.
      destruct s3 as [w3 ws3]. injection H4 as <-. cbn [snd].
      apply cell_value_set_cell_eq.
    - injection H4 as <-. rewrite <- Hd by lia. congruence. }
  assert (keeps (on_sheets (same_at row 9))
            (put_field headers "Proposal Amount" row amount;;
             put_field headers "Proposal Date" row date;;
             put_field headers "Award" row award)) as K.
  { repeat (apply keeps_bind; [apply _| |intros _]);
      (apply keeps_put_field; [apply _|]); intros col ws0 Hk;
      apply cell_value_set_cell_ne; intros [= ->].
    - by apply (canonical_lookup _ 7) in Hk.
    - by apply (canonical_lookup _ 6) in Hk.
    - by apply Hno, Ha. }
  specialize (K s4). rewrite H in K. unfold on_sheets, same_at in K.
  cbn [snd] in K. by rewrite K.
Qed.

(** X20.  When [update_bid_status] succeeds on a workbook that nobody
    holds open and whose ninth header is not "Award", the stored sheet holds
    the status that was entered, trimmed, in column 9 of the first row whose
    Bid Number cell matches the bid number that was entered; a status left
    blank keeps the cell as it was. *)
Theorem update_writes_status
  (path : Path) (title : string) (w w1 w2 w' : world) (wb : Workbook)
  (bid_number line : string) :
  files w !! path = Some wb → path ∉ locked w →
  read_non_empty w = (Ok bid_number, w1) →
  input w1 = (Ok line, w2) →
  cell_value (sheet_of wb title) 1 9 ≠ Some (VStr "Award") →
  update_bid_status path title w = (Ok tt, w') →
  ∃ wb' row,
    files w' !! path = Some wb'
    ∧ get_row_index_by_value (sheet_of wb title) 2 bid_number = Some row
    ∧ cell_value (sheet_of wb' title) row 9
      = if nonempty (Text.strip line) then Some (VStr (Text.strip line))
        else cell_value (sheet_of wb title) row 9.
Proof.
  intros Hf Hl H1 H2 Hno H.
  destruct (update_bid_status_unlocked path title w wb bid_number w1 line w2
              Hf Hl H1 H2) as (r & w3 & ws' & E & Hrun).
  rewrite Hrun in H. injection H as -> <-.
  destruct (update_body_status _ _ _ _ _ Hno E) as (row & Hrow & Hcell).
  exists (<[title := ws']> wb), row. cbn [files set_files snd] in *.
  split_and!; [apply lookup_insert_eq|done|by rewrite sheet_of_insert].
Qed.

(** A run of the body of an update on the example sheet, the operator
    leaving the two proposal fields blank. *)
Lemma update_body_demo F L D C :
  (update_body "5" "Won"
     ({| files := F; locked := L; dirs := D; stdin := [""; ""]; clock := C |},
      demo_sheet)).1 = Ok tt.
Proof. vm_compute. reflexivity. Qed.

Lemma update_writes_status_witness :
  let w := demo_world {[ "Bid List" := demo_sheet ]} ∅ []
             ["5"; " Won "; ""; ""] in
  ∃ w' wb',
    update_bid_status demo_book "Bid List" w = (Ok tt, w')
    ∧ files w' !! demo_book = Some wb'
    ∧ cell_value (sheet_of wb' "Bid List") 2 9 = Some (VStr "Won").
Proof.
  intros w.
  assert (files w !! demo_book = Some ({[ "Bid List" := demo_sheet ]} : Workbook))
    as Hf by apply lookup_singleton_eq.
  assert (demo_book ∉ locked w) as Hl by apply not_elem_of_empty.
  destruct (update_bid_status_unlocked demo_book "Bid List" w _ "5"
              (set_stdin [" Won "; ""; ""] w) " Won " (set_stdin [""; ""] w)
              Hf Hl eq_refl eq_refl) as (r & w3 & ws' & E & Hrun).
  rewrite sheet_of_singleton in E.
  pose proof (update_body_demo (files w) (locked w) (dirs w) (clock w)) as Hd.
  change (Text.strip " Won ") with "Won" in E.
  change (set_stdin [""; ""] w)
    with {| files := files w; locked := locked w; dirs := dirs w;
            stdin := [""; ""]; clock := clock w |} in E.
  rewrite E in Hd. cbn [fst] in Hd. subst r.
  destruct (update_writes_status demo_book "Bid List" w
              (set_stdin [" Won "; ""; ""] w) (set_stdin [""; ""] w)
              (set_files
                 (<[demo_book := <["Bid List" := ws']>
                                   {[ "Bid List" := demo_sheet ]}]>
                    (files w)) w3)
              {[ "Bid List" := demo_sheet ]} "5" " Won "
              Hf Hl eq_refl eq_refl)
    as (wb' & row & Hw & Hrow & Hcell).
  - rewrite sheet_of_singleton. by vm_compute.
  - exact Hrun.
  - rewrite sheet_of_singleton in Hrow.
    assert (get_row_index_by_value demo_sheet 2 "5" = Some 2) as Hrow2
      by (vm_compute; reflexivity).
    rewrite Hrow2 in Hrow. injection Hrow as <-.
    eexists _, wb'. split; [exact Hrun|]. split; [exact Hw|exact Hcell].
Defined.


(** ** A second call of [ensure_headers] *)

(** X21.  [ensure_headers] is idempotent on the sheet: called on the
    sheet that a first call has left it changes no cell; and the mapping it
    then returns has no entry that points at another header, each key
    standing in row 1 at the column the mapping gives for it. *)
Theorem ensure_headers_idempotent (ws : Worksheet) :
  let ws1 := (ensure_headers ws).2 in
  (ensure_headers ws1).2 = ws1
  ∧ ∀ key col,
      (ensure_headers ws1).1 !! key = Some col →
      cell_value ws1 1 col = Some (VStr key).
Proof.
  cbv zeta. pose proof (ensure_headers_normal ws) as Hn.
  split; [by apply ensure_headers_fixed|].
  set (ws1 := (ensure_headers ws).2) in *. intros key col H.
  destruct Hn as [Hdef Hnorm].
  destruct (decide (key ∈ HEADER_DEFAULTS)) as [Hin|Hout].
  - apply list_elem_of_lookup in Hin as [i Hi].
    rewrite (ensure_headers_default ws1 i key Hi) in H. injection H as <-.
    by apply Hdef.
  - rewrite ensure_headers_lookup_other in H by done.
    apply find_seq_Some in H as (Hr & (v & Hv & Ht & Hres)%header_matches_true & _).
    specialize (Hnorm col ltac:(apply elem_of_seq; lia)).
    rewrite Hv in Hnorm. unfold normal_label in Hnorm. rewrite Ht in Hnorm.
    rewrite Hv. rewrite <- Hnorm. by rewrite Hres.
Qed.

(** ** The name of the side copy *)

Lemma rfind_dot_Some l : ∀ i,
  rfind_dot l = Some i →
  ∃ rest, l = take i l ++ "."%char :: rest ∧ rfind_dot rest = None
          ∧ length (take i l) = i.
Proof.
  induction l as [|c l IH]; intros i; [done|]. cbn [rfind_dot].
  destruct (rfind_dot l) as [j|] eqn:E.
  - intros [= <-]. destruct (IH j eq_refl) as (rest & Hl & Hr & Hlen).
    exists rest. cbn [take]. split_and!; [|done|by cbn; rewrite Hlen].
    cbn. by rewrite <- Hl.
  - destruct (Text.is_code 46 c) eqn:Ec; [|done]. intros [= <-].
    apply is_code_eq in Ec as ->. by exists l.
Qed.

Lemma rfind_dot_app a rest :
  rfind_dot rest = None → rfind_dot (a ++ "."%char :: rest) = Some (length a).
Proof.
  intros Hr. induction a as [|c a IH]; cbn [app rfind_dot length].
  - by rewrite Hr.
  - by rewrite IH.
Qed.

Lemma split_suffix_Some path :
  suffix path ≠ "" →
  ∃ front rest,
    Text.chars (name path) = front ++ "."%char :: rest
    ∧ front ≠ [] ∧ rest ≠ [] ∧ rfind_dot rest = None
    ∧ stem path = Text.text front
    ∧ suffix path = Text.text ("."%char :: rest).
Proof.
  unfold suffix, stem, split_suffix.
  destruct (rfind_dot (Text.chars (name path))) as [[|i]|] eqn:E; [done| |done].
  case_decide as Hlt; [|done]. intros _. cbn [fst snd].
  destruct (rfind_dot_Some _ _ E) as (rest & Hl & Hr & Hlen).
  set (l := Text.chars (name path)) in *.
  exists (take (S i) l), rest.
  assert (drop (S i) l = "."%char :: rest) as Hd.
  { rewrite Hl at 1. rewrite drop_app_length'; done. }
  split_and!; [done| | |done|done|by rewrite Hd].
  - intros Hnil. by rewrite Hnil in Hlen.
  - intros ->. rewrite Hl, length_app, Hlen in Hlt. cbn in Hlt. lia.
Qed.

(** X22.  The side copy keeps the extension of the workbook: when the
    name of the workbook has a suffix, [get_pending_save_path] returns, in
    the same directory, a name with the same suffix, whose stem is the stem
    of the workbook, " - Pending Update " and the time stamp; for a path
    with no name it raises [ValueError]. *)
Theorem get_pending_save_path_keeps_suffix (path : Path) (w : world) :
  (suffix path ≠ "" →
   ∃ side,
     get_pending_save_path path w = (Ok side, w)
     ∧ parent side = parent path
     ∧ suffix side = suffix path
     ∧ stem side
       = stem path +:+ " - Pending Update " +:+ strftime (clock w))
  ∧ (name path = "" → get_pending_save_path path w = (Raise ValueError, w)).
Proof.
  split.
  - intros Hs.
    destruct (split_suffix_Some path Hs)
      as (front & rest & Hl & Hf & Hr & Hnone & Hstem & Hsuf).
    assert (name path ≠ "") as Hname.
    { intros E. rewrite E in Hl. by destruct front. }
    exists (side_path path (clock w)).
    split; [by apply get_pending_save_path_run|]. split; [done|].
    set (mid := Text.chars (" - Pending Update " +:+ strftime (clock w))).
    assert (Text.chars (name (side_path path (clock w)))
            = (front ++ mid) ++ "."%char :: rest) as Hnew.
    { unfold side_path. cbn [name]. rewrite Hstem, Hsuf.
      rewrite !chars_app, !chars_text. unfold mid. rewrite chars_app.
      by rewrite <- !app_assoc. }
    assert (split_suffix (side_path path (clock w))
            = (Text.text (front ++ mid), Text.text ("."%char :: rest))) as Hsplit.
    { unfold split_suffix. rewrite Hnew, (rfind_dot_app _ _ Hnone).
      destruct (length (front ++ mid)) as [|n] eqn:Hlen.
      { apply length_zero_iff_nil, app_eq_nil in Hlen as [? _]. done. }
      rewrite decide_True.
      2: { rewrite length_app, Hlen. cbn [length]. destruct rest; [done|].
           cbn [length]. lia. }
      rewrite <- Hlen. by rewrite take_app_length, drop_app_length. }
    unfold suffix at 1, stem at 1. rewrite Hsplit. cbn [fst snd].
    split; [done|]. rewrite text_app, Hstem. unfold mid.
    by rewrite text_chars.
  - intros Hn. unfold get_pending_save_path, with_name, mbind, M_bind, get.
    by rewrite decide_True.
Qed.

Lemma get_pending_save_path_keeps_suffix_witness :
  suffix demo_book = ".xlsx"
  ∧ ∃ side, get_pending_save_path demo_book (demo_world ∅ ∅ [] []) = (Ok side, demo_world ∅ ∅ [] [])
            ∧ suffix side = suffix demo_book.
Proof.
  split; [reflexivity|].
  destruct (get_pending_save_path_keeps_suffix demo_book (demo_world ∅ ∅ [] []))
    as [H _].
  destruct H as (side & H1 & _ & H2 & _); [discriminate|].
  by exists side.
Defined.


(** ** The folders of the bid root *)








(** ** The header row after a synchronisation *)


